(** * VisDoMRAG: retrieval, alignment and fusion pipeline

    A shallow embedding of [visdomrag.py] (class [VisDoMRAG]) and the
    properties of its retrieval-and-fusion engine.  External collaborators
    (PDF text extraction, OCR, the text splitter, the ranking and embedding
    models, the vector store, the generation backend, [eval] on dataset
    cells, the disk) are type classes whose methods stand for the calls the
    pipeline makes; everything written in the pipeline itself is a Rocq
    function over them.  An exception is modelled by [None].

    Python [str] values are modelled as [string]; one [ascii] stands for one
    code point below 256.  Scores, distances and similarity ratios, floats
    in the source, are modelled as exact rationals [Q]: only their order and
    [1 - d] are used, and there is no NaN. *)

From Stdlib Require Import Strings.String Strings.Ascii Lists.List Arith.Arith
  Bool.Bool QArith.QArith Lia Sorting.Sorted Numbers.DecimalString
  Init.Decimal.
From Stdlib Require Numbers.DecimalNat Numbers.DecimalFacts.
Import ListNotations.

Set Warnings "-register-all".

Local Close Scope Q_scope.
Local Open Scope list_scope.
Local Open Scope string_scope.
Local Open Scope nat_scope.

(* ================================================================== *)
(** * Python string primitives used by the pipeline *)
(* ================================================================== *)

Module PyStr.

(** [str.isspace] on one code point below 256: TAB..CR, FS..US, SPACE,
    NEL (0x85) and NBSP (0xA0). *)
Definition is_space (c : ascii) : bool :=
  let n := nat_of_ascii c in
  ((9 <=? n) && (n <=? 13)) || ((28 <=? n) && (n <=? 32))
  || (n =? 133) || (n =? 160).

(** [s.lstrip()] *)
Fixpoint lstrip (s : string) : string :=
  match s with
  | "" => ""
  | String c s' => if is_space c then lstrip s' else s
  end.

(** [s.rstrip()] *)
Fixpoint rstrip (s : string) : string :=
  match s with
  | "" => ""
  | String c s' =>
      match rstrip s' with
      | "" => if is_space c then "" else String c ""
      | r => String c r
      end
  end.

(** [s.strip()] *)
Definition strip (s : string) : string := rstrip (lstrip s).

(** [not s.strip()]: the string is empty or whitespace only. *)
Definition is_blank (s : string) : bool :=
  match strip s with "" => true | _ => false end.

(** [s.lstrip(c)], [s.rstrip(c)], [s.strip(c)] for a one-character set. *)
Fixpoint lstrip_char (c : ascii) (s : string) : string :=
  match s with
  | "" => ""
  | String a s' => if Ascii.eqb a c then lstrip_char c s' else s
  end.

Fixpoint rstrip_char (c : ascii) (s : string) : string :=
  match s with
  | "" => ""
  | String a s' =>
      match rstrip_char c s' with
      | "" => if Ascii.eqb a c then "" else String a ""
      | r => String a r
      end
  end.

Definition strip_char (c : ascii) (s : string) : string :=
  rstrip_char c (lstrip_char c s).

(** [s.startswith(p)] *)
Fixpoint startswith (p s : string) : bool :=
  match p with
  | "" => true
  | String a p' =>
      match s with
      | "" => false
      | String b s' => Ascii.eqb a b && startswith p' s'
      end
  end.

(** [s[n:]] for [n >= 0] *)
Fixpoint drop (n : nat) (s : string) : string :=
  match n with
  | 0 => s
  | S n' => match s with "" => "" | String _ s' => drop n' s' end
  end.

(** [sep in s] for a non-empty [sep]. *)
Fixpoint occurs (sep s : string) : bool :=
  match s with
  | "" => false
  | String _ s' => startswith sep s || occurs sep s'
  end.

(** [s.partition(sep)] for a non-empty [sep]: the text before and after the
    first occurrence of [sep], or [None] when [sep] does not occur. *)
Fixpoint cut (sep s : string) : option (string * string) :=
  match s with
  | "" => None
  | String a s' =>
      if startswith sep s then Some ("", drop (String.length sep) s)
      else match cut sep s' with
           | Some (h, t) => Some (String a h, t)
           | None => None
           end
  end.

(** [s.split(sep)[0]] for a non-empty [sep]. *)
Definition before_first (sep s : string) : string :=
  match cut sep s with
  | Some (h, _) => h
  | None => s
  end.

(** [s.rsplit(c, 1)] for a one-character separator: [Some (head, tail)]
    around the last [c], [None] (a one-element list in Python) when [c] does
    not occur. *)
Fixpoint rsplit1 (c : ascii) (s : string) : option (string * string) :=
  match s with
  | "" => None
  | String a s' =>
      match rsplit1 c s' with
      | Some (h, t) => Some (String a h, t)
      | None => if Ascii.eqb a c then Some ("", s') else None
      end
  end.

(** [s.split(c)] for a one-character separator (never an empty list). *)
Fixpoint split_char (c : ascii) (s : string) : list string :=
  match s with
  | "" => [""]
  | String a s' =>
      if Ascii.eqb a c then "" :: split_char c s'
      else match split_char c s' with
           | [] => [String a ""]
           | w :: ws => String a w :: ws
           end
  end.

(** [s.split()]: maximal runs of non-whitespace characters. *)
Fixpoint split_ws_aux (cur : string) (s : string) : list string :=
  match s with
  | "" => match cur with "" => [] | _ => [cur] end
  | String a s' =>
      if is_space a
      then match cur with
           | "" => split_ws_aux "" s'
           | _ => cur :: split_ws_aux "" s'
           end
      else split_ws_aux (cur ++ String a "") s'
  end.

Definition split_ws (s : string) : list string := split_ws_aux "" s.

(** [c * n] *)
Fixpoint repeat_char (c : ascii) (n : nat) : string :=
  match n with 0 => "" | S n' => String c (repeat_char c n') end.

(** [s.ljust(width, fill)]: pads on the right. *)
Definition ljust (width : nat) (fill : ascii) (s : string) : string :=
  s ++ repeat_char fill (width - String.length s).

(** [s.endswith(p)] *)
Fixpoint endswith (p s : string) : bool :=
  match s with
  | "" => match p with "" => true | _ => false end
  | String _ s' => String.eqb p s || endswith p s'
  end.

(** [s.replace(a, b)] for single characters. *)
Fixpoint replace_char (a b : ascii) (s : string) : string :=
  match s with
  | "" => ""
  | String c s' =>
      String (if Ascii.eqb c a then b else c) (replace_char a b s')
  end.

(** [str(n)] / the f-string rendering of a non-negative [int]. *)
Definition of_nat (n : nat) : string :=
  NilEmpty.string_of_uint (Nat.to_uint n).

(** [sep.join(ls)] *)
Definition join (sep : string) (ls : list string) : string :=
  String.concat sep ls.

(** The whitespace [int] ignores around a numeral.  It is narrower than
    [str.isspace]: the ASCII whitespace TAB..CR and SPACE, and NEL (0x85)
    and NBSP (0xA0), which [int] turns into spaces before it parses a text
    that is not ASCII.  The separators FS..US (0x1C..0x1F) are not ignored:
    [int] raises [ValueError] on them. *)
Definition is_int_space (c : ascii) : bool :=
  let n := nat_of_ascii c in
  ((9 <=? n) && (n <=? 13)) || (n =? 32) || (n =? 133) || (n =? 160).

Fixpoint int_lstrip (s : string) : string :=
  match s with
  | "" => ""
  | String c s' => if is_int_space c then int_lstrip s' else s
  end.

Fixpoint int_rstrip (s : string) : string :=
  match s with
  | "" => ""
  | String c s' =>
      match int_rstrip s' with
      | "" => if is_int_space c then "" else String c ""
      | r => String c r
      end
  end.

Definition digit_val (c : ascii) : option nat :=
  let n := nat_of_ascii c in
  if (48 <=? n) && (n <=? 57) then Some (n - 48) else None.

Fixpoint digits_val (acc : nat) (s : string) : option nat :=
  match s with
  | "" => Some acc
  | String c s' =>
      match digit_val c with
      | Some d => digits_val (10 * acc + d) s'
      | None => None
      end
  end.

(** [int(s)] on a string without underscores: the whitespace of
    [is_int_space] around the numeral is ignored, then one optional sign,
    then at least one decimal digit. *)
Definition py_int (s : string) : option Z :=
  let unsigned (t : string) : option nat :=
    match t with "" => None | _ => digits_val 0 t end in
  match int_rstrip (int_lstrip s) with
  | String "-" t => option_map (fun n => (- Z.of_nat n)%Z) (unsigned t)
  | String "+" t => option_map Z.of_nat (unsigned t)
  | t => option_map Z.of_nat (unsigned t)
  end.

(** No proper non-empty suffix of [h] is also a prefix of [h]: two
    occurrences of [h] in a text cannot overlap. *)
Definition unbordered (h : string) : bool :=
  forallb (fun k => negb (startswith (drop k h) h))
          (seq 1 (String.length h - 1)).

End PyStr.

(** [os.path] helpers (POSIX flavour). *)
Module OsPath.

(** [os.path.join(a, b)] *)
Definition join (a b : string) : string :=
  if PyStr.startswith "/" b then b
  else if (String.eqb a "") || PyStr.endswith "/" a then a ++ b
  else a ++ "/" ++ b.

(** [os.path.basename(p)]: the text after the last slash. *)
Definition basename (p : string) : string :=
  match PyStr.rsplit1 "/" p with
  | Some (_, t) => t
  | None => p
  end.

(** Is every character of [s] a dot? *)
Fixpoint all_dots (s : string) : bool :=
  match s with
  | "" => true
  | String c s' => Ascii.eqb c "." && all_dots s'
  end.

(** [os.path.splitext(p)[0]]: the last dot of the last path component starts
    the extension, unless only dots precede it in that component. *)
Definition splitext_root (p : string) : string :=
  let (dir, base) :=
    match PyStr.rsplit1 "/" p with
    | Some (d, b) => (d ++ "/", b)
    | None => ("", p)
    end in
  match PyStr.rsplit1 "." base with
  | Some (stem, _) => if all_dots stem then p else dir ++ stem
  | None => p
  end.

End OsPath.

(** An insertion-ordered Python [dict] with string keys. *)
Module PyDict.

Definition t (V : Type) := list (string * V).

(** [d.get(k)] / [d[k]] *)
Fixpoint get {V : Type} (k : string) (d : t V) : option V :=
  match d with
  | [] => None
  | (k', v) :: d' => if String.eqb k k' then Some v else get k d'
  end.

(** [k in d] *)
Definition mem {V : Type} (k : string) (d : t V) : bool :=
  match get k d with Some _ => true | None => false end.

(** [d[k] = v]: an existing key keeps its position, a new key goes last. *)
Fixpoint set {V : Type} (k : string) (v : V) (d : t V) : t V :=
  match d with
  | [] => [(k, v)]
  | (k', v') :: d' =>
      if String.eqb k k' then (k, v) :: d' else (k', v') :: set k v d'
  end.

Definition keys {V : Type} (d : t V) : list string := map fst d.

End PyDict.

(** A Python [set] of strings, enumerated in first-insertion order.  The
    source iterates sets in hash order, which Python leaves unspecified; no
    result below depends on the order chosen here. *)
Module PySet.

Definition t := list string.

Definition mem (x : string) (s : t) : bool := existsb (String.eqb x) s.

Definition add (x : string) (s : t) : t :=
  if mem x s then s else (s ++ [x])%list.

Definition update (xs : list string) (s : t) : t :=
  fold_left (fun acc x => add x acc) xs s.

End PySet.

(* ================================================================== *)
(** * The dataset ([self.df]) and the pipeline configuration *)
(* ================================================================== *)

Module Dataset.

(** One optional CSV cell: the column may be absent from the table, the cell
    may be empty (pandas reads it as the float NaN), or it holds text. *)
Inductive cell : Type :=
| NoColumn
| NaN
| Text (s : string).

Record row : Type := mk_row {
  q_id : string;
  question : string;
  answer : string;
  documents : cell;
  doc_path : cell
}.

Definition t := list row.

(** [isinstance(doc_path, str) and doc_path.strip()] *)
Definition nonblank_text (c : cell) : option string :=
  match c with
  | Text s => if PyStr.is_blank s then None else Some s
  | _ => None
  end.

End Dataset.

(** The Python values the pipeline puts into its artifacts and reads from
    them: [None], text, integers, lists and dictionaries with text keys,
    and [JOther] for any other value, be it a float, a boolean, or an
    object such as a builtin or a set.  [dumps] tells whether [json.dump]
    writes the value or raises [TypeError] on it, and [truth] is its truth
    value.  A tuple counts as a list and a dictionary key as its text, the
    way [json.dump] writes them. *)
Inductive json : Type :=
| JNull
| JStr (s : string)
| JNum (n : Z)
| JList (l : list json)
| JObj (o : list (string * json))
| JOther (dumps truth : bool).

(** [json.dump] accepts the value: no part of it is an object that the
    encoder rejects. *)
Fixpoint serialisable (j : json) : bool :=
  match j with
  | JNull | JStr _ | JNum _ => true
  | JList l => forallb serialisable l
  | JObj o => forallb (fun '(_, v) => serialisable v) o
  | JOther dumps _ => dumps
  end.

(** [eval] applied to a dataset cell.  [None] stands for any exception. *)
Class PyEval : Type := {
  (** [eval(row['documents'])], a list of document names. *)
  eval_documents : string -> option (list string);
  (** [eval(query_row['answer'])]: whatever Python value the expression
      denotes, a list or a dictionary literal as well as a number, a
      builtin or any other object. *)
  eval_answer : string -> option json
}.

(** The [documents] cell of a row through [eval]: [Some docs] when the
    expression evaluates, [None] when [eval] raises (also on NaN). *)
Definition eval_documents_cell `{PyEval} (c : Dataset.cell)
  : option (list string) :=
  match c with
  | Dataset.Text s => eval_documents s
  | _ => None
  end.

(* ================================================================== *)
(** * Document cache builder and chunk aligner *)
(* ================================================================== *)

(** PyPDF2, pdf2image, pytesseract and the file system. *)
Class PdfBackend : Type := {
  Image : Type;
  (** [os.path.exists] *)
  path_exists : string -> bool;
  (** [[page.extract_text() for page in PdfReader(open(path)).pages]];
      [None] when opening or reading raises. *)
  pdf_reader_pages : string -> option (list string);
  (** [pdf2image.convert_from_path]; [None] when it raises. *)
  convert_from_path : string -> option (list Image);
  (** [pytesseract.image_to_string]; [None] when it raises. *)
  image_to_string : Image -> option string
}.

(** [difflib.SequenceMatcher(None, a, b).ratio()] *)
Class Similarity : Type := {
  ratio : string -> string -> Q
}.

Module DocCache.

Definition nl : string := String (ascii_of_nat 10) "".

(** The page string appended by the OCR loop:
    [f"--- Page {page_num + 1} ---\n{text}\n"]. *)
Definition ocr_page_text (page_num : nat) (text : string) : string :=
  "--- Page " ++ PyStr.of_nat (page_num + 1) ++ " ---" ++ nl ++ text ++ nl.

(** The OCR loop over [enumerate(pdf_images)], from page [page_num] on. *)
Fixpoint ocr_pages `{PdfBackend} (page_num : nat) (pdf_images : list Image)
  : option (list string) :=
  match pdf_images with
  | [] => Some []
  | page_img :: rest =>
      match image_to_string page_img with
      | None => None
      | Some text =>
          match ocr_pages (S page_num) rest with
          | None => None
          | Some pages => Some (ocr_page_text page_num text :: pages)
          end
      end
  end.

(** The body of the [try] block of [extract_text_from_pdf]; [None] when an
    exception escapes it. *)
Definition extract_text_try `{PdfBackend} (pdf_path : string)
  : option (list string) :=
  match pdf_reader_pages pdf_path with
  | None => None
  | Some pages =>
      if existsb PyStr.is_blank pages then
        match convert_from_path pdf_path with
        | None => None
        | Some pdf_images => ocr_pages 0 pdf_images
        end
      else Some pages
  end.

(** [extract_text_from_pdf]: the [except] clause returns the empty list. *)
Definition extract_text_from_pdf `{PdfBackend} (pdf_path : string)
  : list string :=
  match extract_text_try pdf_path with
  | Some pages => pages
  | None => []
  end.

(** [unique_docs] as collected by [cache_documents] from one row. *)
Definition add_row_docs `{PyEval} (unique_docs : PySet.t) (r : Dataset.row)
  : PySet.t :=
  let after_documents :=
    match Dataset.documents r with
    | Dataset.NoColumn => unique_docs
    | c => match eval_documents_cell c with
           | Some docs => PySet.update docs unique_docs
           | None => unique_docs
           end
    end in
  match Dataset.nonblank_text (Dataset.doc_path r) with
  | Some p =>
      PySet.add (PyStr.before_first "." (OsPath.basename p)) after_documents
  | None => after_documents
  end.

Definition unique_docs `{PyEval} (df : Dataset.t) : PySet.t :=
  fold_left add_row_docs df [].

(** [possible_paths] for one document id. *)
Definition possible_paths (pdf_dir doc_id : string) : list string :=
  [ OsPath.join pdf_dir doc_id;
    OsPath.join pdf_dir (doc_id ++ ".pdf");
    OsPath.join pdf_dir (PyStr.ljust 10 "0" doc_id ++ ".pdf");
    OsPath.join pdf_dir (PyStr.before_first "_" doc_id ++ ".pdf") ].

(** The [for pdf_path in possible_paths: if exists: ...; break] scan. *)
Fixpoint first_existing `{PdfBackend} (paths : list string) : option string :=
  match paths with
  | [] => None
  | pdf_path :: rest =>
      if path_exists pdf_path then Some pdf_path else first_existing rest
  end.

(** The dictionary being filled and the warnings logged so far. *)
Record cache_state : Type := mk_cache_state {
  cache : PyDict.t (list string);
  warnings : list string
}.

Definition no_pdf_warning (doc_id : string) : string :=
  "No PDF file found for document " ++ doc_id.

(** One iteration of [for doc_id in unique_docs]. *)
Definition cache_one `{PdfBackend} (pdf_dir : string) (st : cache_state)
  (doc_id : string) : cache_state :=
  match first_existing (possible_paths pdf_dir doc_id) with
  | Some pdf_path =>
      mk_cache_state
        (PyDict.set doc_id (extract_text_from_pdf pdf_path) (cache st))
        (warnings st)
  | None =>
      mk_cache_state (cache st) (warnings st ++ [no_pdf_warning doc_id])%list
  end.

Definition cache_loop `{PdfBackend} (pdf_dir : string) (docs : list string)
  : cache_state :=
  fold_left (cache_one pdf_dir) docs (mk_cache_state [] []).

(** [cache_documents]: [pdf_dir = os.path.join(data_dir, "docs")]. *)
Definition cache_documents `{PdfBackend} `{PyEval} (data_dir : string)
  (df : Dataset.t) : cache_state :=
  cache_loop (OsPath.join data_dir "docs") (unique_docs df).

(** [ratio > max_ratio] *)
Definition Qgtb (a b : Q) : bool := negb (Qle_bool a b).

(** The running [(max_ratio, best_match)]; [best_match = (None, None)] is
    [None]. *)
Definition best : Type := (Q * option (string * nat))%type.

(** The inner loop [for page_num, page_text in enumerate(pages)], from page
    [page_num] on. *)
Fixpoint scan_pages `{Similarity} (chunk arxiv_id : string) (page_num : nat)
  (pages : list string) (st : best) : best :=
  match pages with
  | [] => st
  | page_text :: rest =>
      let r := ratio chunk page_text in
      let st' :=
        if Qgtb r (fst st) then (r, Some (arxiv_id, page_num)) else st in
      scan_pages chunk arxiv_id (S page_num) rest st'
  end.

(** [identify_document_and_page] *)
Definition identify_document_and_page `{Similarity}
  (document_cache : PyDict.t (list string)) (chunk : string)
  : option (string * nat) :=
  snd (fold_left
         (fun st '(arxiv_id, pages) => scan_pages chunk arxiv_id 0 pages st)
         document_cache (0%Q, None)).

(** One entry of [chunk_to_doc_mapping]. *)
Record chunk_info : Type := mk_chunk_info {
  chunk : string;
  chunk_pdf_name : string;
  pdf_page_number : nat
}.

(** Truth value of a Python [str]. *)
Definition truthy (s : string) : bool := negb (String.eqb s "").

(** The mapping entry [build_text_index] appends for a chunk of the document
    [doc_id]: [arxiv_id if arxiv_id else doc_id] and
    [page_num if page_num is not None else 0]. *)
Definition assign_chunk `{Similarity}
  (document_cache : PyDict.t (list string)) (doc_id chunk : string)
  : chunk_info :=
  let best_match := identify_document_and_page document_cache chunk in
  mk_chunk_info chunk
    (match best_match with
     | Some (arxiv_id, _) => if truthy arxiv_id then arxiv_id else doc_id
     | None => doc_id
     end)
    (match best_match with
     | Some (_, page_num) => page_num
     | None => 0
     end).

(** Every cached page in encounter order: documents in dictionary order,
    pages in page order, each with its document id and page index. *)
Definition enumerate_pages (arxiv_id : string) (start : nat)
  (pages : list string) : list (string * nat * string) :=
  map (fun '(n, t) => (arxiv_id, n, t))
      (combine (seq start (List.length pages)) pages).

Definition encounter (document_cache : PyDict.t (list string))
  : list (string * nat * string) :=
  flat_map (fun '(arxiv_id, pages) => enumerate_pages arxiv_id 0 pages)
           document_cache.

(** One comparison of the scan, on a page in encounter order. *)
Definition scan_step `{Similarity} (chunk : string) (st : best)
  (x : string * nat * string) : best :=
  if Qgtb (ratio chunk (snd x)) (fst st)
  then (ratio chunk (snd x), Some (fst x))
  else st.

(** What the scan knows after the pages [l]: the running maximum bounds
    every ratio seen, and the running best match is the first page that
    reaches it. *)
Definition scan_inv `{Similarity} (chunk : string)
  (l : list (string * nat * string)) (st : best) : Prop :=
  (forall y, In y l -> (ratio chunk (snd y) <= fst st)%Q)
  /\ match snd st with
     | None => (fst st == 0)%Q
     | Some key =>
         (0 < fst st)%Q
         /\ exists i text,
             nth_error l i = Some (key, text)
             /\ (ratio chunk text == fst st)%Q
             /\ forall j y, j < i -> nth_error l j = Some y ->
                            (ratio chunk (snd y) < fst st)%Q
     end.

End DocCache.

(* ================================================================== *)
(** * Python list primitives *)
(* ================================================================== *)

Module PyList.

(** [l[i]] with Python's negative indices; [None] is [IndexError]. *)
Definition index {A : Type} (l : list A) (i : Z) : option A :=
  let n := Z.of_nat (List.length l) in
  if (0 <=? i)%Z then nth_error l (Z.to_nat i)
  else if (- n <=? i)%Z then nth_error l (Z.to_nat (n + i))
  else None.

(** One step of a stable sort by descending key: [x] goes before the first
    element whose key is not greater than its own. *)
Fixpoint insert_desc {A : Type} (key : A -> Q) (x : A) (l : list A)
  : list A :=
  match l with
  | [] => [x]
  | y :: l' =>
      if DocCache.Qgtb (key y) (key x) then y :: insert_desc key x l'
      else x :: l
  end.

(** [sorted(l, key=key, reverse=True)]: descending, equal keys keep their
    original order. *)
Definition sorted_desc {A : Type} (key : A -> Q) (l : list A) : list A :=
  fold_right (insert_desc key) [] l.

(** One step of a stable sort by ascending natural key. *)
Fixpoint insert_asc {A : Type} (key : A -> nat) (x : A) (l : list A)
  : list A :=
  match l with
  | [] => [x]
  | y :: l' =>
      if key y <? key x then y :: insert_asc key x l' else x :: l
  end.

Definition sorted_asc {A : Type} (key : A -> nat) (l : list A) : list A :=
  fold_right (insert_asc key) [] l.

(** [enumerate(l)] *)
Definition enumerate {A : Type} (l : list A) : list (nat * A) :=
  combine (seq 0 (List.length l)) l.

(** Every element is [Some]: the list of contents, else [None]. *)
Fixpoint all_some {A : Type} (l : list (option A)) : option (list A) :=
  match l with
  | [] => Some []
  | None :: _ => None
  | Some x :: rest =>
      match all_some rest with
      | Some xs => Some (x :: xs)
      | None => None
      end
  end.

End PyList.

(* ================================================================== *)
(** * Textual index builder *)
(* ================================================================== *)

(** [RecursiveCharacterTextSplitter(chunk_size, chunk_overlap).split_text] *)
Class TextSplitter : Type := {
  split_text : string -> list string
}.

(** The two ranking collaborators: [rank_bm25.BM25Okapi] and a Chroma
    collection.  [None] stands for a raised exception. *)
Class TextRanker : Type := {
  (** [BM25Okapi(corpus)] succeeds. *)
  bm25_fit : list (list string) -> bool;
  (** [bm25_model.get_scores(tokens)] for the model fitted on the corpus. *)
  bm25_get_scores : list (list string) -> list string -> option (list Q);
  (** [create_collection] and [collection.add(documents, ids)] succeed. *)
  store_add : list string -> list string -> bool;
  (** [collection.query(query_texts=[q], n_results=n)]:
      [(ids[0], distances[0])]. *)
  store_query :
    list string -> string -> nat -> option (list string * list Q)
}.

Inductive text_retriever : Type := bm25 | minilm | mpnet | bge.

Module TextIndex.

(** One record of the textual retrieval table. *)
Record row : Type := mk_row {
  q_id : string;
  question : string;
  chunk : string;
  chunk_pdf_name : string;
  pdf_page_number : nat;
  rank : nat;
  score : Q
}.

(** [chunk_to_doc_mapping] entries of one cached document. *)
Definition chunks_of_doc `{Similarity} `{TextSplitter}
  (document_cache : PyDict.t (list string))
  (entry : string * list string) : list DocCache.chunk_info :=
  let (doc_id, pages) := entry in
  let all_text := PyStr.join DocCache.nl pages in
  map (DocCache.assign_chunk document_cache doc_id) (split_text all_text).

Definition chunk_to_doc_mapping `{Similarity} `{TextSplitter}
  (document_cache : PyDict.t (list string)) : list DocCache.chunk_info :=
  flat_map (chunks_of_doc document_cache) document_cache.

Definition all_chunks `{Similarity} `{TextSplitter}
  (document_cache : PyDict.t (list string)) : list string :=
  map DocCache.chunk (chunk_to_doc_mapping document_cache).

(** The row-appending loop over [(index, score)] pairs, ranks counted from
    [rank].  An [IndexError] ends the loop; the rows appended before it stay
    in [results]. *)
Fixpoint emit_rows (q question : string)
  (mapping : list DocCache.chunk_info) (chunks : list string)
  (rank : nat) (items : list (Z * Q)) : list row :=
  match items with
  | [] => []
  | (idx, sc) :: rest =>
      match PyList.index mapping idx, PyList.index chunks idx with
      | Some chunk_info, Some ch =>
          mk_row q question ch
                 (DocCache.chunk_pdf_name chunk_info)
                 (DocCache.pdf_page_number chunk_info)
                 (rank + 1) sc
          :: emit_rows q question mapping chunks (S rank) rest
      | _, _ => []
      end
  end.

(** [top_indices]: the [2 * top_k] best indices by descending BM25 score. *)
Definition top_indices (top_k : nat) (scores : list Q) : list nat :=
  firstn (top_k * 2)
    (PyList.sorted_desc (fun i => nth i scores 0%Q)
                        (seq 0 (List.length scores))).

(** The rows of one query under BM25. *)
Definition bm25_rows `{TextRanker} (top_k : nat)
  (mapping : list DocCache.chunk_info) (chunks : list string)
  (r : Dataset.row) : list row :=
  match bm25_get_scores (map PyStr.split_ws chunks)
                        (PyStr.split_ws (Dataset.question r)) with
  | None => []
  | Some scores =>
      emit_rows (Dataset.q_id r) (Dataset.question r) mapping chunks 0
        (map (fun idx => (Z.of_nat idx, nth idx scores 0%Q))
             (top_indices top_k scores))
  end.

(** [int(id.split('_')[1])] *)
Definition chunk_index_of_id (id : string) : option Z :=
  match nth_error (PyStr.split_char "_" id) 1 with
  | Some t => PyStr.py_int t
  | None => None
  end.

(** [f"chunk_{i}"] for every chunk position. *)
Definition chunk_ids (chunks : list string) : list string :=
  map (fun i => "chunk_" ++ PyStr.of_nat i) (seq 0 (List.length chunks)).

(** The rows of one query under a dense retriever; the score of a row is
    [1 - distance]. *)
Definition dense_rows `{TextRanker} (top_k : nat)
  (mapping : list DocCache.chunk_info) (chunks : list string)
  (r : Dataset.row) : list row :=
  match store_query chunks (Dataset.question r) (top_k * 2) with
  | None => []
  | Some (ids, distances) =>
      match PyList.all_some (map chunk_index_of_id ids) with
      | None => []
      | Some idxs =>
          emit_rows (Dataset.q_id r) (Dataset.question r) mapping chunks 0
            (combine idxs (map (fun d => (1 - d)%Q) distances))
      end
  end.

(** The rows [build_text_index] writes to the retrieval table for the given
    document cache, or [None] when the build fails as a whole. *)
Definition text_index_rows `{Similarity} `{TextSplitter} `{TextRanker}
  (retriever : text_retriever) (top_k : nat) (df : Dataset.t)
  (document_cache : PyDict.t (list string)) : option (list row) :=
  let mapping := chunk_to_doc_mapping document_cache in
  let chunks := all_chunks document_cache in
  match retriever with
  | bm25 =>
      if bm25_fit (map PyStr.split_ws chunks)
      then Some (flat_map (bm25_rows top_k mapping chunks) df)
      else None
  | _ =>
      if store_add chunks (chunk_ids chunks)
      then Some (flat_map (dense_rows top_k mapping chunks) df)
      else None
  end.

(** The rows of the table that belong to one query id. *)
Definition rows_of (q : string) (table : list row) : list row :=
  filter (fun x => String.eqb (q_id x) q) table.


End TextIndex.

(* ================================================================== *)
(** * Visual index builder *)
(* ================================================================== *)

(** The multi-vector embedding model and its processor. *)
Class VisionBackend `{PdfBackend} : Type := {
  Emb : Type;
  (** The body of the [try] of the page loop: processing and embedding one
      page image and saving the embedding with [torch.save]; [None] when
      one of the three raises.  A page counts as embedded only when its
      file was saved; a save that raises is taken to leave no file. *)
  embed_image : Image -> option Emb;
  (** Processing and embedding one question; [None] when it raises.  The
      embedding is recorded before it is saved, so a failed save does not
      lose it. *)
  embed_query : string -> option Emb;
  (** [torch.cat] of the candidates followed by [score_multi_vector], as a
      flat list of scores. *)
  score_multi_vector : Emb -> list Emb -> option (list Q)
}.

Module VisualIndex.

(** One record of the visual retrieval table. *)
Record row : Type := mk_row {
  q_id : string;
  document_id : string;
  score : Q;
  question : string
}.

(** [unique_docs] as collected by [build_visual_index] from one row. *)
Definition add_row_docs `{PyEval} (unique_docs : PySet.t) (r : Dataset.row)
  : PySet.t :=
  let after_documents :=
    match Dataset.documents r with
    | Dataset.NoColumn => unique_docs
    | c => match eval_documents_cell c with
           | Some docs => PySet.update docs unique_docs
           | None => unique_docs
           end
    end in
  match Dataset.nonblank_text (Dataset.doc_path r) with
  | Some p => PySet.add (OsPath.basename p) after_documents
  | None => after_documents
  end.

Definition unique_docs `{PyEval} (df : Dataset.t) : PySet.t :=
  fold_left add_row_docs df [].

(** [pdf_files] *)
Definition pdf_files `{PyEval} (df : Dataset.t) : list string :=
  map (fun doc_id =>
         if PyStr.endswith ".pdf" doc_id then doc_id else doc_id ++ ".pdf")
      (unique_docs df).

(** [f"{doc_id}_{page_idx}"] *)
Definition page_id (doc_id : string) (page_idx : nat) : string :=
  doc_id ++ "_" ++ PyStr.of_nat page_idx.

(** The page loop of one PDF, from page [page_idx] on: a page whose
    embedding fails is skipped. *)
Fixpoint embed_pages `{VisionBackend} (doc_id : string) (page_idx : nat)
  (pages : list Image) (page_embeddings : PyDict.t Emb) : PyDict.t Emb :=
  match pages with
  | [] => page_embeddings
  | page_img :: rest =>
      embed_pages doc_id (S page_idx) rest
        (match embed_image page_img with
         | Some embedding =>
             PyDict.set (page_id doc_id page_idx) embedding page_embeddings
         | None => page_embeddings
         end)
  end.

(** One iteration of [for pdf_file in pdf_files]: a missing file or a
    failed rasterisation skips the document. *)
Definition embed_pdf `{VisionBackend} (pdf_dir : string)
  (page_embeddings : PyDict.t Emb) (pdf_file : string) : PyDict.t Emb :=
  let doc_id := OsPath.splitext_root pdf_file in
  let pdf_path := OsPath.join pdf_dir pdf_file in
  if path_exists pdf_path then
    match convert_from_path pdf_path with
    | Some pages => embed_pages doc_id 0 pages page_embeddings
    | None => page_embeddings
    end
  else page_embeddings.

Definition page_embeddings `{VisionBackend} (pdf_dir : string)
  (files : list string) : PyDict.t Emb :=
  fold_left (embed_pdf pdf_dir) files [].

(** The page ids whose embedding the page loop of one PDF saves to a file,
    in the order of the saves: the pages whose embedding succeeds. *)
Fixpoint saved_pages `{VisionBackend} (doc_id : string) (page_idx : nat)
  (pages : list Image) : list string :=
  match pages with
  | [] => []
  | page_img :: rest =>
      match embed_image page_img with
      | Some _ =>
          page_id doc_id page_idx :: saved_pages doc_id (S page_idx) rest
      | None => saved_pages doc_id (S page_idx) rest
      end
  end.

Definition saved_pdf `{VisionBackend} (pdf_dir pdf_file : string)
  : list string :=
  let doc_id := OsPath.splitext_root pdf_file in
  let pdf_path := OsPath.join pdf_dir pdf_file in
  if path_exists pdf_path then
    match convert_from_path pdf_path with
    | Some pages => saved_pages doc_id 0 pages
    | None => []
    end
  else [].

Definition saved_page_ids `{VisionBackend} (pdf_dir : string)
  (files : list string) : list string :=
  flat_map (saved_pdf pdf_dir) files.

(** [query_embeddings] *)
Definition query_embeddings `{VisionBackend} (df : Dataset.t)
  : PyDict.t Emb :=
  fold_left
    (fun acc r =>
       match embed_query (Dataset.question r) with
       | Some embedding => PyDict.set (Dataset.q_id r) embedding acc
       | None => acc
       end)
    df [].

(** [[os.path.splitext(f)[0] for f in pdf_files]] *)
Definition all_docs (files : list string) : list string :=
  map OsPath.splitext_root files.

(** [relevant_docs] of a query row. *)
Definition relevant_docs `{PyEval} (files : list string)
  (document_info : Dataset.row) : list string :=
  let from_documents :=
    match Dataset.documents document_info with
    | Dataset.NoColumn => []
    | c => match eval_documents_cell c with
           | Some docs => map (PyStr.before_first ".pdf") docs
           | None => all_docs files
           end
    end in
  match from_documents with
  | [] => all_docs files
  | _ => from_documents
  end.

(** [page_id.rsplit('_', 1)[0]] *)
Definition doc_of_page (page : string) : string :=
  match PyStr.rsplit1 "_" page with
  | Some (h, _) => h
  | None => page
  end.

(** [relevant_page_embeddings] *)
Definition relevant_page_embeddings {E : Type} (relevant : list string)
  (embeddings : PyDict.t E) : PyDict.t E :=
  filter (fun kv => PySet.mem (doc_of_page (fst kv)) relevant) embeddings.

(** The first dataset row carrying the query id. *)
Definition find_row (q : string) (df : Dataset.t) : option Dataset.row :=
  find (fun r => String.eqb (Dataset.q_id r) q) df.

(** The rows appended for one query; any exception inside the [try] leaves
    the query without rows.  The two diagnostic prints index [ds[0]] and
    [ds[1]], so fewer than two candidates raise [IndexError].  Among equal
    scores [np.argsort] leaves the order open; the stable order is taken
    here, and no result depends on the choice. *)
Definition rank_query `{VisionBackend} `{PyEval} (df : Dataset.t)
  (files : list string) (embeddings : PyDict.t Emb)
  (q : string) (query_emb : Emb) : list row :=
  match find_row q df with
  | None => []
  | Some document_info =>
      let relevant := relevant_docs files document_info in
      let candidates := relevant_page_embeddings relevant embeddings in
      if List.length candidates <? 2 then []
      else
        match score_multi_vector query_emb (map snd candidates) with
        | None => []
        | Some scores =>
            let top :=
              PyList.sorted_desc (fun i => nth i scores 0%Q)
                                 (seq 0 (List.length scores)) in
            match PyList.all_some
                    (map (nth_error (PyDict.keys candidates)) top) with
            | None => []
            | Some ranked_docs =>
                map (fun '(doc, i) =>
                       mk_row q doc (nth i scores 0%Q)
                              (Dataset.question document_info))
                    (combine ranked_docs top)
            end
        end
  end.

(** The rows [build_visual_index] writes to the retrieval table. *)
Definition visual_index_rows `{VisionBackend} `{PyEval}
  (data_dir : string) (df : Dataset.t) : list row :=
  let files := pdf_files df in
  let embeddings := page_embeddings (OsPath.join data_dir "docs") files in
  flat_map (fun '(q, query_emb) => rank_query df files embeddings q query_emb)
           (query_embeddings df).

(** The rows of the table that belong to one query id. *)
Definition rows_of (q : string) (table : list row) : list row :=
  filter (fun x => String.eqb (q_id x) q) table.

(** Every key is the id of a page of a document of [files]. *)
Definition keys_from `{VisionBackend} (files : list string)
  (embeddings : PyDict.t Emb) : Prop :=
  forall k, In k (PyDict.keys embeddings) ->
            exists f page_idx,
              In f files /\ k = page_id (OsPath.splitext_root f) page_idx.

End VisualIndex.

(* ================================================================== *)
(** * Structured-answer parsing *)
(* ================================================================== *)

Module Sections.

Definition headings : list string := ["Evidence"; "Chain of Thought"; "Answer"].

(** The literal text [## {heading}:] of the two patterns. *)
Definition marker (heading : string) : string := "## " ++ heading ++ ":".

(** [re.search(pattern, text, re.DOTALL)] followed by [match.group(1)] for
    the two patterns of [extract_sections].

    With a next heading the pattern is [## H:], a lazy any-character group,
    then a lookahead for [## N:]: the search succeeds at the leftmost
    [## H:] provided some [## N:] starts at or after its end, and the lazy
    group stops at the first such [## N:].  A later start cannot succeed
    when the leftmost one fails, so only the leftmost [## H:] matters.
    Without a next heading the pattern is [## H:] and a greedy any-character
    group, which runs to the end of the text. *)
Definition search_group (heading : string) (next_heading : option string)
  (text : string) : option string :=
  match PyStr.cut (marker heading) text with
  | None => None
  | Some (_, rest) =>
      match next_heading with
      | None => Some rest
      | Some next =>
          match PyStr.cut (marker next) rest with
          | Some (group, _) => Some group
          | None => None
          end
      end
  end.

(** [match.group(1).strip()] if the pattern matches, else the empty
    string. *)
Definition section_value (heading : string) (next_heading : option string)
  (text : string) : string :=
  match search_group heading next_heading text with
  | Some group => PyStr.strip group
  | None => ""
  end.

(** The loop over [headings]; [next_heading] is the following list element,
    if any. *)
Fixpoint extract_loop (hs : list string) (text : string)
  (sections : PyDict.t string) : PyDict.t string :=
  match hs with
  | [] => sections
  | heading :: rest =>
      let next_heading := hd_error rest in
      extract_loop rest text
        (PyDict.set heading (section_value heading next_heading text)
                    sections)
  end.

(** [extract_sections] *)
Definition extract_sections (text : string) : PyDict.t string :=
  extract_loop headings text [].

(** The initial dictionary of [parse_combined_output]. *)
Definition empty_sections : PyDict.t string :=
  [("Analysis", ""); ("Conclusion", ""); ("Final Answer", "")].

(** [line.startswith('## ')] *)
Definition is_heading_line (line : string) : bool :=
  PyStr.startswith "## " line.

(** [line[3:].strip(':')] *)
Definition heading_name (line : string) : string :=
  PyStr.strip_char ":" (PyStr.drop 3 line).

(** One iteration of [for line in output.split('\n')] on
    [(current_section, sections)]. *)
Definition parse_step (st : option string * PyDict.t string) (line : string)
  : option string * PyDict.t string :=
  let (current_section, sections) := st in
  if is_heading_line line then (Some (heading_name line), sections)
  else
    match current_section with
    | Some cs =>
        if DocCache.truthy cs && PyDict.mem cs sections then
          match PyDict.get cs sections with
          | Some old =>
              (current_section,
               PyDict.set cs (old ++ line ++ DocCache.nl) sections)
          | None => st
          end
        else st
    | None => st
    end.

Definition parse_lines (lines : list string) : PyDict.t string :=
  snd (fold_left parse_step lines (None, empty_sections)).

(** [parse_combined_output] *)
Definition parse_combined_output (output : string) : PyDict.t string :=
  map (fun kv => (fst kv, PyStr.strip (snd kv)))
      (parse_lines (PyStr.split_char (ascii_of_nat 10) output)).

(** The heading in force after the lines [before]: the name on the last
    heading line among them, if any. *)
Fixpoint governing (current : option string) (before : list string)
  : option string :=
  match before with
  | [] => current
  | line :: rest =>
      governing
        (if is_heading_line line then Some (heading_name line) else current)
        rest
  end.

(** The lines that count for the section [key]: the lines that are not
    heading lines and whose governing heading is named [key], given the
    heading [current] in force at the start. *)
Fixpoint lines_under (key : string) (current : option string)
  (lines : list string) : list string :=
  match lines with
  | [] => []
  | line :: rest =>
      if is_heading_line line
      then lines_under key (Some (heading_name line)) rest
      else
        match current with
        | Some cs =>
            if String.eqb cs key then line :: lines_under key current rest
            else lines_under key current rest
        | None => lines_under key current rest
        end
  end.

(** The text accumulated from a list of lines: each followed by a newline. *)
Fixpoint body (lines : list string) : string :=
  match lines with
  | [] => ""
  | line :: rest => line ++ DocCache.nl ++ body rest
  end.

End Sections.

(* ================================================================== *)
(** * Retrieval store and per-query orchestrator *)
(* ================================================================== *)

(** The generation backend behind the three [generate]/[combine] methods;
    [None] stands for a raised exception.  The prompt is the fixed template
    of the method filled with the configured answer style and the
    arguments shown. *)
Class Generator `{PdfBackend} : Type := {
  llm_visual : string -> list Image -> option string;
  llm_textual : string -> list string -> option string;
  llm_combine : string -> json -> json -> option string
}.

(** The file system under the paths the pipeline writes.  [can_write path]:
    [open(path, 'w')] succeeds, so the path names no directory, or, for a
    directory that is not there, [os.makedirs] can create it.  Once a file
    is open the system takes all that is written to it: a device that fails
    in the middle of a write is not modelled. *)
Class Disk : Type := {
  can_write : string -> bool
}.

(** [pandas.read_csv] on a retrieval table.  The reader types every column
    from all of its cells: a text column of numerals comes back as numbers,
    an empty cell or a missing-value marker comes back as NaN, and the
    values a row hands out depend on the types of all columns together.
    [read_visual_cell table i column] and [read_text_cell table i column]
    stand for the cell of row [i] under the named column of the table that
    was written: [None] when it comes back as the value written, a [str]
    for a text cell and an [int] for a number cell, and [Some v] when it
    comes back as a value [v] of another type. *)
Class Pandas : Type := {
  read_visual_cell : list VisualIndex.row -> nat -> string -> option json;
  read_text_cell : list TextIndex.row -> nat -> string -> option json
}.

Inductive llm_model : Type := gemini | gpt4 | qwen.
Inductive vision_retriever : Type := colpali | colqwen.

Module Orchestrator.

Definition llm_name (m : llm_model) : string :=
  match m with gemini => "gemini" | gpt4 => "gpt4" | qwen => "qwen" end.

Definition vision_name (v : vision_retriever) : string :=
  match v with colpali => "colpali" | colqwen => "colqwen" end.

Definition text_name (t : text_retriever) : string :=
  match t with
  | bm25 => "bm25" | minilm => "minilm" | mpnet => "mpnet" | bge => "bge"
  end.

(** The attributes [__init__] takes from [config], with the dataset. *)
Record config : Type := mk_config {
  data_dir : string;
  output_dir : string;
  llm : llm_model;
  vision : vision_retriever;
  text : text_retriever;
  top_k : nat;
  force_reindex : bool;
  df : Dataset.t
}.

Definition vision_retrieval_file (cfg : config) : string :=
  data_dir cfg ++ "/retrieval/retrieval_" ++ vision_name (vision cfg)
  ++ ".csv".

Definition text_retrieval_file (cfg : config) : string :=
  data_dir cfg ++ "/retrieval/retrieval_" ++ text_name (text cfg) ++ ".csv".

(** [f"{output_dir}/{llm_model}_{kind}/response_{query_id}.json"] with
    every slash of the id replaced by a dollar sign. *)
Definition response_file (cfg : config) (kind query_id : string) : string :=
  output_dir cfg ++ "/" ++ llm_name (llm cfg) ++ "_" ++ kind ++ "/response_"
  ++ PyStr.replace_char "/" "$" query_id ++ ".json".

Definition visual_file (cfg : config) (query_id : string) : string :=
  response_file cfg "vision" query_id.
Definition textual_file (cfg : config) (query_id : string) : string :=
  response_file cfg "text" query_id.
Definition combined_file (cfg : config) (query_id : string) : string :=
  response_file cfg "visdmrag" query_id.

(** What a path of the pipeline holds: a retrieval table with the rows that
    were written, a JSON artifact, a saved embedding (never read back), a
    directory, or a file that was opened for writing and whose content was
    not completed. *)
Inductive file : Type :=
| VisualTable (rows : list VisualIndex.row)
| TextTable (rows : list TextIndex.row)
| JsonFile (j : json)
| Tensor
| Directory
| Damaged.

(** The observable actions of a run, recorded in the trace at the point
    where the source performs them: entering a retrieval method, entering a
    build method, calling the generation backend, creating a directory,
    opening a file for writing. *)
Inductive event : Type :=
| BuildVisualIndex
| BuildTextIndex
| RetrieveVisual (query_id : string)
| RetrieveTextual (query_id : string)
| GenerateVisual (question : string)
| GenerateTextual (question : string)
| GenerateCombined (question : string)
| MakeDirs (path : string)
| WriteFile (path : string).

(** The mutable state: the files the pipeline writes, the in-memory
    [self.document_cache], and the actions performed so far. *)
Record world : Type := mk_world {
  files : PyDict.t file;
  document_cache : PyDict.t (list string);
  trace : list event
}.

(** State with exceptions: [None] is an exception on its way up. *)
Definition M (A : Type) : Type := world -> world * option A.

Definition ret {A : Type} (x : A) : M A := fun w => (w, Some x).

Definition raise {A : Type} : M A := fun w => (w, None).

Definition bind {A B : Type} (m : M A) (f : A -> M B) : M B :=
  fun w =>
    match m w with
    | (w', Some x) => f x w'
    | (w', None) => (w', None)
    end.

(** [try: m except: h] *)
Definition catch {A : Type} (m : M A) (h : M A) : M A :=
  fun w =>
    match m w with
    | (w', Some x) => (w', Some x)
    | (w', None) => h w'
    end.

Declare Scope pipeline_scope.
Delimit Scope pipeline_scope with pipeline.
Notation "x <- m ;; k" := (bind m (fun x => k))
  (at level 100, m at next level, right associativity) : pipeline_scope.
Notation "m ;;; k" := (bind m (fun _ => k))
  (at level 100, right associativity) : pipeline_scope.
Local Open Scope pipeline_scope.

Definition emit (e : event) : M unit :=
  fun w =>
    (mk_world (files w) (document_cache w) (trace w ++ [e])%list, Some tt).

(** [os.path.exists(path)] for a file of the pipeline. *)
Definition exists_file (path : string) : M bool :=
  fun w => (w, Some (PyDict.mem path (files w))).

(** [with open(path, 'w') as f: ...] once the open has succeeded. *)
Definition write_file (path : string) (content : file) : M unit :=
  fun w =>
    (mk_world (PyDict.set path content (files w)) (document_cache w)
              (trace w ++ [WriteFile path])%list, Some tt).

Definition read_file (path : string) : M file :=
  fun w =>
    match PyDict.get path (files w) with
    | Some f => (w, Some f)
    | None => (w, None)
    end.

(** [os.makedirs(path, exist_ok=True)]: nothing to do for a directory that
    is there, [FileExistsError] for a file in its place. *)
Definition make_dirs `{Disk} (path : string) : M unit :=
  fun w =>
    match PyDict.get path (files w) with
    | Some Directory => (w, Some tt)
    | Some _ => (w, None)
    | None =>
        if can_write path then
          (mk_world (PyDict.set path Directory (files w)) (document_cache w)
                    (trace w ++ [MakeDirs path])%list, Some tt)
        else (w, None)
    end.

(** [output_dir = os.path.join(self.data_dir, "visual_embeddings")] *)
Definition embeddings_dir (cfg : config) : string :=
  OsPath.join (data_dir cfg) "visual_embeddings".

(** [os.path.join(output_dir, f"{page_id}.pt")] *)
Definition page_tensor_file (cfg : config) (page_id : string) : string :=
  OsPath.join (embeddings_dir cfg) (page_id ++ ".pt").

(** [os.path.join(output_dir, f"query_{q_id}.pt")] *)
Definition query_tensor_file (cfg : config) (q_id : string) : string :=
  OsPath.join (embeddings_dir cfg) ("query_" ++ q_id ++ ".pt").

(** The [torch.save] calls of the page loop: one file for each page that
    was embedded, in the order of the loop. *)
Fixpoint save_pages (cfg : config) (page_ids : list string) : M unit :=
  match page_ids with
  | [] => ret tt
  | page_id :: rest =>
      write_file (page_tensor_file cfg page_id) Tensor ;;;
      save_pages cfg rest
  end.

(** The [torch.save] calls of the query loop: for each dataset row whose
    question was embedded, the file of its id; a save that raises is
    logged and the loop goes on. *)
Fixpoint save_queries `{VisionBackend} `{Disk} (cfg : config)
  (rows : Dataset.t) : M unit :=
  match rows with
  | [] => ret tt
  | r :: rest =>
      match embed_query (Dataset.question r) with
      | Some _ =>
          if can_write (query_tensor_file cfg (Dataset.q_id r)) then
            write_file (query_tensor_file cfg (Dataset.q_id r)) Tensor ;;;
            save_queries cfg rest
          else save_queries cfg rest
      | None => save_queries cfg rest
      end
  end.

(** [build_visual_index]: [True] when the table was written.  Before the
    table, the method creates the embeddings directory and saves one file
    for each embedded page and for each embedded question; any exception
    outside the inner [try] blocks makes it return [False]. *)
Definition build_visual_index `{VisionBackend} `{PyEval} `{Disk}
  (cfg : config) : M bool :=
  emit BuildVisualIndex ;;;
  catch
    (make_dirs (embeddings_dir cfg) ;;;
     save_pages cfg
       (VisualIndex.saved_page_ids (OsPath.join (data_dir cfg) "docs")
          (VisualIndex.pdf_files (df cfg))) ;;;
     save_queries cfg (df cfg) ;;;
     let results := VisualIndex.visual_index_rows (data_dir cfg) (df cfg) in
     if can_write (vision_retrieval_file cfg) then
       write_file (vision_retrieval_file cfg) (VisualTable results) ;;;
       ret true
     else raise)
    (ret false).

(** [if not self.document_cache: self.cache_documents()] *)
Definition ensure_document_cache `{PdfBackend} `{PyEval} (cfg : config)
  : M unit :=
  fun w =>
    match document_cache w with
    | [] =>
        (mk_world (files w)
                  (DocCache.cache
                     (DocCache.cache_documents (data_dir cfg) (df cfg)))
                  (trace w), Some tt)
    | _ => (w, Some tt)
    end.

(** [build_text_index]: [True] when the table was written. *)
Definition build_text_index `{PdfBackend} `{PyEval} `{Similarity}
  `{TextSplitter} `{TextRanker} `{Disk} (cfg : config) : M bool :=
  emit BuildTextIndex ;;;
  ensure_document_cache cfg ;;;
  fun w =>
    match TextIndex.text_index_rows (text cfg) (top_k cfg) (df cfg)
                                    (document_cache w) with
    | None => (w, Some false)
    | Some results =>
        if can_write (text_retrieval_file cfg) then
          (write_file (text_retrieval_file cfg) (TextTable results) ;;;
           ret true) w
        else (w, Some false)
    end.

(** The cell comes back from [read_csv] as the value that was written. *)
Definition kept (cell : option json) : bool :=
  match cell with
  | None => true
  | Some _ => false
  end.

(** The value [read_csv] hands back for a cell. *)
Definition read_back (cell : option json) (written : json) : json :=
  match cell with
  | None => written
  | Some v => v
  end.

(** One row of the visual table as [read_csv] hands it back: the row
    written, and whether its [q_id] and its [document_id] came back as
    text. *)
Record visual_read : Type := mk_visual_read {
  v_row : VisualIndex.row;
  v_q_id_text : bool;
  v_document_id_text : bool
}.

Fixpoint read_visual_rows `{Pandas} (table : list VisualIndex.row)
  (i : nat) (rows : list VisualIndex.row) : list visual_read :=
  match rows with
  | [] => []
  | r :: rest =>
      mk_visual_read r
        (kept (read_visual_cell table i "q_id"))
        (kept (read_visual_cell table i "document_id"))
      :: read_visual_rows table (S i) rest
  end.

(** [pd.read_csv(self.vision_retrieval_file)] *)
Definition read_visual_table `{Pandas} (table : list VisualIndex.row)
  : list visual_read :=
  read_visual_rows table 0 table.

(** One element of the list [retrieve_visual_contexts] returns. *)
Record visual_context `{PdfBackend} : Type := mk_visual_context {
  image : Image;
  document_id : string;
  page_number : Z
}.
Arguments mk_visual_context {_} _ _ _.

(** The body of the loop over [top_k_rows] for a row whose [document_id] is
    text: [None] when the row is skipped, by [continue] or by the [except]
    clause. *)
Definition load_context `{PdfBackend} (pdf_dir : string)
  (row : VisualIndex.row) : option visual_context :=
  match PyStr.rsplit1 "_" (VisualIndex.document_id row) with
  | None => None
  | Some (base_doc_id, page_text) =>
      match PyStr.py_int page_text with
      | None => None
      | Some page =>
          let pdf_path := OsPath.join pdf_dir (base_doc_id ++ ".pdf") in
          if path_exists pdf_path then
            match convert_from_path pdf_path with
            | None => None
            | Some pdf_images =>
                if (Z.of_nat (List.length pdf_images) <=? page)%Z then None
                else
                  match PyList.index pdf_images page with
                  | Some img =>
                      Some (mk_visual_context
                              img (VisualIndex.document_id row) page)
                  | None => None
                  end
            end
          else None
      end
  end.

(** The body of the loop for a row as read back: a [document_id] that did
    not come back as text has no [rsplit], and the [except] clause skips
    the row. *)
Definition load_read `{PdfBackend} (pdf_dir : string) (x : visual_read)
  : option visual_context :=
  if v_document_id_text x then load_context pdf_dir (v_row x) else None.

(** [pages] after the loop: the loaded contexts, skipped rows left out. *)
Fixpoint load_contexts `{PdfBackend} (pdf_dir : string)
  (rows : list visual_read) : list visual_context :=
  match rows with
  | [] => []
  | x :: rest =>
      match load_read pdf_dir x with
      | Some ctx => ctx :: load_contexts pdf_dir rest
      | None => load_contexts pdf_dir rest
      end
  end.

(** [query_rows.nlargest(n, 'score')]: the [n] best rows in descending
    order of score, earlier rows first among equal scores. *)
Definition nlargest (n : nat) (rows : list visual_read)
  : list visual_read :=
  firstn n (PyList.sorted_desc (fun x => VisualIndex.score (v_row x)) rows).

(** [df_retrieval[df_retrieval['q_id'] == query_id]] for a query id that is
    a [str]: a cell that did not come back as text equals no such id. *)
Definition rows_of `{Pandas} (q : string) (table : list VisualIndex.row)
  : list visual_read :=
  filter (fun x => v_q_id_text x
                   && String.eqb (VisualIndex.q_id (v_row x)) q)
         (read_visual_table table).

(** What a visual read returns, once the file it reads is known; anything
    but a table makes the reader or the selection raise. *)
Definition contexts_of `{PdfBackend} `{Pandas} (cfg : config)
  (query_id : string) (content : option file) : list visual_context :=
  match content with
  | Some (VisualTable table) =>
      load_contexts (OsPath.join (data_dir cfg) "docs")
                    (nlargest (top_k cfg) (rows_of query_id table))
  | _ => []
  end.

(** [retrieve_visual_contexts] *)
Definition retrieve_visual_contexts `{VisionBackend} `{PyEval} `{Disk}
  `{Pandas} (cfg : config) (query_id : string) : M (list visual_context) :=
  emit (RetrieveVisual query_id) ;;;
  catch
    (present <- exists_file (vision_retrieval_file cfg) ;;
     built <- (if negb present || force_reindex cfg
               then build_visual_index cfg else ret true) ;;
     if negb built then ret []
     else
       content <- read_file (vision_retrieval_file cfg) ;;
       match content with
       | VisualTable df_retrieval =>
           match rows_of query_id df_retrieval with
           | [] => ret []
           | query_rows =>
               ret (load_contexts (OsPath.join (data_dir cfg) "docs")
                                  (nlargest (top_k cfg) query_rows))
           end
       | _ => raise
       end)
    (ret []).

(** One row of the textual table as [read_csv] hands it back: the row
    written, whether its [q_id] came back as text, and the values of its
    [chunk], [chunk_pdf_name] and [pdf_page_number] cells. *)
Record text_read : Type := mk_text_read {
  t_row : TextIndex.row;
  t_q_id_text : bool;
  t_chunk : json;
  t_chunk_pdf_name : json;
  t_pdf_page_number : json
}.

Fixpoint read_text_rows `{Pandas} (table : list TextIndex.row) (i : nat)
  (rows : list TextIndex.row) : list text_read :=
  match rows with
  | [] => []
  | r :: rest =>
      mk_text_read r
        (kept (read_text_cell table i "q_id"))
        (read_back (read_text_cell table i "chunk")
                   (JStr (TextIndex.chunk r)))
        (read_back (read_text_cell table i "chunk_pdf_name")
                   (JStr (TextIndex.chunk_pdf_name r)))
        (read_back (read_text_cell table i "pdf_page_number")
                   (JNum (Z.of_nat (TextIndex.pdf_page_number r))))
      :: read_text_rows table (S i) rest
  end.

(** [pd.read_csv(retrieval_path)] *)
Definition read_text_table `{Pandas} (table : list TextIndex.row)
  : list text_read :=
  read_text_rows table 0 table.

(** [df_retrieval[df_retrieval['q_id'] == query_id]] on the textual
    table. *)
Definition text_rows_of `{Pandas} (q : string) (table : list TextIndex.row)
  : list text_read :=
  filter (fun x => t_q_id_text x
                   && String.eqb (TextIndex.q_id (t_row x)) q)
         (read_text_table table).

(** One element of the list [retrieve_textual_contexts] returns: the
    chunk, the document name and the page number are the values read back
    from the table. *)
Record textual_context : Type := mk_textual_context {
  chunk : json;
  chunk_pdf_name : json;
  pdf_page_number : json
}.

Definition context_of_read (x : text_read) : textual_context :=
  mk_textual_context (t_chunk x) (t_chunk_pdf_name x) (t_pdf_page_number x).

(** [retrieve_textual_contexts].  The build is called a first time under
    the absent-or-forced condition and a second time unconditionally, its
    result ignored.  [sort_values(by='rank')] is taken in its stable
    form. *)
Definition retrieve_textual_contexts `{PdfBackend} `{PyEval} `{Similarity}
  `{TextSplitter} `{TextRanker} `{Disk} `{Pandas}
  (cfg : config) (query_id : string) : M (list textual_context) :=
  emit (RetrieveTextual query_id) ;;;
  catch
    (present <- exists_file (text_retrieval_file cfg) ;;
     built <- (if negb present || force_reindex cfg
               then build_text_index cfg else ret true) ;;
     if negb built then ret []
     else
       build_text_index cfg ;;;
       content <- read_file (text_retrieval_file cfg) ;;
       match content with
       | TextTable df_retrieval =>
           match text_rows_of query_id df_retrieval with
           | [] => ret []
           | query_rows =>
               ret (map context_of_read
                        (firstn (top_k cfg)
                                (PyList.sorted_asc
                                   (fun x => TextIndex.rank (t_row x))
                                   query_rows)))
           end
       | _ => raise
       end)
    (ret []).

(** Truth value of a loaded or freshly built response. *)
Definition json_truthy (j : json) : bool :=
  match j with
  | JNull => false
  | JStr s => DocCache.truthy s
  | JNum n => negb (n =? 0)%Z
  | JList l => match l with [] => false | _ => true end
  | JObj o => match o with [] => false | _ => true end
  | JOther _ truth => truth
  end.

(** [d.update(other)] *)
Definition dict_update {V : Type} (other : PyDict.t V) (d : PyDict.t V)
  : PyDict.t V :=
  fold_left (fun acc kv => PyDict.set (fst kv) (snd kv) acc) other d.

Definition sections_json (sections : PyDict.t string)
  : list (string * json) :=
  map (fun kv => (fst kv, JStr (snd kv))) sections.

(** [with open(path, 'w') as file: json.dump(value, file, indent=4)].  The
    file is opened first; when the encoder then rejects a part of the value
    the exception leaves the file behind, cut short. *)
Definition write_json `{Disk} (path : string) (value : json) : M unit :=
  if can_write path then
    if serialisable value then write_file path (JsonFile value)
    else write_file path Damaged ;;; raise
  else raise.

(** [with open(path, 'r') as file: json.load(file)] *)
Definition load_json (path : string) : M json :=
  content <- read_file path ;;
  match content with
  | JsonFile j => ret j
  | _ => raise
  end.

(** [generate_visual_response]: its [except] clause returns a fixed text. *)
Definition generate_visual_response `{Generator} (query : string)
  (visual_contexts : list visual_context) : M string :=
  emit (GenerateVisual query) ;;;
  ret (match llm_visual query (map image visual_contexts) with
       | Some text => text
       | None => "Error generating response from visual contexts."
       end).

(** The chunks of the contexts as text, when every one of them came back
    from the table as text; otherwise [str.join] raises [TypeError]. *)
Definition chunk_texts (textual_contexts : list textual_context)
  : option (list string) :=
  PyList.all_some
    (map (fun c => match chunk c with JStr s => Some s | _ => None end)
         textual_contexts).

(** [generate_textual_response]: the prompt joins the chunks inside the
    [try], so a chunk that is not text gives the fixed error text without
    any call of the backend. *)
Definition generate_textual_response `{Generator} (query : string)
  (textual_contexts : list textual_context) : M string :=
  match chunk_texts textual_contexts with
  | Some chunks =>
      emit (GenerateTextual query) ;;;
      ret (match llm_textual query chunks with
           | Some text => text
           | None => "Error generating response from textual contexts."
           end)
  | None => ret "Error generating response from textual contexts."
  end.

Definition combine_error : PyDict.t string :=
  [("Analysis", "Error occurred during analysis.");
   ("Conclusion", "Error occurred during conclusion.");
   ("Final Answer", "Error occurred during combination of responses.")].

(** [combine_responses]: building the prompt needs both responses to be
    dictionaries with an [Answer] key; any exception yields the fixed error
    sections. *)
Definition combine_responses `{Generator} (query : string)
  (visual_response textual_response : json) : M (PyDict.t string) :=
  match visual_response, textual_response with
  | JObj v, JObj t =>
      if PyDict.mem "Answer" v && PyDict.mem "Answer" t then
        emit (GenerateCombined query) ;;;
        ret (match llm_combine query visual_response textual_response with
             | Some text => Sections.parse_combined_output text
             | None => combine_error
             end)
      else ret combine_error
  | _, _ => ret combine_error
  end.

(** [combined_sections.get(key, "")] *)
Definition get_or_empty (key : string) (d : PyDict.t string) : string :=
  match PyDict.get key d with Some v => v | None => "" end.

(** The visual step of [process_query]: the response dictionary, or [None]
    when retrieval returned no context. *)
Definition visual_step {P : PdfBackend} {V : @VisionBackend P} `{PyEval}
  `{Disk} `{Pandas} {G : @Generator P}
  (cfg : config) (query_id question : string) (answer : json)
  : M (option json) :=
  has_file <- exists_file (visual_file cfg query_id) ;;
  if negb has_file then
    visual_contexts <- retrieve_visual_contexts cfg query_id ;;
    match visual_contexts with
    | [] => ret None
    | _ =>
        visual_response <-
          generate_visual_response question visual_contexts ;;
        let visual_response_dict :=
          JObj (dict_update
                  [("question", JStr question);
                   ("document",
                    JList (map (fun c => JStr (document_id c))
                               visual_contexts));
                   ("gt_answer", answer);
                   ("pages",
                    JList (map (fun c => JNum (page_number c))
                               visual_contexts))]
                  (sections_json
                     (Sections.extract_sections visual_response))) in
        write_json (visual_file cfg query_id) visual_response_dict ;;;
        ret (Some visual_response_dict)
    end
  else
    loaded <- load_json (visual_file cfg query_id) ;;
    ret (Some loaded).

(** The textual step of [process_query].  The metadata joins the chunks
    with [str.join], which raises [TypeError] on a chunk that is not
    text. *)
Definition textual_step {P : PdfBackend} `{PyEval} `{Similarity}
  `{TextSplitter} `{TextRanker} `{Disk} `{Pandas} {G : @Generator P}
  (cfg : config) (query_id question : string) (answer : json)
  : M (option json) :=
  has_file <- exists_file (textual_file cfg query_id) ;;
  if negb has_file then
    textual_contexts <- retrieve_textual_contexts cfg query_id ;;
    match textual_contexts with
    | [] => ret None
    | _ =>
        textual_response <-
          generate_textual_response question textual_contexts ;;
        match chunk_texts textual_contexts with
        | None => raise
        | Some chunks =>
            let textual_response_dict :=
              JObj (dict_update
                      [("question", JStr question);
                       ("document",
                        JList (map chunk_pdf_name textual_contexts));
                       ("gt_answer", answer);
                       ("pages",
                        JList (map pdf_page_number textual_contexts));
                       ("chunks", JStr (PyStr.join DocCache.nl chunks))]
                      (sections_json
                         (Sections.extract_sections textual_response))) in
            write_json (textual_file cfg query_id) textual_response_dict ;;;
            ret (Some textual_response_dict)
        end
    end
  else
    loaded <- load_json (textual_file cfg query_id) ;;
    ret (Some loaded).

(** [not response_dict] *)
Definition missing (response : option json) : bool :=
  match response with
  | Some j => negb (json_truthy j)
  | None => true
  end.

Definition or_null (response : option json) : json :=
  match response with Some j => j | None => JNull end.

(** [process_query]: the outer [except] clause returns [False]. *)
Definition process_query {P : PdfBackend} {V : @VisionBackend P} `{PyEval}
  `{Similarity} `{TextSplitter} `{TextRanker} `{Disk} `{Pandas}
  {G : @Generator P}
  (cfg : config) (query_id : string) : M bool :=
  catch
    (match VisualIndex.find_row query_id (df cfg) with
     | None => raise
     | Some query_row =>
         let question := Dataset.question query_row in
         let answer :=
           match eval_answer (Dataset.answer query_row) with
           | Some value => value
           | None => JStr (Dataset.answer query_row)
           end in
         done <- exists_file (combined_file cfg query_id) ;;
         if done then ret true
         else
           visual_response_dict <-
             visual_step cfg query_id question answer ;;
           textual_response_dict <-
             textual_step cfg query_id question answer ;;
           if missing visual_response_dict || missing textual_response_dict
           then ret false
           else
             combined_sections <-
               combine_responses question
                 (or_null visual_response_dict)
                 (or_null textual_response_dict) ;;
             write_json (combined_file cfg query_id)
               (JObj [("question", JStr question);
                      ("answer",
                       JStr (get_or_empty "Final Answer" combined_sections));
                      ("gt_answer", answer);
                      ("analysis",
                       JStr (get_or_empty "Analysis" combined_sections));
                      ("conclusion",
                       JStr (get_or_empty "Conclusion" combined_sections));
                      ("response1", or_null visual_response_dict);
                      ("response2", or_null textual_response_dict)]) ;;;
             ret true
     end)
    (ret false).

End Orchestrator.

(* ================================================================== *)
(** * Further definitions: references, frames and the batch loop *)
(* ================================================================== *)

Module DocRefs.

(** The document ids one dataset row contributes to [unique_docs] in
    [cache_documents]: the evaluated [documents] list, if the column is
    there and evaluates, and the stem of [doc_path], if it is non-blank
    text. *)
Definition row_docs `{PyEval} (r : Dataset.row) : list string :=
  (match Dataset.documents r with
   | Dataset.NoColumn => []
   | c => match eval_documents_cell c with
          | Some docs => docs
          | None => []
          end
   end
   ++ match Dataset.nonblank_text (Dataset.doc_path r) with
      | Some p => [PyStr.before_first "." (OsPath.basename p)]
      | None => []
      end)%list.

(** Some candidate path of the document exists. *)
Definition found `{PdfBackend} (pdf_dir doc_id : string) : bool :=
  match DocCache.first_existing (DocCache.possible_paths pdf_dir doc_id) with
  | Some _ => true
  | None => false
  end.

End DocRefs.

Module Reads.
Import Orchestrator.

(** [self.document_cache] after [if not self.document_cache:
    self.cache_documents()]. *)
Definition filled_cache `{PdfBackend} `{PyEval} (cfg : config) (w : world)
  : PyDict.t (list string) :=
  match document_cache w with
  | [] => DocCache.cache (DocCache.cache_documents (data_dir cfg) (df cfg))
  | _ => document_cache w
  end.

(** [os.makedirs] of the embeddings directory goes through in the world
    [w]: the directory is there, or nothing is in its place and it can be
    created. *)
Definition can_make_dirs `{Disk} (cfg : config) (w : world) : bool :=
  match PyDict.get (embeddings_dir cfg) (files w) with
  | Some Directory => true
  | Some _ => false
  | None => can_write (embeddings_dir cfg)
  end.

(** The event [os.makedirs] leaves when it goes through: none for a
    directory that is there. *)
Definition make_dirs_events (cfg : config) (w : world) : list event :=
  match PyDict.get (embeddings_dir cfg) (files w) with
  | None => [MakeDirs (embeddings_dir cfg)]
  | Some _ => []
  end.

(** The embedding files of the questions that the query loop saves: the
    question was embedded and its file could be written. *)
Definition saved_query_files `{VisionBackend} `{Disk} (cfg : config)
  (rows : Dataset.t) : list string :=
  flat_map
    (fun r =>
       match embed_query (Dataset.question r) with
       | Some _ =>
           if can_write (query_tensor_file cfg (Dataset.q_id r))
           then [query_tensor_file cfg (Dataset.q_id r)]
           else []
       | None => []
       end)
    rows.

(** The embedding files a build of the visual index saves, in the order
    saved: the pages, then the questions. *)
Definition embedding_writes `{VisionBackend} `{PyEval} `{Disk}
  (cfg : config) : list string :=
  (map (page_tensor_file cfg)
       (VisualIndex.saved_page_ids (OsPath.join (data_dir cfg) "docs")
          (VisualIndex.pdf_files (df cfg)))
   ++ saved_query_files cfg (df cfg))%list.

(** What a textual read returns, once the file it reads is known: the
    first [top_k] rows of the query in ascending rank, as read back. *)
Definition text_contexts_of `{Pandas} (cfg : config) (query_id : string)
  (content : option file) : list textual_context :=
  match content with
  | Some (TextTable table) =>
      map context_of_read
          (firstn (top_k cfg)
                  (PyList.sorted_asc (fun x => TextIndex.rank (t_row x))
                                     (text_rows_of query_id table)))
  | _ => []
  end.

(** The rows the index builder produces for one dataset row. *)
Definition built_rows `{Similarity} `{TextSplitter} `{TextRanker}
  (cfg : config) (cache : PyDict.t (list string))
  (r : Dataset.row) : list TextIndex.row :=
  match text cfg with
  | bm25 =>
      TextIndex.bm25_rows (top_k cfg)
        (TextIndex.chunk_to_doc_mapping cache) (TextIndex.all_chunks cache) r
  | _ =>
      TextIndex.dense_rows (top_k cfg)
        (TextIndex.chunk_to_doc_mapping cache) (TextIndex.all_chunks cache) r
  end.

End Reads.


Module Footprint.
Import Orchestrator.

(** [w'] comes from [w] by actions that write no file outside [paths]:
    every other path holds what it held, no file has gone, the in-memory
    document cache is kept once it is filled, and the trace has only
    grown. *)
Definition within (paths : list string) (w w' : world) : Prop :=
  (forall p, ~ In p paths ->
             PyDict.get p (files w') = PyDict.get p (files w))
  /\ (forall p, PyDict.mem p (files w) = true ->
                PyDict.mem p (files w') = true)
  /\ (document_cache w <> [] -> document_cache w' = document_cache w)
  /\ exists more, trace w' = (trace w ++ more)%list.

(** Every run of [m] stays within [paths]. *)
Definition touches {A : Type} (paths : list string) (m : M A) : Prop :=
  forall w, within paths w (fst (m w)).

(** The paths [build_visual_index] may create besides the table: the
    embeddings directory, the embedding file of each embedded page and the
    embedding file of each query of the dataset. *)
Definition embedding_files `{VisionBackend} `{PyEval} (cfg : config)
  : list string :=
  (embeddings_dir cfg
   :: map (page_tensor_file cfg)
          (VisualIndex.saved_page_ids (OsPath.join (data_dir cfg) "docs")
             (VisualIndex.pdf_files (df cfg)))
   ++ map (fun r => query_tensor_file cfg (Dataset.q_id r)) (df cfg))%list.

(** The paths a visual read may write: the visual table and the embedding
    files. *)
Definition visual_paths `{VisionBackend} `{PyEval} (cfg : config)
  : list string :=
  vision_retrieval_file cfg :: embedding_files cfg.

(** The paths [process_query] may write for one query: the two retrieval
    tables, the three response artifacts and the embedding files. *)
Definition query_paths `{VisionBackend} `{PyEval} (cfg : config)
  (query_id : string) : list string :=
  ([vision_retrieval_file cfg; text_retrieval_file cfg;
    visual_file cfg query_id; textual_file cfg query_id;
    combined_file cfg query_id] ++ embedding_files cfg)%list.

(** A response that passes the prompt construction of [combine_responses]:
    a dictionary with an [Answer] key. *)
Definition has_answer (response : json) : bool :=
  match response with
  | JObj d => PyDict.mem "Answer" d
  | _ => false
  end.

End Footprint.

Module Artifacts.
Import Orchestrator Footprint.

(** [write_json] after an action that left the world [w1] with the trace
    extended by [events]. *)
Definition written `{Disk} (path : string) (value : json) (w1 : world)
  (events : list event) : world * option unit :=
  if can_write path then
    if serialisable value then
      (mk_world (PyDict.set path (JsonFile value) (files w1))
                (document_cache w1)
                (trace w1 ++ events ++ [WriteFile path])%list, Some tt)
    else
      (mk_world (PyDict.set path Damaged (files w1))
                (document_cache w1)
                (trace w1 ++ events ++ [WriteFile path])%list, None)
  else
    (mk_world (files w1) (document_cache w1) (trace w1 ++ events)%list,
     None).

(** The dictionary the visual step writes. *)
Definition visual_dict `{PdfBackend} (question : string) (answer : json)
  (reply : string) (contexts : list visual_context) : json :=
  JObj (sections_json (Sections.extract_sections reply)
          ++ [("question", JStr question);
              ("document",
               JList (map (fun c => JStr (document_id c)) contexts));
              ("gt_answer", answer);
              ("pages",
               JList (map (fun c => JNum (page_number c)) contexts))])%list.

(** The dictionary the textual step writes. *)
Definition textual_dict (question : string) (answer : json) (reply : string)
  (contexts : list textual_context) (chunks : list string) : json :=
  JObj (sections_json (Sections.extract_sections reply)
          ++ [("question", JStr question);
              ("document", JList (map chunk_pdf_name contexts));
              ("gt_answer", answer);
              ("pages", JList (map pdf_page_number contexts));
              ("chunks", JStr (PyStr.join DocCache.nl chunks))])%list.

(** The dictionary [process_query] writes as the combined artifact. *)
Definition combined_dict (question : string) (answer : json)
  (sections : PyDict.t string) (v t : json) : json :=
  JObj [("question", JStr question);
        ("answer", JStr (get_or_empty "Final Answer" sections));
        ("gt_answer", answer);
        ("analysis", JStr (get_or_empty "Analysis" sections));
        ("conclusion", JStr (get_or_empty "Conclusion" sections));
        ("response1", v);
        ("response2", t)].

(** The sections [combine_responses] returns for two responses. *)
Definition combined_sections `{Generator} (question : string) (v t : json)
  : PyDict.t string :=
  if has_answer v && has_answer t then
    match llm_combine question v t with
    | Some text => Sections.parse_combined_output text
    | None => combine_error
    end
  else combine_error.

End Artifacts.

Module Batch.
Import Orchestrator.
Local Open Scope pipeline_scope.

(** [self.df['q_id'].unique()]: the query ids in order of first
    appearance. *)
Definition unique_ids (df : Dataset.t) : list string :=
  PySet.update (map Dataset.q_id df) [].

(** The loop of [run]: an exception of one query is logged and the loop
    goes on. *)
Fixpoint run_loop {P : PdfBackend} {V : @VisionBackend P} `{PyEval}
  `{Similarity} `{TextSplitter} `{TextRanker} `{Disk} `{Pandas}
  {G : @Generator P}
  (cfg : config) (ids : list string) : M unit :=
  match ids with
  | [] => ret tt
  | query_id :: rest =>
      catch (process_query cfg query_id ;;; ret tt) (ret tt) ;;;
      run_loop cfg rest
  end.

(** [run] *)
Definition run {P : PdfBackend} {V : @VisionBackend P} `{PyEval}
  `{Similarity} `{TextSplitter} `{TextRanker} `{Disk} `{Pandas}
  {G : @Generator P}
  (cfg : config) : M unit :=
  run_loop cfg (unique_ids (df cfg)).

End Batch.
(* ================================================================== *)
(** * A small concrete deployment

    Concrete collaborators over a corpus of a few PDFs, used to run the
    pipeline on explicit inputs. *)
(* ================================================================== *)

Module Demo.

Definition nl : string := DocCache.nl.

(** The corpus: [paper.pdf] has two pages of extractable text; [scan.pdf]
    has a page without text and goes through OCR; [broken.pdf] cannot be
    read; [locked.pdf] cannot be rasterised; [smudged.pdf] has a page on
    which OCR fails.  A page image is represented by the text on it. *)
Definition pdf : PdfBackend := {|
  Image := string;
  path_exists := fun p =>
    existsb (String.eqb p)
      ["data/docs/paper.pdf"; "data/docs/scan.pdf"; "data/docs/broken.pdf";
       "data/docs/locked.pdf"; "data/docs/smudged.pdf"];
  pdf_reader_pages := fun p =>
    if String.eqb p "data/docs/paper.pdf"
    then Some ["alpha beta"; "gamma delta"]
    else if String.eqb p "data/docs/scan.pdf" then Some ["title"; "  "]
    else if String.eqb p "data/docs/locked.pdf" then Some [""]
    else if String.eqb p "data/docs/smudged.pdf" then Some [" "; "text"]
    else None;
  convert_from_path := fun p =>
    if String.eqb p "data/docs/paper.pdf"
    then Some ["alpha beta"; "gamma delta"]
    else if String.eqb p "data/docs/scan.pdf" then Some ["title"; "figure"]
    else if String.eqb p "data/docs/smudged.pdf" then Some ["?"; "text"]
    else None;
  image_to_string := fun img =>
    if String.eqb img "?" then None else Some img
|}.

Fixpoint common_prefix (a b : string) : nat :=
  match a, b with
  | String x a', String y b' =>
      if Ascii.eqb x y then S (common_prefix a' b') else 0
  | _, _ => 0
  end.

(** A stand-in similarity: twice the common prefix over the total length. *)
Definition prefix_ratio (a b : string) : Q :=
  let total := String.length a + String.length b in
  if total =? 0 then 1%Q
  else (Z.of_nat (2 * common_prefix a b) # Pos.of_nat total)%Q.

Definition similarity : Similarity := {| ratio := prefix_ratio |}.

(** A similarity that finds nothing in common. *)
Definition no_similarity : Similarity := {| ratio := fun _ _ => 0%Q |}.

(** One chunk per non-blank line. *)
Definition splitter : TextSplitter := {|
  split_text := fun s =>
    filter (fun l => negb (PyStr.is_blank l))
           (PyStr.split_char (ascii_of_nat 10) s)
|}.

Definition count_hits (doc query : list string) : nat :=
  List.length (filter (fun t => existsb (String.eqb t) doc) query).

(** A term-overlap scorer and a store that answers with the first [n]
    chunks at distances 0, 1/10, 2/10, ... *)
Definition ranker : TextRanker := {|
  bm25_fit := fun corpus => match corpus with [] => false | _ => true end;
  bm25_get_scores := fun corpus query =>
    Some (map (fun doc => inject_Z (Z.of_nat (count_hits doc query))) corpus);
  store_add := fun _ _ => true;
  store_query := fun docs _ n =>
    let k := Nat.min n (List.length docs) in
    Some (map (fun i => "chunk_" ++ PyStr.of_nat i) (seq 0 k),
          map (fun i => (Z.of_nat i # 10)%Q) (seq 0 k))
|}.

Definition vision : @VisionBackend pdf := {|
  Emb := string;
  embed_image := fun img : @Image pdf => Some img;
  embed_query := fun q => Some q;
  score_multi_vector := fun q ds => Some (map (prefix_ratio q) ds)
|}.

(** [eval] on a bracketed, comma-separated list of quoted names. *)
Definition eval_list (s : string) : option (list string) :=
  let t := PyStr.strip s in
  if PyStr.startswith "[" t && PyStr.endswith "]" t then
    let inner := PyStr.rstrip_char "]" (PyStr.lstrip_char "[" t) in
    if PyStr.is_blank inner then Some []
    else Some (map (fun x => PyStr.strip_char "'" (PyStr.strip x))
                   (PyStr.split_char "," inner))
  else None.

Definition evaluator : PyEval := {|
  eval_documents := eval_list;
  eval_answer := fun _ => None
|}.

Definition structured_reply : string :=
  "## Evidence:" ++ nl ++ "page 1" ++ nl ++
  "## Chain of Thought:" ++ nl ++ "read it" ++ nl ++
  "## Answer:" ++ nl ++ "42".

Definition combined_reply : string :=
  "## Analysis:" ++ nl ++ "both agree" ++ nl ++
  "## Conclusion:" ++ nl ++ "either" ++ nl ++
  "## Final Answer:" ++ nl ++ "42".

Definition generator : @Generator pdf := {|
  llm_visual := fun _ _ => Some structured_reply;
  llm_textual := fun _ _ => Some structured_reply;
  llm_combine := fun _ _ _ => Some combined_reply
|}.

Definition disk : Disk := {| can_write := fun _ => true |}.

(** A reader that hands every cell back as the text written. *)
Definition pandas : Pandas := {|
  read_visual_cell := fun _ _ _ => None;
  read_text_cell := fun _ _ _ => None
|}.

Definition query1 : Dataset.row :=
  Dataset.mk_row "q1" "alpha beta" "42" (Dataset.Text "['paper']")
                 Dataset.NoColumn.

Definition query2 : Dataset.row :=
  Dataset.mk_row "q2" "title" "none" (Dataset.Text "['scan', 'paper']")
                 Dataset.NoColumn.

Definition cfg : Orchestrator.config :=
  Orchestrator.mk_config "data" "out" gemini colpali bm25 1 false
                         [query1; query2].

Definition empty_world : Orchestrator.world :=
  Orchestrator.mk_world [] [] [].

(** The same deployment asking for three contexts per query. *)
Definition cfg3 : Orchestrator.config :=
  Orchestrator.mk_config "data" "out" gemini colpali bm25 3 false
                         [query1; query2].

(** A persisted visual table whose rows for [q1] name, in score order, a
    good page, a page of a PDF that is gone, a page beyond the end of its
    PDF, an id without page index, and another good page. *)
Definition visual_table : list VisualIndex.row :=
  [ VisualIndex.mk_row "q1" "paper_1" (1 # 10)%Q "alpha beta";
    VisualIndex.mk_row "q1" "paper_0" 1%Q "alpha beta";
    VisualIndex.mk_row "q1" "ghost_0" (9 # 10)%Q "alpha beta";
    VisualIndex.mk_row "q1" "badid" (7 # 10)%Q "alpha beta";
    VisualIndex.mk_row "q1" "paper_7" (8 # 10)%Q "alpha beta" ].

Definition world_with_visual_table : Orchestrator.world :=
  Orchestrator.mk_world
    [(Orchestrator.vision_retrieval_file cfg3,
      Orchestrator.VisualTable visual_table)] [] [].

(** A persisted textual table left by an earlier run over other text. *)
Definition stale_text_table : list TextIndex.row :=
  [ TextIndex.mk_row "q1" "alpha beta" "old text" "paper" 0 1 1%Q ].

Definition world_with_text_table : Orchestrator.world :=
  Orchestrator.mk_world
    [(Orchestrator.text_retrieval_file cfg,
      Orchestrator.TextTable stale_text_table)] [] [].

(** A world in which query [q1] is already complete. *)
Definition world_completed : Orchestrator.world :=
  Orchestrator.mk_world
    [(Orchestrator.combined_file cfg "q1",
      Orchestrator.JsonFile (JObj [("answer", JStr "42")]))] [] [].

End Demo.

(** A second small deployment: one PDF of a single page. *)
Module DemoSolo.

Definition pdf : PdfBackend := {|
  Image := string;
  path_exists := fun p => String.eqb p "data/docs/solo.pdf";
  pdf_reader_pages := fun p =>
    if String.eqb p "data/docs/solo.pdf" then Some ["only page"] else None;
  convert_from_path := fun p =>
    if String.eqb p "data/docs/solo.pdf" then Some ["only page"] else None;
  image_to_string := fun img => Some img
|}.

Definition vision : @VisionBackend pdf := {|
  Emb := string;
  embed_image := fun img : @Image pdf => Some img;
  embed_query := fun q => Some q;
  score_multi_vector := fun q ds => Some (map (Demo.prefix_ratio q) ds)
|}.

Definition query : Dataset.row :=
  Dataset.mk_row "q1" "only page" "yes" (Dataset.Text "['solo']")
                 Dataset.NoColumn.

End DemoSolo.

Module DemoMore.

(** A disk on which nothing can be written. *)
Definition read_only : Disk := {| can_write := fun _ => false |}.

(** A backend that always raises. *)
Definition failing_generator : @Generator Demo.pdf := {|
  llm_visual := fun _ _ => None;
  llm_textual := fun _ _ => None;
  llm_combine := fun _ _ _ => None
|}.

(** The demo deployment with a forced rebuild on every read. *)
Definition cfg_forced : Orchestrator.config :=
  Orchestrator.mk_config "data" "out" gemini colpali bm25 1 true
                         [Demo.query1; Demo.query2].

(** A world in which the two per-modality responses of [q1] are on disk and
    the combined one is not. *)
Definition world_with_responses : Orchestrator.world :=
  Orchestrator.mk_world
    [(Orchestrator.visual_file Demo.cfg "q1",
      Orchestrator.JsonFile (JObj [("Answer", JStr "42")]));
     (Orchestrator.textual_file Demo.cfg "q1",
      Orchestrator.JsonFile (JObj [("Answer", JStr "41")]))] [] [].

(** A world in which both queries of the dataset are complete. *)
Definition world_all_completed : Orchestrator.world :=
  Orchestrator.mk_world
    [(Orchestrator.combined_file Demo.cfg "q1",
      Orchestrator.JsonFile (JObj [("answer", JStr "42")]));
     (Orchestrator.combined_file Demo.cfg "q2",
      Orchestrator.JsonFile (JObj [("answer", JStr "none")]))] [] [].


(** A store that answers with the first [n] chunks, the farther one
    first. *)
Definition unsorted_ranker : TextRanker := {|
  bm25_fit := fun corpus => match corpus with [] => false | _ => true end;
  bm25_get_scores := fun corpus query =>
    Some (map (fun doc => inject_Z (Z.of_nat (Demo.count_hits doc query)))
              corpus);
  store_add := fun _ _ => true;
  store_query := fun docs _ n =>
    let k := Nat.min n (List.length docs) in
    Some (map (fun i => "chunk_" ++ PyStr.of_nat i) (seq 0 k),
          map (fun i => (Z.of_nat (5 - 4 * i) # 10)%Q) (seq 0 k))
|}.

End DemoMore.

(* ================================================================== *)
(** * Facts about the primitives *)
(* ================================================================== *)

Module PyDictFacts.

Lemma get_set_same {V : Type} (k : string) (v : V) (d : PyDict.t V) :
  PyDict.get k (PyDict.set k v d) = Some v.
Proof.
  induction d as [|[k' v'] d IH]; simpl.
  - now rewrite String.eqb_refl.
  - destruct (String.eqb k k') eqn:E; simpl.
    + now rewrite String.eqb_refl.
    + now rewrite E.
Qed.

Lemma get_set_other {V : Type} (k k' : string) (v : V) (d : PyDict.t V) :
  k <> k' -> PyDict.get k (PyDict.set k' v d) = PyDict.get k d.
Proof.
  intros Hne. induction d as [|[k2 v2] d IH]; simpl.
  - destruct (String.eqb_spec k k'); [contradiction | reflexivity].
  - destruct (String.eqb_spec k' k2) as [->|Hk]; simpl.
    + destruct (String.eqb_spec k k2); [contradiction | reflexivity].
    + destruct (String.eqb_spec k k2); [reflexivity | exact IH].
Qed.

Lemma keys_set_mem {V : Type} (k : string) (v : V) (d : PyDict.t V) :
  PyDict.mem k d = true -> PyDict.keys (PyDict.set k v d) = PyDict.keys d.
Proof.
  unfold PyDict.mem, PyDict.keys.
  induction d as [|[k' v'] d IH]; simpl; [discriminate|].
  destruct (String.eqb_spec k k') as [->|Hk]; simpl; intros Hm.
  - reflexivity.
  - now rewrite IH.
Qed.

Lemma keys_set_in {V : Type} (k x : string) (v : V) (d : PyDict.t V) :
  In x (PyDict.keys (PyDict.set k v d)) -> x = k \/ In x (PyDict.keys d).
Proof.
  unfold PyDict.keys.
  induction d as [|[k' v'] d IH]; simpl.
  - intros [<-|[]]; now left.
  - destruct (String.eqb_spec k k') as [->|Hk]; simpl.
    + intros [<-|Hin]; [now left | now right; right].
    + intros [<-|Hin]; [now right; left|].
      destruct (IH Hin) as [->|Hx]; [now left | now right; right].
Qed.

End PyDictFacts.

Module PySetFacts.

Lemma mem_In (x : string) (s : list string) :
  PySet.mem x s = true <-> In x s.
Proof.
  unfold PySet.mem. rewrite existsb_exists. split.
  - intros [y [Hy E]]. apply String.eqb_eq in E. now subst.
  - intros Hin. exists x. split; [exact Hin | apply String.eqb_refl].
Qed.

End PySetFacts.

Module QFacts.

Lemma Qgtb_true (a b : Q) : DocCache.Qgtb a b = true <-> (b < a)%Q.
Proof.
  unfold DocCache.Qgtb. rewrite negb_true_iff. split.
  - intros Hle. apply Qnot_le_lt. intros Hab.
    apply Qle_bool_iff in Hab. congruence.
  - intros Hlt. destruct (Qle_bool a b) eqn:E; [|reflexivity].
    apply Qle_bool_iff in E. exfalso. exact (Qlt_not_le _ _ Hlt E).
Qed.

Lemma Qgtb_false (a b : Q) : DocCache.Qgtb a b = false <-> (a <= b)%Q.
Proof.
  unfold DocCache.Qgtb. rewrite negb_false_iff. apply Qle_bool_iff.
Qed.

End QFacts.

(* ================================================================== *)
(** * Document cache builder: properties *)
(* ================================================================== *)

Module DocCacheFacts.
Import DocCache.

Section Extraction.
Context `{PdfBackend}.

Lemma ocr_pages_all (texts : list string) :
  forall (start : nat) (pdf_images : list Image),
    map image_to_string pdf_images = map Some texts ->
    ocr_pages start pdf_images =
    Some (map (fun nt => ocr_page_text (fst nt) (snd nt))
              (combine (seq start (List.length texts)) texts)).
Proof.
  induction texts as [|t texts IH]; intros start imgs Hmap.
  - destruct imgs; [reflexivity | discriminate].
  - destruct imgs as [|img imgs]; [discriminate|].
    simpl in Hmap. injection Hmap as Himg Hrest.
    simpl. rewrite Himg, (IH (S start) imgs Hrest). reflexivity.
Qed.

Lemma ocr_pages_failure (pdf_images : list Image) :
  forall start, (exists img, In img pdf_images /\ image_to_string img = None) ->
    ocr_pages start pdf_images = None.
Proof.
  induction pdf_images as [|img imgs IH]; intros start [bad [Hin Hbad]].
  - destruct Hin.
  - simpl. destruct Hin as [->|Hin].
    + now rewrite Hbad.
    + destruct (image_to_string img); [|reflexivity].
      rewrite (IH (S start)); [reflexivity | now exists bad].
Qed.

Lemma existsb_blank_false (pages : list string) :
  (forall p, In p pages -> PyStr.is_blank p = false) ->
  existsb PyStr.is_blank pages = false.
Proof.
  intros Hall. destruct (existsb PyStr.is_blank pages) eqn:E; [|reflexivity].
  apply existsb_exists in E. destruct E as [p [Hin Hb]].
  rewrite (Hall p Hin) in Hb. discriminate.
Qed.

Lemma existsb_blank_true (pages : list string) :
  (exists p, In p pages /\ PyStr.is_blank p = true) ->
  existsb PyStr.is_blank pages = true.
Proof. intros Hex. now apply existsb_exists. Qed.

End Extraction.

Section Caching.
Context `{PdfBackend}.
Variable pdf_dir : string.

Lemma first_existing_split (paths : list string) (p : string) :
  first_existing paths = Some p ->
  exists before after,
    paths = (before ++ p :: after)%list /\ path_exists p = true /\
    forall q, In q before -> path_exists q = false.
Proof.
  induction paths as [|x paths IH]; simpl; [discriminate|].
  destruct (path_exists x) eqn:Ex.
  - intros [= <-]. exists [], paths. repeat split; auto. intros q [].
  - intros Hf. destruct (IH Hf) as (before & after & -> & Hp & Hbefore).
    exists (x :: before), after. repeat split; auto.
    intros q [<-|Hq]; auto.
Qed.

Lemma first_existing_none (paths : list string) :
  (forall q, In q paths -> path_exists q = false) ->
  first_existing paths = None.
Proof.
  induction paths as [|x paths IH]; simpl; intros Hall; [reflexivity|].
  rewrite (Hall x (or_introl eq_refl)). apply IH. intros q Hq.
  apply Hall. now right.
Qed.

Lemma cache_one_other (st : cache_state) (d doc_id : string) :
  doc_id <> d ->
  PyDict.get doc_id (cache (cache_one pdf_dir st d)) =
  PyDict.get doc_id (cache st).
Proof.
  intros Hne. unfold cache_one.
  destruct (first_existing (possible_paths pdf_dir d)); simpl.
  - now apply PyDictFacts.get_set_other.
  - reflexivity.
Qed.

Lemma cache_one_same (st : cache_state) (doc_id : string) :
  PyDict.get doc_id (cache (cache_one pdf_dir st doc_id)) =
  match first_existing (possible_paths pdf_dir doc_id) with
  | Some p => Some (extract_text_from_pdf p)
  | None => PyDict.get doc_id (cache st)
  end.
Proof.
  unfold cache_one.
  destruct (first_existing (possible_paths pdf_dir doc_id)); simpl.
  - apply PyDictFacts.get_set_same.
  - reflexivity.
Qed.

(** The entry of [doc_id] after the loop over [docs], started in [st]. *)
Lemma fold_cache_get (docs : list string) :
  forall (st : cache_state) (doc_id : string),
    PyDict.get doc_id (cache (fold_left (cache_one pdf_dir) docs st)) =
    if PySet.mem doc_id docs then
      match first_existing (possible_paths pdf_dir doc_id) with
      | Some p => Some (extract_text_from_pdf p)
      | None => PyDict.get doc_id (cache st)
      end
    else PyDict.get doc_id (cache st).
Proof.
  induction docs as [|d docs IH]; intros st doc_id; [reflexivity|].
  cbn [fold_left]. rewrite IH.
  change (PySet.mem doc_id (d :: docs))
    with (String.eqb doc_id d || PySet.mem doc_id docs).
  destruct (String.eqb_spec doc_id d) as [->|Hne]; cbn [orb].
  - rewrite cache_one_same.
    destruct (PySet.mem d docs);
      destruct (first_existing (possible_paths pdf_dir d)); reflexivity.
  - now rewrite (cache_one_other st d doc_id Hne).
Qed.

Lemma fold_cache_warnings_keep (docs : list string) :
  forall (st : cache_state) (w : string),
    In w (warnings st) ->
    In w (warnings (fold_left (cache_one pdf_dir) docs st)).
Proof.
  induction docs as [|d docs IH]; intros st w Hin; simpl; [exact Hin|].
  apply IH. unfold cache_one.
  destruct (first_existing (possible_paths pdf_dir d)); simpl; auto.
  apply in_or_app. now left.
Qed.

Lemma fold_cache_warns (docs : list string) :
  forall (st : cache_state) (doc_id : string),
    In doc_id docs ->
    first_existing (possible_paths pdf_dir doc_id) = None ->
    In (no_pdf_warning doc_id)
       (warnings (fold_left (cache_one pdf_dir) docs st)).
Proof.
  induction docs as [|d docs IH]; intros st doc_id Hin Hnone; simpl.
  - destruct Hin.
  - destruct Hin as [->|Hin].
    + apply fold_cache_warnings_keep. unfold cache_one. rewrite Hnone. simpl.
      apply in_or_app. right. now left.
    + now apply IH.
Qed.

End Caching.


Section ExtractionPolicy.
Context `{PdfBackend}.

(** C7.  Per-page text extraction of one PDF.  When every page of the
    plain-text extraction has non-whitespace text, that page list is
    returned unchanged.  When some page is empty or whitespace only, the
    plain-text pages are dropped and the result is made from OCR alone, one
    entry for every rasterised page, in page order.  When the reader, the
    rasteriser or OCR raises, the [try] block fails and the function returns
    the empty list. *)
Theorem extract_text_from_pdf_policy (pdf_path : string) :
  (forall pages,
      pdf_reader_pages pdf_path = Some pages ->
      (forall p, In p pages -> PyStr.is_blank p = false) ->
      extract_text_from_pdf pdf_path = pages)
  /\ (forall pages pdf_images texts,
         pdf_reader_pages pdf_path = Some pages ->
         (exists p, In p pages /\ PyStr.is_blank p = true) ->
         convert_from_path pdf_path = Some pdf_images ->
         map image_to_string pdf_images = map Some texts ->
         extract_text_from_pdf pdf_path =
           map (fun nt => ocr_page_text (fst nt) (snd nt))
               (PyList.enumerate texts)
         /\ List.length (extract_text_from_pdf pdf_path) =
            List.length pdf_images)
  /\ (pdf_reader_pages pdf_path = None -> extract_text_try pdf_path = None)
  /\ (forall pages,
         pdf_reader_pages pdf_path = Some pages ->
         (exists p, In p pages /\ PyStr.is_blank p = true) ->
         convert_from_path pdf_path = None \/
         (exists pdf_images img,
             convert_from_path pdf_path = Some pdf_images /\
             In img pdf_images /\ image_to_string img = None) ->
         extract_text_try pdf_path = None)
  /\ (extract_text_try pdf_path = None -> extract_text_from_pdf pdf_path = []).
Proof.
  unfold extract_text_from_pdf, extract_text_try.
  split; [|split; [|split; [|split]]].
  - intros pages Hread Hall.
    now rewrite Hread, (existsb_blank_false pages Hall).
  - intros pages pdf_images texts Hread Hblank Hconv Hocr.
    rewrite Hread, (existsb_blank_true pages Hblank), Hconv.
    rewrite (ocr_pages_all texts 0 pdf_images Hocr).
    split; [reflexivity|].
    rewrite length_map, length_combine, length_seq, Nat.min_id.
    rewrite <- (length_map Some texts), <- Hocr. apply length_map.
  - intros Hread. now rewrite Hread.
  - intros pages Hread Hblank Hfail.
    rewrite Hread, (existsb_blank_true pages Hblank).
    destruct Hfail as [Hconv | (imgs & img & Hconv & Hin & Hbad)];
      rewrite Hconv; [reflexivity|].
    apply ocr_pages_failure. now exists img.
  - intros Htry. now rewrite Htry.
Qed.

End ExtractionPolicy.

(** The policy on the demo corpus: [paper.pdf] keeps its plain text,
    [scan.pdf] is read by OCR page by page, and the unreadable, locked and
    smudged files give no pages. *)
Lemma extract_text_from_pdf_policy_witness :
  @extract_text_from_pdf Demo.pdf "data/docs/paper.pdf" =
    ["alpha beta"; "gamma delta"]
  /\ @extract_text_from_pdf Demo.pdf "data/docs/scan.pdf" =
       [ocr_page_text 0 "title"; ocr_page_text 1 "figure"]
  /\ @extract_text_try Demo.pdf "data/docs/broken.pdf" = None
  /\ @extract_text_try Demo.pdf "data/docs/locked.pdf" = None
  /\ @extract_text_try Demo.pdf "data/docs/smudged.pdf" = None
  /\ @extract_text_from_pdf Demo.pdf "data/docs/broken.pdf" = [].
Proof.
  split; [|split; [|split; [|split; [|split]]]].
  - apply (proj1 (@extract_text_from_pdf_policy Demo.pdf
                    "data/docs/paper.pdf")).
    + reflexivity.
    + intros p [<-|[<-|[]]]; reflexivity.
  - apply (proj1 (proj2 (@extract_text_from_pdf_policy Demo.pdf
                           "data/docs/scan.pdf"))
             ["title"; "  "] ["title"; "figure"] ["title"; "figure"]).
    + reflexivity.
    + exists "  ". split; [right; left; reflexivity | reflexivity].
    + reflexivity.
    + reflexivity.
  - apply (proj1 (proj2 (proj2 (@extract_text_from_pdf_policy Demo.pdf
                                  "data/docs/broken.pdf")))).
    reflexivity.
  - apply (proj1 (proj2 (proj2 (proj2 (@extract_text_from_pdf_policy
                                         Demo.pdf "data/docs/locked.pdf"))))
             [""]).
    + reflexivity.
    + exists "". split; [left; reflexivity | reflexivity].
    + left. reflexivity.
  - apply (proj1 (proj2 (proj2 (proj2 (@extract_text_from_pdf_policy
                                         Demo.pdf "data/docs/smudged.pdf"))))
             [" "; "text"]).
    + reflexivity.
    + exists " ". split; [left; reflexivity | reflexivity].
    + right. exists ["?"; "text"], "?".
      split; [reflexivity | split; [left; reflexivity | reflexivity]].
  - apply (proj2 (proj2 (proj2 (proj2 (@extract_text_from_pdf_policy
                                         Demo.pdf "data/docs/broken.pdf"))))).
    reflexivity.
Defined.

Section CachingPolicy.
Context `{PdfBackend}.

(** C8.  Locating the PDF of every referenced document id.  The candidate
    paths are, in this order, the id itself, the id with [.pdf], the id
    padded on the right with zeros to ten characters with [.pdf], and the
    part of the id before its first underscore with [.pdf], each joined to
    the PDF directory.  The first candidate that exists is the one whose
    text is cached under the id.  When no candidate exists the id gets no
    cache entry and a warning naming it is logged; every other id of the
    list is cached all the same. *)
Theorem cache_documents_locates_pdf (pdf_dir : string) (docs : list string)
  (doc_id : string) :
  possible_paths pdf_dir doc_id =
    [ OsPath.join pdf_dir doc_id;
      OsPath.join pdf_dir (doc_id ++ ".pdf");
      OsPath.join pdf_dir (PyStr.ljust 10 "0" doc_id ++ ".pdf");
      OsPath.join pdf_dir (PyStr.before_first "_" doc_id ++ ".pdf") ]
  /\ (forall before p after,
         In doc_id docs ->
         possible_paths pdf_dir doc_id = (before ++ p :: after)%list ->
         (forall q, In q before -> path_exists q = false) ->
         path_exists p = true ->
         PyDict.get doc_id (cache (cache_loop pdf_dir docs)) =
           Some (extract_text_from_pdf p))
  /\ (In doc_id docs ->
      (forall q, In q (possible_paths pdf_dir doc_id) ->
                 path_exists q = false) ->
      PyDict.get doc_id (cache (cache_loop pdf_dir docs)) = None
      /\ In (no_pdf_warning doc_id) (warnings (cache_loop pdf_dir docs)))
  /\ (~ In doc_id docs ->
      PyDict.get doc_id (cache (cache_loop pdf_dir docs)) = None).
Proof.
  unfold cache_loop. split; [reflexivity | split; [|split]].
  - intros before p after Hin Hpaths Hbefore Hp.
    rewrite fold_cache_get.
    apply PySetFacts.mem_In in Hin. rewrite Hin, Hpaths.
    assert (Hfirst : first_existing (before ++ p :: after)%list = Some p).
    { clear Hpaths. induction before as [|x before IH]; simpl.
      - now rewrite Hp.
      - rewrite (Hbefore x (or_introl eq_refl)). apply IH.
        intros q Hq. apply Hbefore. now right. }
    now rewrite Hfirst.
  - intros Hin Hnone. apply first_existing_none in Hnone. split.
    + rewrite fold_cache_get, Hnone. now destruct (PySet.mem doc_id docs).
    + now apply fold_cache_warns.
  - intros Hnot. rewrite fold_cache_get.
    destruct (PySet.mem doc_id docs) eqn:E; [|reflexivity].
    apply PySetFacts.mem_In in E. contradiction.
Qed.

End CachingPolicy.

(** On the demo corpus: [paper] is found through its second candidate,
    [ghost] through none, the absent id [other] was never asked for. *)
Lemma cache_documents_locates_pdf_witness :
  PyDict.get "paper"
    (cache (@cache_loop Demo.pdf "data/docs" ["ghost"; "paper"])) =
    Some (@extract_text_from_pdf Demo.pdf "data/docs/paper.pdf")
  /\ (PyDict.get "ghost"
        (cache (@cache_loop Demo.pdf "data/docs" ["ghost"; "paper"])) = None
      /\ In (no_pdf_warning "ghost")
            (warnings (@cache_loop Demo.pdf "data/docs" ["ghost"; "paper"])))
  /\ PyDict.get "other"
       (cache (@cache_loop Demo.pdf "data/docs" ["ghost"; "paper"])) = None.
Proof.
  split; [|split].
  - apply (proj1 (proj2 (@cache_documents_locates_pdf Demo.pdf "data/docs"
                           ["ghost"; "paper"] "paper"))
             ["data/docs/paper"] "data/docs/paper.pdf"
             ["data/docs/paper00000.pdf"; "data/docs/paper.pdf"]).
    + right; left; reflexivity.
    + reflexivity.
    + intros q [<-|[]]; reflexivity.
    + reflexivity.
  - apply (proj1 (proj2 (proj2 (@cache_documents_locates_pdf Demo.pdf
                                  "data/docs" ["ghost"; "paper"] "ghost")))).
    + left; reflexivity.
    + intros q [<-|[<-|[<-|[<-|[]]]]]; reflexivity.
  - apply (proj2 (proj2 (proj2 (@cache_documents_locates_pdf Demo.pdf
                                  "data/docs" ["ghost"; "paper"] "other")))).
    intros [E|[E|[]]]; discriminate E.
Defined.


Section Alignment.
Context `{Similarity}.
Variable chunk : string.

Lemma scan_pages_fold (arxiv_id : string) (pages : list string) :
  forall (start : nat) (st : best),
    scan_pages chunk arxiv_id start pages st =
    fold_left (scan_step chunk) (enumerate_pages arxiv_id start pages) st.
Proof.
  unfold enumerate_pages.
  induction pages as [|page pages IH]; intros start st; [reflexivity|].
  cbn [scan_pages List.length seq combine map fold_left].
  rewrite IH. reflexivity.
Qed.

Lemma identify_fold (document_cache : PyDict.t (list string)) :
  identify_document_and_page document_cache chunk =
  snd (fold_left (scan_step chunk) (encounter document_cache) (0%Q, None)).
Proof.
  unfold identify_document_and_page, encounter. f_equal.
  generalize (0%Q, @None (string * nat)) as st.
  induction document_cache as [|[arxiv_id pages] rest IH]; intros st.
  - reflexivity.
  - cbn [fold_left flat_map]. rewrite fold_left_app, IH.
    now rewrite scan_pages_fold.
Qed.

Lemma scan_inv_nonneg (l : list (string * nat * string)) (st : best) :
  scan_inv chunk l st -> (0 <= fst st)%Q.
Proof.
  intros [_ Hb]. destruct (snd st).
  - now apply Qlt_le_weak.
  - rewrite Hb. apply Qle_refl.
Qed.

Lemma scan_inv_step (l : list (string * nat * string)) (st : best)
  (x : string * nat * string) :
  scan_inv chunk l st -> scan_inv chunk (l ++ [x]) (scan_step chunk st x).
Proof.
  intros Hinv. pose proof (scan_inv_nonneg l st Hinv) as Hpos.
  destruct Hinv as [Hmax Hbest]. unfold scan_step.
  destruct (Qgtb (ratio chunk (snd x)) (fst st)) eqn:E.
  - apply QFacts.Qgtb_true in E. split; cbn [fst snd].
    + intros y Hy. apply in_app_or in Hy. destruct Hy as [Hy|[<-|[]]].
      * apply Qlt_le_weak. eapply Qle_lt_trans; [apply Hmax, Hy | exact E].
      * apply Qle_refl.
    + split; [eapply Qle_lt_trans; eassumption|].
      exists (List.length l), (snd x). split; [|split].
      * rewrite nth_error_app2, Nat.sub_diag by lia.
        now destruct x as [key text].
      * reflexivity.
      * intros j y Hj Hnth. rewrite nth_error_app1 in Hnth by exact Hj.
        eapply Qle_lt_trans; [|exact E].
        apply Hmax. eapply nth_error_In; eassumption.
  - apply QFacts.Qgtb_false in E. split.
    + intros y Hy. apply in_app_or in Hy. destruct Hy as [Hy|[<-|[]]]; auto.
    + destruct (snd st) as [key|]; [|exact Hbest].
      destruct Hbest as (Hgt & i & text & Hnth & Heq & Hfirst).
      split; [exact Hgt|]. exists i, text.
      assert (Hi : i < List.length l).
      { apply nth_error_Some. rewrite Hnth. discriminate. }
      split; [|split].
      * now rewrite nth_error_app1.
      * exact Heq.
      * intros j y Hj Hy. rewrite nth_error_app1 in Hy by lia.
        eapply Hfirst; eassumption.
Qed.

Lemma scan_inv_fold (l : list (string * nat * string)) :
  scan_inv chunk l (fold_left (scan_step chunk) l (0%Q, None)).
Proof.
  induction l as [|x l IH] using rev_ind.
  - split; [intros y [] | reflexivity].
  - rewrite fold_left_app. cbn [fold_left]. now apply scan_inv_step.
Qed.

End Alignment.

Lemma enumerate_pages_sound (arxiv_id : string) (pages : list string) :
  forall (start : nat) (key : string * nat) (text : string),
    In (key, text) (enumerate_pages arxiv_id start pages) ->
    fst key = arxiv_id /\ start <= snd key
    /\ nth_error pages (snd key - start) = Some text.
Proof.
  unfold enumerate_pages.
  induction pages as [|page pages IH]; intros start key text Hin.
  - destruct Hin.
  - cbn [List.length seq combine map] in Hin. destruct Hin as [Heq|Hin].
    + injection Heq as <- <-. cbn [fst snd]. rewrite Nat.sub_diag.
      repeat split. lia.
    + destruct (IH (S start) key text Hin) as (Hid & Hle & Hnth).
      repeat split; [exact Hid | lia |].
      replace (snd key - start) with (S (snd key - S start)) by lia.
      exact Hnth.
Qed.

(** An element of the encounter list is a page of a cached document. *)
Lemma encounter_sound (document_cache : PyDict.t (list string))
  (key : string * nat) (text : string) :
  In (key, text) (encounter document_cache) ->
  exists pages,
    In (fst key, pages) document_cache
    /\ nth_error pages (snd key) = Some text.
Proof.
  unfold encounter. intros Hin. apply in_flat_map in Hin.
  destruct Hin as [[arxiv_id pages] [Hdoc Hpage]].
  destruct (enumerate_pages_sound arxiv_id pages 0 key text Hpage)
    as (Hid & _ & Hnth).
  exists pages. rewrite Hid, Nat.sub_0_r in *. now split.
Qed.

Section AlignmentPolicy.
Context `{Similarity}.

(** C3.  The page a chunk is assigned to.  The cached pages are compared in
    encounter order (documents in cache order, pages in page order).  When
    some page has a positive similarity ratio with the chunk, the assigned
    (document id, page number) is a cached page whose ratio is at least the
    ratio of every cached page and strictly above the ratio of every page
    met before it: the first page that reaches the maximum.  When no page
    has a positive ratio, in particular when every ratio is zero, the chunk
    is assigned to its source document and page 0.  Cached documents that
    have pages carry a non-empty id, as [cache_documents] guarantees. *)
Theorem chunk_assignment_first_maximum
  (document_cache : PyDict.t (list string)) (doc_id chunk : string) :
  (forall id pages, In (id, pages) document_cache -> pages <> [] -> id <> "") ->
  let info := assign_chunk document_cache doc_id chunk in
  ((exists y, In y (encounter document_cache)
              /\ (0 < ratio chunk (snd y))%Q) ->
   exists i pages text,
     nth_error (encounter document_cache) i =
       Some (chunk_pdf_name info, pdf_page_number info, text)
     /\ In (chunk_pdf_name info, pages) document_cache
     /\ nth_error pages (pdf_page_number info) = Some text
     /\ (forall y, In y (encounter document_cache) ->
                   (ratio chunk (snd y) <= ratio chunk text)%Q)
     /\ (forall j y, j < i -> nth_error (encounter document_cache) j = Some y ->
                     (ratio chunk (snd y) < ratio chunk text)%Q))
  /\ ((forall y, In y (encounter document_cache) ->
                 (ratio chunk (snd y) <= 0)%Q) ->
      chunk_pdf_name info = doc_id /\ pdf_page_number info = 0).
Proof.
  intros Hids info. subst info. unfold assign_chunk.
  rewrite identify_fold.
  pose proof (scan_inv_fold chunk (encounter document_cache)) as [Hmax Hbest].
  destruct (fold_left (scan_step chunk) (encounter document_cache) (0%Q, None))
    as [m [[arxiv_id page_num]|]]; cbn [fst snd] in *.
  - destruct Hbest as (Hgt & i & text & Hnth & Heq & Hfirst).
    assert (Hin : In (arxiv_id, page_num, text) (encounter document_cache))
      by (eapply nth_error_In; eassumption).
    destruct (encounter_sound document_cache (arxiv_id, page_num) text Hin)
      as (pages & Hdoc & Hpage). cbn [fst snd] in *.
    assert (Htruthy : truthy arxiv_id = true).
    { unfold truthy. apply negb_true_iff, String.eqb_neq.
      apply (Hids arxiv_id pages Hdoc). intros ->.
      destruct page_num; discriminate. }
    rewrite Htruthy. split.
    + intros _. exists i, pages, text.
      split; [exact Hnth | split; [exact Hdoc | split; [exact Hpage|]]].
      split.
      * intros y Hy. rewrite Heq. now apply Hmax.
      * intros j y Hj Hy. rewrite Heq. eapply Hfirst; eassumption.
    + intros Hzero. exfalso.
      specialize (Hzero _ Hin). cbn [snd] in Hzero. rewrite Heq in Hzero.
      exact (Qlt_not_le _ _ Hgt Hzero).
  - split; [|intros _; now split].
    intros [y [Hy Hpos]]. exfalso.
    specialize (Hmax y Hy). rewrite Hbest in Hmax.
    exact (Qlt_not_le _ _ Hpos Hmax).
Qed.

End AlignmentPolicy.


(** Two cached documents hold the text of the chunk; the one met first
    wins.  With a similarity that is zero everywhere the chunk stays with
    its source document. *)
Lemma chunk_assignment_first_maximum_witness :
  let document_cache :=
    [("paper", ["alpha beta"; "gamma delta"]);
     ("notes", ["alpha"; "alpha beta"])] in
  (exists i pages text,
      nth_error (encounter document_cache) i =
        Some (chunk_pdf_name
                (@assign_chunk Demo.similarity document_cache
                               "notes" "alpha beta"),
              pdf_page_number
                (@assign_chunk Demo.similarity document_cache
                               "notes" "alpha beta"), text)
      /\ In (chunk_pdf_name
               (@assign_chunk Demo.similarity document_cache
                              "notes" "alpha beta"), pages) document_cache
      /\ nth_error pages
           (pdf_page_number
              (@assign_chunk Demo.similarity document_cache
                             "notes" "alpha beta")) = Some text
      /\ (forall y, In y (encounter document_cache) ->
                    (Demo.prefix_ratio "alpha beta" (snd y) <=
                     Demo.prefix_ratio "alpha beta" text)%Q)
      /\ (forall j y, j < i ->
                      nth_error (encounter document_cache) j = Some y ->
                      (Demo.prefix_ratio "alpha beta" (snd y) <
                       Demo.prefix_ratio "alpha beta" text)%Q))
  /\ (chunk_pdf_name
        (@assign_chunk Demo.no_similarity document_cache
                       "notes" "alpha beta") = "notes"
      /\ pdf_page_number
           (@assign_chunk Demo.no_similarity document_cache
                          "notes" "alpha beta") = 0).
Proof.
  intros document_cache.
  assert (Hids : forall id pages,
             In (id, pages) document_cache -> pages <> [] -> id <> "").
  { intros id pages [E|[E|[]]] _; injection E as <- _; discriminate. }
  split.
  - apply (proj1 (@chunk_assignment_first_maximum Demo.similarity
                    document_cache "notes" "alpha beta" Hids)).
    exists ("paper", 0, "alpha beta").
    split; [left; reflexivity | reflexivity].
  - apply (proj2 (@chunk_assignment_first_maximum Demo.no_similarity
                    document_cache "notes" "alpha beta" Hids)).
    intros y _. discriminate.
Defined.

Example assign_chunk_first_of_two_equal :
  @assign_chunk Demo.similarity
    [("paper", ["alpha beta"; "gamma delta"]);
     ("notes", ["alpha"; "alpha beta"])] "notes" "alpha beta"
  = mk_chunk_info "alpha beta" "paper" 0.
Proof. reflexivity. Qed.

Example cache_documents_demo :
  @cache_documents Demo.pdf Demo.evaluator "data" [Demo.query1; Demo.query2]
  = mk_cache_state
      [("paper", ["alpha beta"; "gamma delta"]);
       ("scan", [ocr_page_text 0 "title"; ocr_page_text 1 "figure"])]
      [].
Proof. reflexivity. Qed.

End DocCacheFacts.
(* ================================================================== *)
(** * String primitives: properties *)
(* ================================================================== *)

Module PyStrFacts.
Import PyStr.

Lemma append_assoc (a b c : string) : (a ++ b) ++ c = a ++ (b ++ c).
Proof. induction a as [|x a IH]; simpl; [reflexivity | now rewrite IH]. Qed.

Lemma append_nil_r (a : string) : a ++ "" = a.
Proof. induction a as [|x a IH]; simpl; [reflexivity | now rewrite IH]. Qed.

(** Splitting at the last separator of [h ++ c ++ t] when [t] has none. *)
Lemma rsplit1_app (c : ascii) (t : string) :
  rsplit1 c t = None ->
  forall h, rsplit1 c (h ++ String c t) = Some (h, t).
Proof.
  intros Hnone. induction h as [|a h IH]; simpl.
  - now rewrite Hnone, Ascii.eqb_refl.
  - now rewrite IH.
Qed.

(** A rendered number has no underscore. *)
Lemma rsplit1_uint (u : Decimal.uint) :
  rsplit1 "_" (NilEmpty.string_of_uint u) = None.
Proof. induction u; simpl; try rewrite IHu; reflexivity. Qed.

Lemma rsplit1_of_nat (n : nat) : rsplit1 "_" (of_nat n) = None.
Proof. apply rsplit1_uint. Qed.

(** ** Whitespace stripping *)

Lemma lstrip_head (s : string) (c : ascii) (t : string) :
  lstrip s = String c t -> is_space c = false.
Proof.
  induction s as [|a s IH]; simpl; [discriminate|].
  destruct (is_space a) eqn:E; [exact IH|].
  intros [= <- _]. exact E.
Qed.

Lemma rstrip_head (c : ascii) (t : string) :
  is_space c = false -> exists r, rstrip (String c t) = String c r.
Proof.
  intros Hc. simpl. rewrite Hc.
  destruct (rstrip t) as [|d r]; [now exists "" | now exists (String d r)].
Qed.

Lemma rstrip_idempotent (s : string) : rstrip (rstrip s) = rstrip s.
Proof.
  induction s as [|c s IH]; [reflexivity|].
  simpl. destruct (rstrip s) as [|d r] eqn:E.
  - destruct (is_space c) eqn:Ec; [reflexivity|]. simpl. now rewrite Ec.
  - change (rstrip (String c (String d r)))
      with (match rstrip (String d r) with
            | "" => if is_space c then "" else String c ""
            | x => String c x
            end).
    now rewrite IH.
Qed.

(** A stripped value has no whitespace left to strip at either end. *)
Lemma strip_idempotent (s : string) : strip (strip s) = strip s.
Proof.
  unfold strip. destruct (lstrip s) as [|c t] eqn:E; [reflexivity|].
  apply lstrip_head in E. destruct (rstrip_head c t E) as [r Hr].
  assert (Hl : lstrip (rstrip (String c t)) = rstrip (String c t)).
  { rewrite Hr. simpl. now rewrite E. }
  rewrite Hl. apply rstrip_idempotent.
Qed.

(** ** Searching for a marker *)

Lemma startswith_app (h y : string) : startswith h (h ++ y) = true.
Proof.
  induction h as [|a h IH]; simpl; [reflexivity|].
  now rewrite Ascii.eqb_refl, IH.
Qed.

Lemma drop_app (h y : string) : drop (String.length h) (h ++ y) = y.
Proof. induction h as [|a h IH]; simpl; [reflexivity | exact IH]. Qed.

Lemma startswith_length (t z : string) :
  startswith t z = true -> String.length t <= String.length z.
Proof.
  revert z. induction t as [|a t IH]; intros z Hsw; simpl; [lia|].
  destruct z as [|b z]; simpl in Hsw; [discriminate|].
  apply andb_true_iff in Hsw. destruct Hsw as [_ Hsw].
  simpl. apply le_n_S. now apply IH.
Qed.

(** A prefix of [h ++ y] no longer than [h] is a prefix of [h]. *)
Lemma startswith_app_l (t h y : string) :
  startswith t (h ++ y) = true -> String.length t <= String.length h ->
  startswith t h = true.
Proof.
  revert h. induction t as [|a t IH]; intros h Hsw Hlen; [reflexivity|].
  destruct h as [|b h]; simpl in *; [lia|].
  apply andb_true_iff in Hsw. destruct Hsw as [Hab Hsw].
  rewrite Hab. simpl. apply IH; [exact Hsw | lia].
Qed.

(** A prefix of [h] at least as long as [h] has [h] as a prefix. *)
Lemma startswith_antisym (x h : string) :
  startswith x h = true -> String.length h <= String.length x ->
  startswith h x = true.
Proof.
  revert h. induction x as [|a x IH]; intros h Hsw Hlen.
  - destruct h; [reflexivity | simpl in Hlen; lia].
  - destruct h as [|b h]; [reflexivity|]. simpl in *.
    apply andb_true_iff in Hsw. destruct Hsw as [Hab Hsw].
    rewrite Ascii.eqb_sym, Hab. simpl. apply IH; [exact Hsw | lia].
Qed.

(** A prefix of [x ++ z] is a prefix of [x], or it extends [x] with a
    prefix of [z]. *)
Lemma startswith_app_cases (x : string) :
  forall s z,
    startswith s (x ++ z) = true ->
    startswith s x = true
    \/ (startswith x s = true
        /\ startswith (drop (String.length x) s) z = true).
Proof.
  induction x as [|a x IH]; intros s z Hsw.
  - right. split; [reflexivity | exact Hsw].
  - destruct s as [|b s]; [now left|]. simpl in Hsw.
    apply andb_true_iff in Hsw. destruct Hsw as [Hba Hsw].
    destruct (IH s z Hsw) as [Hl | [Hr1 Hr2]].
    + left. simpl. now rewrite Hba.
    + right. simpl. rewrite Ascii.eqb_sym, Hba. now split.
Qed.

Lemma drop_length (k : nat) :
  forall h, String.length (drop k h) = String.length h - k.
Proof.
  induction k as [|k IH]; intros h; simpl; [lia|].
  destruct h as [|a h]; simpl; [reflexivity | apply IH].
Qed.

(** An unbordered marker placed after a non-empty text it does not start
    cannot start the whole. *)
Lemma startswith_before_marker (h x y : string) :
  unbordered h = true -> x <> "" ->
  startswith h x = false ->
  startswith h (x ++ h ++ y) = false.
Proof.
  intros Hunb Hx Hnot.
  destruct (startswith h (x ++ h ++ y)) eqn:Hsw; [|reflexivity].
  exfalso. apply startswith_app_cases in Hsw.
  destruct Hsw as [Hsw | [Hxh Htail]]; [congruence|].
  pose proof (startswith_length _ _ Hxh) as Hlen.
  assert (Hlt : String.length x < String.length h).
  { destruct (Nat.eq_dec (String.length x) (String.length h)) as [E|E];
      [|lia].
    rewrite (startswith_antisym x h Hxh) in Hnot by lia. discriminate. }
  assert (Hk : 0 < String.length x) by (destruct x; [contradiction | simpl; lia]).
  assert (Hborder : startswith (drop (String.length x) h) h = true).
  { apply (startswith_app_l _ h y Htail). rewrite drop_length. lia. }
  unfold unbordered in Hunb. rewrite forallb_forall in Hunb.
  specialize (Hunb (String.length x)).
  rewrite Hborder in Hunb. simpl in Hunb.
  assert (Hin : In (String.length x) (seq 1 (String.length h - 1)))
    by (apply in_seq; lia).
  specialize (Hunb Hin). discriminate.
Qed.

(** Cutting at an unbordered marker that does not occur before its place. *)
Lemma cut_app (h y : string) :
  unbordered h = true -> h <> "" ->
  forall x, occurs h x = false -> cut h (x ++ h ++ y) = Some (x, y).
Proof.
  intros Hunb Hh. induction x as [|a x IH]; intros Hocc.
  - simpl. destruct (h ++ y) as [|b t] eqn:E.
    + destruct h; [contradiction | discriminate].
    + cbn [cut]. rewrite <- E, startswith_app, drop_app. reflexivity.
  - simpl in Hocc. apply orb_false_iff in Hocc. destruct Hocc as [Hsw Hocc].
    change (String a x ++ h ++ y) with (String a (x ++ h ++ y)).
    cbn [cut].
    change (String a (x ++ h ++ y)) with (String a x ++ h ++ y).
    rewrite (startswith_before_marker h (String a x) y Hunb); auto;
      [|discriminate].
    now rewrite (IH Hocc).
Qed.

Lemma cut_none (h s : string) : occurs h s = false -> cut h s = None.
Proof.
  induction s as [|a s IH]; simpl; [reflexivity|].
  intros Hocc. apply orb_false_iff in Hocc. destruct Hocc as [Hsw Hocc].
  cbn [startswith] in *. rewrite Hsw. now rewrite (IH Hocc).
Qed.

Lemma occurs_app_r (h x y : string) :
  occurs h (x ++ y) = false -> occurs h y = false.
Proof.
  induction x as [|a x IH]; simpl; [auto|].
  intros Hocc. apply orb_false_iff in Hocc. now apply IH.
Qed.

End PyStrFacts.

(* ================================================================== *)
(** * String primitives: numbers, lines and markers *)
(* ================================================================== *)

Module PyStrNumbers.
Import PyStr.

Lemma digits_val_uint (u : Decimal.uint) :
  forall acc,
    digits_val acc (NilEmpty.string_of_uint u) = Some (Nat.of_uint_acc u acc).
Proof.
  induction u; intros acc; cbn [NilEmpty.string_of_uint digits_val];
    try reflexivity;
    match goal with
    | |- context [digit_val ?c] =>
        let v := eval vm_compute in (digit_val c) in
        change (digit_val c) with v
    end;
    cbv iota; rewrite IHu; cbn [Nat.of_uint_acc];
    rewrite Nat.tail_mul_spec; f_equal; f_equal; lia.
Qed.

Lemma rstrip_uint (u : Decimal.uint) :
  int_rstrip (NilEmpty.string_of_uint u) = NilEmpty.string_of_uint u.
Proof.
  induction u; cbn [NilEmpty.string_of_uint int_rstrip]; try reflexivity;
    rewrite IHu; now destruct (NilEmpty.string_of_uint u).
Qed.

Lemma strip_uint (u : Decimal.uint) :
  int_rstrip (int_lstrip (NilEmpty.string_of_uint u))
  = NilEmpty.string_of_uint u.
Proof.
  assert (Hl : int_lstrip (NilEmpty.string_of_uint u)
               = NilEmpty.string_of_uint u)
    by (destruct u; reflexivity).
  rewrite Hl. apply rstrip_uint.
Qed.

(** The separators FS..US are not whitespace for [int]. *)
Lemma py_int_separator :
  py_int (String (ascii_of_nat 31) "1") = None
  /\ py_int (String (ascii_of_nat 28) "7") = None
  /\ py_int (String (ascii_of_nat 32) "1") = Some 1%Z.
Proof. repeat split. Qed.

Lemma to_uint_nonnil (n : nat) : Nat.to_uint n <> Decimal.Nil.
Proof.
  rewrite <- (DecimalNat.Unsigned.of_to n) at 1.
  rewrite DecimalNat.Unsigned.to_of. apply DecimalFacts.unorm_nonnil.
Qed.

(** [int] reads back the number an f-string rendered. *)
Lemma py_int_of_nat (n : nat) : py_int (of_nat n) = Some (Z.of_nat n).
Proof.
  unfold py_int, of_nat. rewrite strip_uint.
  pose proof (to_uint_nonnil n) as Hnil.
  pose proof (digits_val_uint (Nat.to_uint n) 0) as Hval.
  change (Nat.of_uint_acc (Nat.to_uint n) 0)
    with (Nat.of_uint (Nat.to_uint n)) in Hval.
  rewrite DecimalNat.Unsigned.of_to in Hval.
  destruct (Nat.to_uint n); [contradiction | ..];
    cbn [NilEmpty.string_of_uint] in *; cbv iota beta; rewrite Hval;
    reflexivity.
Qed.

End PyStrNumbers.

(* ================================================================== *)
(** * Sorting and list primitives: properties *)
(* ================================================================== *)

Module PyListFacts.
Import PyList.

Section Descending.
Context {A : Type}.
Variable key : A -> Q.


Lemma insert_desc_In (x y : A) (l : list A) :
  In y (insert_desc key x l) <-> y = x \/ In y l.
Proof.
  induction l as [|z l IH]; simpl.
  - intuition.
  - destruct (DocCache.Qgtb (key z) (key x)); simpl; rewrite ?IH; intuition.
Qed.

Lemma sorted_desc_In (y : A) (l : list A) :
  In y (sorted_desc key l) <-> In y l.
Proof.
  induction l as [|x l IH]; simpl; [reflexivity|].
  rewrite insert_desc_In, IH. intuition.
Qed.

Lemma insert_desc_length (x : A) (l : list A) :
  List.length (insert_desc key x l) = S (List.length l).
Proof.
  induction l as [|z l IH]; simpl; [reflexivity|].
  destruct (DocCache.Qgtb (key z) (key x)); simpl; now rewrite ?IH.
Qed.

Lemma sorted_desc_length (l : list A) :
  List.length (sorted_desc key l) = List.length l.
Proof.
  induction l as [|x l IH]; simpl; [reflexivity|].
  now rewrite insert_desc_length, IH.
Qed.

Lemma insert_desc_sorted (x : A) (l : list A) :
  StronglySorted (fun a b => (key b <= key a)%Q) l ->
  StronglySorted (fun a b => (key b <= key a)%Q) (insert_desc key x l).
Proof.
  induction 1 as [|z l Hsorted IH Hall]; simpl.
  - constructor; constructor.
  - destruct (DocCache.Qgtb (key z) (key x)) eqn:E.
    + apply QFacts.Qgtb_true in E. constructor; [exact IH|].
      apply Forall_forall. intros y Hy. apply insert_desc_In in Hy.
      destruct Hy as [->|Hy].
      * now apply Qlt_le_weak.
      * rewrite Forall_forall in Hall. now apply Hall.
    + apply QFacts.Qgtb_false in E.
      constructor; [now constructor|].
      constructor; [exact E|].
      apply Forall_forall. intros y Hy. rewrite Forall_forall in Hall.
      eapply Qle_trans; [apply Hall, Hy | exact E].
Qed.

Lemma sorted_desc_sorted (l : list A) :
  StronglySorted (fun a b => (key b <= key a)%Q) (sorted_desc key l).
Proof.
  induction l as [|x l IH]; simpl; [constructor|].
  now apply insert_desc_sorted.
Qed.

End Descending.

Lemma firstn_In {A : Type} (x : A) (l : list A) :
  forall n, In x (firstn n l) -> In x l.
Proof.
  induction l as [|y l IH]; intros [|n] Hx; simpl in Hx; try destruct Hx.
  - now left.
  - right. eapply IH; eassumption.
Qed.

Lemma StronglySorted_firstn {A : Type} (R : A -> A -> Prop) (l : list A) :
  StronglySorted R l -> forall n, StronglySorted R (firstn n l).
Proof.
  induction 1 as [|x l Hsorted IH Hall]; intros [|n]; simpl;
    try constructor; auto.
  rewrite Forall_forall in *. intros y Hy. apply Hall.
  eapply firstn_In; eassumption.
Qed.

Lemma StronglySorted_map {A B : Type} (f : A -> B) (R : B -> B -> Prop)
  (l : list A) :
  StronglySorted (fun a b => R (f a) (f b)) l -> StronglySorted R (map f l).
Proof.
  induction 1 as [|x l Hsorted IH Hall]; simpl; constructor; auto.
  rewrite Forall_forall in *. intros y Hy. apply in_map_iff in Hy.
  destruct Hy as [a [<- Ha]]. now apply Hall.
Qed.


Lemma map_snd_combine {A B : Type} (l : list A) :
  forall l' : list B,
    map snd (combine l l') = firstn (List.length l) l'.
Proof.
  induction l as [|x l IH]; intros [|y l']; simpl; try reflexivity.
  now rewrite IH.
Qed.


Lemma all_some_In {A B : Type} (f : A -> option B) (l : list A) :
  forall ys y, all_some (map f l) = Some ys -> In y ys ->
               exists x, In x l /\ f x = Some y.
Proof.
  induction l as [|x l IH]; simpl; intros ys y Hall Hy.
  - injection Hall as <-. destruct Hy.
  - destruct (f x) as [b|] eqn:Efx; [|discriminate].
    destruct (all_some (map f l)) as [bs|]; [|discriminate].
    injection Hall as <-. destruct Hy as [<-|Hy].
    + exists x. split; [now left | exact Efx].
    + destruct (IH bs y eq_refl Hy) as [a [Ha Hfa]].
      exists a. split; [now right | exact Hfa].
Qed.

Lemma filter_all {A : Type} (p : A -> bool) (l : list A) :
  (forall x, In x l -> p x = true) -> filter p l = l.
Proof.
  induction l as [|x l IH]; simpl; intros Hall; [reflexivity|].
  rewrite (Hall x (or_introl eq_refl)), IH; auto.
Qed.

Lemma filter_none {A : Type} (p : A -> bool) (l : list A) :
  (forall x, In x l -> p x = false) -> filter p l = [].
Proof.
  induction l as [|x l IH]; simpl; intros Hall; [reflexivity|].
  rewrite (Hall x (or_introl eq_refl)), IH; auto.
Qed.

End PyListFacts.

(* ================================================================== *)
(** * Textual index builder: properties *)
(* ================================================================== *)

Module TextIndexFacts.
Import TextIndex.

Section Emit.
Variables (q qn : string).
Variable mapping : list DocCache.chunk_info.
Variable chunks : list string.


Lemma emit_rows_ranks (items : list (Z * Q)) :
  forall start,
    map rank (emit_rows q qn mapping chunks start items) =
    seq (start + 1)
        (List.length (emit_rows q qn mapping chunks start items)).
Proof.
  induction items as [|[idx sc] items IH]; intros start; [reflexivity|].
  cbn [emit_rows].
  destruct (PyList.index mapping idx); [|reflexivity].
  destruct (PyList.index chunks idx); [|reflexivity].
  cbn [map List.length seq rank]. rewrite IH.
  now replace (S start + 1) with (S (start + 1)) by lia.
Qed.


Lemma emit_rows_q_id (items : list (Z * Q)) :
  forall start x,
    In x (emit_rows q qn mapping chunks start items) -> q_id x = q.
Proof.
  induction items as [|[idx sc] items IH]; intros start x Hx; [destruct Hx|].
  cbn [emit_rows] in Hx.
  destruct (PyList.index mapping idx); [|destruct Hx].
  destruct (PyList.index chunks idx); [|destruct Hx].
  destruct Hx as [<-|Hx]; [reflexivity | eapply IH; eassumption].
Qed.

End Emit.




Section Strategies.
Context `{TextRanker}.
Variable top_k : nat.
Variable mapping : list DocCache.chunk_info.
Variable chunks : list string.









Lemma bm25_rows_q_id (r : Dataset.row) (x : row) :
  In x (bm25_rows top_k mapping chunks r) -> q_id x = Dataset.q_id r.
Proof.
  unfold bm25_rows. destruct (bm25_get_scores _ _); [|intros []].
  apply emit_rows_q_id.
Qed.

Lemma dense_rows_q_id (r : Dataset.row) (x : row) :
  In x (dense_rows top_k mapping chunks r) -> q_id x = Dataset.q_id r.
Proof.
  unfold dense_rows. destruct (store_query _ _ _) as [[ids ds]|]; [|intros []].
  destruct (PyList.all_some _); [|intros []].
  apply emit_rows_q_id.
Qed.

End Strategies.

(** With distinct query ids in the dataset, the rows of one query in the
    table are the rows its dataset row produced. *)
Lemma rows_of_flat_map (f : Dataset.row -> list row) (df : Dataset.t)
  (r : Dataset.row) :
  (forall r' x, In x (f r') -> q_id x = Dataset.q_id r') ->
  NoDup (map Dataset.q_id df) ->
  In r df ->
  rows_of (Dataset.q_id r) (flat_map f df) = f r.
Proof.
  intros Hq. unfold rows_of.
  induction df as [|r0 df IH]; intros Hnodup Hin; [destruct Hin|].
  cbn [flat_map map] in *. rewrite filter_app.
  inversion Hnodup as [|? ? Hfresh Hrest]; subst.
  destruct Hin as [->|Hin].
  - rewrite PyListFacts.filter_all, PyListFacts.filter_none; [apply app_nil_r | |].
    + intros x Hx. apply in_flat_map in Hx. destruct Hx as [r' [Hr' Hx]].
      rewrite (Hq r' x Hx). apply String.eqb_neq. intros E.
      apply Hfresh. rewrite <- E. now apply in_map.
    + intros x Hx. rewrite (Hq r x Hx). apply String.eqb_refl.
  - rewrite PyListFacts.filter_none, IH; auto.
    intros x Hx. rewrite (Hq r0 x Hx). apply String.eqb_neq. intros E.
    apply Hfresh. rewrite E. now apply in_map.
Qed.

Section RankOrder.
Context `{Similarity} `{TextSplitter} `{TextRanker}.


End RankOrder.




(** The dense rows follow the answer of the store as it comes: with a store
    that returns the farther neighbour first, the row of rank 2 has the
    higher score. *)
Example dense_rows_follow_store :
  let df := [Demo.query1; Demo.query2] in
  let document_cache :=
    DocCache.cache
      (@DocCache.cache_documents Demo.pdf Demo.evaluator "data" df) in
  option_map (fun table => map (fun x => (rank x, score x))
                               (rows_of "q1" table))
    (@text_index_rows Demo.similarity Demo.splitter DemoMore.unsorted_ranker
       bge 1 df document_cache)
  = Some [(1, (5 # 10)%Q); (2, (9 # 10)%Q)].
Proof. vm_compute. reflexivity. Qed.

End TextIndexFacts.
(* ================================================================== *)
(** * Visual index builder: properties *)
(* ================================================================== *)

Module VisualIndexFacts.
Import VisualIndex.

(** The page id determines the document it was made from. *)
Lemma doc_of_page_id (doc_id : string) (page_idx : nat) :
  doc_of_page (page_id doc_id page_idx) = doc_id.
Proof.
  unfold doc_of_page, page_id.
  change ("_" ++ PyStr.of_nat page_idx)
    with (String "_" (PyStr.of_nat page_idx)).
  now rewrite (PyStrFacts.rsplit1_app "_" _ (PyStrFacts.rsplit1_of_nat _)).
Qed.

Section Pages.
Context `{VisionBackend}.
Variable pdf_dir : string.

Lemma embed_pages_keys (files : list string) (f : string)
  (pages : list Image) :
  In f files ->
  forall page_idx embeddings,
    keys_from files embeddings ->
    keys_from files
      (embed_pages (OsPath.splitext_root f) page_idx pages embeddings).
Proof.
  intros Hf. induction pages as [|img pages IH]; intros page_idx embs Hinv.
  - exact Hinv.
  - cbn [embed_pages]. apply IH.
    destruct (embed_image img) as [e|]; [|exact Hinv].
    intros k Hk. apply PyDictFacts.keys_set_in in Hk.
    destruct Hk as [->|Hk]; [now exists f, page_idx | now apply Hinv].
Qed.

Lemma embed_pdf_keys (files : list string) (f : string)
  (embeddings : PyDict.t Emb) :
  In f files -> keys_from files embeddings ->
  keys_from files (embed_pdf pdf_dir embeddings f).
Proof.
  intros Hf Hinv. unfold embed_pdf.
  destruct (path_exists _); [|exact Hinv].
  destruct (convert_from_path _); [|exact Hinv].
  now apply embed_pages_keys.
Qed.

Lemma fold_embed_keys (files some : list string) :
  (forall f, In f some -> In f files) ->
  forall embeddings,
    keys_from files embeddings ->
    keys_from files (fold_left (embed_pdf pdf_dir) some embeddings).
Proof.
  induction some as [|f some IH]; intros Hsub embs Hinv; [exact Hinv|].
  cbn [fold_left]. apply IH.
  - intros g Hg. apply Hsub. now right.
  - apply embed_pdf_keys; [apply Hsub; now left | exact Hinv].
Qed.

Lemma page_embeddings_keys (files : list string) :
  keys_from files (page_embeddings pdf_dir files).
Proof.
  unfold page_embeddings. apply fold_embed_keys; [auto|].
  intros k [].
Qed.

End Pages.

Lemma relevant_keys {E : Type} (relevant : list string)
  (embeddings : PyDict.t E) (k : string) :
  In k (PyDict.keys (relevant_page_embeddings relevant embeddings)) ->
  In k (PyDict.keys embeddings)
  /\ PySet.mem (doc_of_page k) relevant = true.
Proof.
  unfold PyDict.keys, relevant_page_embeddings. intros Hk.
  apply in_map_iff in Hk. destruct Hk as [[k' e] [<- Hin]].
  apply filter_In in Hin. destruct Hin as [Hin Hmem].
  split; [now apply (in_map fst) in Hin | exact Hmem].
Qed.

Section Ranking.
Context `{VisionBackend} `{PyEval}.

(** A row of one query carries that query's id and the key of one of its
    candidate pages. *)
Lemma rank_query_In (df : Dataset.t) (files : list string)
  (embeddings : PyDict.t Emb) (q : string) (query_emb : Emb) (x : row) :
  In x (rank_query df files embeddings q query_emb) ->
  q_id x = q
  /\ exists document_info,
      find_row q df = Some document_info
      /\ In (document_id x)
            (PyDict.keys
               (relevant_page_embeddings
                  (relevant_docs files document_info) embeddings)).
Proof.
  unfold rank_query.
  destruct (find_row q df) as [document_info|]; [|intros []].
  destruct (_ <? 2); [intros []|].
  destruct (score_multi_vector _ _) as [scores|]; [|intros []].
  destruct (PyList.all_some _) as [ranked_docs|] eqn:Eranked; [|intros []].
  intros Hx. apply in_map_iff in Hx. destruct Hx as [[doc i] [<- Hpair]].
  split; [reflexivity|]. exists document_info. split; [reflexivity|].
  apply in_combine_l in Hpair.
  destruct (PyListFacts.all_some_In _ _ _ _ Eranked Hpair) as [n [_ Hnth]].
  eapply nth_error_In. exact Hnth.
Qed.

End Ranking.


Section RelevantDocuments.
Context `{VisionBackend} `{PyEval}.

(** C5.  Candidate pages of the visual ranking.  Take a row of the visual
    retrieval table and the dataset row of its query.  When the [documents]
    field of that row evaluates to a non-empty list, the row's page id is
    the id of a page of a processed PDF whose document name is in that list
    (names taken up to [.pdf]): no page of another document is ranked.  When
    the field is absent, does not evaluate, or evaluates to an empty list,
    the candidate pages of the query are all the processed pages.  In every
    case a ranked page is one of the processed pages. *)
Theorem visual_rows_respect_relevant_docs (data_dir : string)
  (df : Dataset.t) :
  let files := pdf_files df in
  let embeddings := page_embeddings (OsPath.join data_dir "docs") files in
  (forall x document_info docs,
      In x (visual_index_rows data_dir df) ->
      find_row (q_id x) df = Some document_info ->
      eval_documents_cell (Dataset.documents document_info) = Some docs ->
      docs <> [] ->
      exists f page_idx,
        In f files
        /\ document_id x = page_id (OsPath.splitext_root f) page_idx
        /\ In (OsPath.splitext_root f)
              (map (PyStr.before_first ".pdf") docs))
  /\ (forall document_info,
         eval_documents_cell (Dataset.documents document_info) = None
         \/ eval_documents_cell (Dataset.documents document_info) = Some [] ->
         relevant_page_embeddings (relevant_docs files document_info)
                                  embeddings = embeddings)
  /\ (forall x, In x (visual_index_rows data_dir df) ->
                In (document_id x) (PyDict.keys embeddings)).
Proof.
  intros files embeddings.
  assert (Hrow : forall x,
             In x (visual_index_rows data_dir df) ->
             exists document_info,
               find_row (q_id x) df = Some document_info
               /\ In (document_id x)
                     (PyDict.keys
                        (relevant_page_embeddings
                           (relevant_docs files document_info) embeddings))).
  { intros x Hx. unfold visual_index_rows in Hx.
    apply in_flat_map in Hx. destruct Hx as [[q query_emb] [_ Hx]].
    apply rank_query_In in Hx. destruct Hx as [-> Hx]. exact Hx. }
  pose proof (page_embeddings_keys (OsPath.join data_dir "docs") files)
    as Hkeys.
  split; [|split].
  - intros x document_info docs Hx Hfind Heval Hdocs.
    destruct (Hrow x Hx) as (info & Hfind' & Hkey).
    rewrite Hfind in Hfind'. injection Hfind' as <-.
    apply relevant_keys in Hkey. destruct Hkey as [Hkey Hmem].
    destruct (Hkeys _ Hkey) as (f & page_idx & Hf & Hid).
    exists f, page_idx. split; [exact Hf | split; [exact Hid|]].
    rewrite Hid, doc_of_page_id in Hmem. apply PySetFacts.mem_In in Hmem.
    unfold relevant_docs in Hmem.
    destruct (Dataset.documents document_info) as [| |s];
      try discriminate Heval.
    rewrite Heval in Hmem.
    destruct docs as [|d docs]; [contradiction | exact Hmem].
  - intros document_info Hnone.
    assert (Hall : relevant_docs files document_info = all_docs files).
    { unfold relevant_docs.
      destruct (Dataset.documents document_info) as [| |s];
        try reflexivity; destruct Hnone as [E|E]; rewrite E;
        try reflexivity; now destruct (all_docs files). }
    rewrite Hall. unfold relevant_page_embeddings.
    apply PyListFacts.filter_all. intros [k e] Hin. cbn [fst].
    apply (in_map fst) in Hin. cbn [fst] in Hin. destruct (Hkeys _ Hin) as (f & i & Hf & ->).
    rewrite doc_of_page_id. apply PySetFacts.mem_In.
    unfold all_docs. now apply in_map.
  - intros x Hx. destruct (Hrow x Hx) as (info & _ & Hkey).
    now apply relevant_keys in Hkey.
Qed.

End RelevantDocuments.


(** On the demo corpus the best page of query [q1], whose documents field
    names [paper] alone, is a page of [paper.pdf]; a query without a
    documents column has every processed page as a candidate. *)
Lemma visual_rows_respect_relevant_docs_witness :
  let df := [Demo.query1; Demo.query2] in
  let files := @pdf_files Demo.evaluator df in
  let embeddings :=
    @page_embeddings Demo.pdf Demo.vision "data/docs" files in
  (exists f page_idx,
      In f files
      /\ "paper_0" = page_id (OsPath.splitext_root f) page_idx
      /\ In (OsPath.splitext_root f) ["paper"])
  /\ relevant_page_embeddings
       (@relevant_docs Demo.evaluator files
          (Dataset.mk_row "q3" "gamma" "" Dataset.NoColumn Dataset.NoColumn))
       embeddings = embeddings.
Proof.
  intros df files embeddings.
  pose proof (@visual_rows_respect_relevant_docs Demo.pdf Demo.vision
                Demo.evaluator "data" df) as (Hrelevant & Hall & _).
  split.
  - apply (Hrelevant (mk_row "q1" "paper_0" (20 # 20)%Q "alpha beta")
                     Demo.query1 ["paper"]).
    + vm_compute. left. reflexivity.
    + reflexivity.
    + reflexivity.
    + discriminate.
  - apply Hall. left. reflexivity.
Defined.

End VisualIndexFacts.
(* ================================================================== *)
(** * Structured-answer parsing: properties *)
(* ================================================================== *)

Module SectionsFacts.
Import Sections.

Lemma extract_sections_eq (text : string) :
  extract_sections text =
  [("Evidence", section_value "Evidence" (Some "Chain of Thought") text);
   ("Chain of Thought",
    section_value "Chain of Thought" (Some "Answer") text);
   ("Answer", section_value "Answer" None text)].
Proof. reflexivity. Qed.

(** The pattern of a heading finds nothing when its marker is missing. *)
Lemma section_value_missing (heading : string) (next : option string)
  (text : string) :
  PyStr.occurs (marker heading) text = false ->
  section_value heading next text = "".
Proof.
  intros Hmiss. unfold section_value, search_group.
  now rewrite (PyStrFacts.cut_none _ _ Hmiss).
Qed.

(** The group of a heading followed by its next heading, neither occurring
    earlier. *)
Lemma section_value_between (heading next x a y : string) :
  PyStr.unbordered (marker heading) = true ->
  PyStr.unbordered (marker next) = true ->
  PyStr.occurs (marker heading) x = false ->
  PyStr.occurs (marker next) a = false ->
  section_value heading (Some next)
                (x ++ marker heading ++ a ++ marker next ++ y)
  = PyStr.strip a.
Proof.
  intros Hu1 Hu2 Hx Ha. unfold section_value, search_group.
  rewrite (PyStrFacts.cut_app (marker heading) _ Hu1); [|discriminate|exact Hx].
  rewrite (PyStrFacts.cut_app (marker next) _ Hu2); [|discriminate|exact Ha].
  reflexivity.
Qed.

Lemma section_value_last (heading x y : string) :
  PyStr.unbordered (marker heading) = true ->
  PyStr.occurs (marker heading) x = false ->
  section_value heading None (x ++ marker heading ++ y) = PyStr.strip y.
Proof.
  intros Hu Hx. unfold section_value, search_group.
  rewrite (PyStrFacts.cut_app (marker heading) _ Hu); [|discriminate|exact Hx].
  reflexivity.
Qed.

(** C6, as the code has it.  For a text made of a preamble, [## Evidence:],
    A, [## Chain of Thought:], B, [## Answer:] and C, in which no marker
    occurs before its own heading ([## Evidence:] not in the preamble,
    [## Chain of Thought:] not in the text before its heading, [## Answer:]
    not in the text before its heading), [extract_sections] returns A, B and
    C, each stripped of surrounding whitespace.  For any text, a heading
    whose marker is missing gets the empty string, and the result always has
    exactly the three keys: the extraction cannot fail. *)
Theorem extract_sections_delimited :
  (forall P A B C : string,
      PyStr.occurs (marker "Evidence") P = false ->
      PyStr.occurs (marker "Chain of Thought")
                   (P ++ marker "Evidence" ++ A) = false ->
      PyStr.occurs (marker "Answer")
                   (P ++ marker "Evidence" ++ A
                      ++ marker "Chain of Thought" ++ B) = false ->
      extract_sections
        (P ++ marker "Evidence" ++ A ++ marker "Chain of Thought" ++ B
           ++ marker "Answer" ++ C)
      = [("Evidence", PyStr.strip A);
         ("Chain of Thought", PyStr.strip B);
         ("Answer", PyStr.strip C)])
  /\ (forall text heading,
         In heading headings ->
         PyStr.occurs (marker heading) text = false ->
         PyDict.get heading (extract_sections text) = Some "")
  /\ (forall text, PyDict.keys (extract_sections text) = headings).
Proof.
  split; [|split].
  - intros P A B C HE HC HA. rewrite extract_sections_eq.
    assert (HCA : PyStr.occurs (marker "Chain of Thought") A = false).
    { apply (PyStrFacts.occurs_app_r _ (marker "Evidence")).
      now apply (PyStrFacts.occurs_app_r _ P). }
    assert (HAB : PyStr.occurs (marker "Answer") B = false).
    { apply (PyStrFacts.occurs_app_r _ (marker "Chain of Thought")).
      apply (PyStrFacts.occurs_app_r _ A).
      apply (PyStrFacts.occurs_app_r _ (marker "Evidence")).
      now apply (PyStrFacts.occurs_app_r _ P). }
    f_equal; [|f_equal; [|f_equal]]; f_equal.
    + now apply section_value_between.
    + replace (P ++ marker "Evidence" ++ A ++ marker "Chain of Thought" ++ B
                 ++ marker "Answer" ++ C)
        with ((P ++ marker "Evidence" ++ A) ++ marker "Chain of Thought" ++ B
                ++ marker "Answer" ++ C)
        by (now rewrite !PyStrFacts.append_assoc).
      now apply section_value_between.
    + replace (P ++ marker "Evidence" ++ A ++ marker "Chain of Thought" ++ B
                 ++ marker "Answer" ++ C)
        with ((P ++ marker "Evidence" ++ A ++ marker "Chain of Thought" ++ B)
                ++ marker "Answer" ++ C)
        by (now rewrite !PyStrFacts.append_assoc).
      now apply section_value_last.
  - intros text heading Hin Hmiss. rewrite extract_sections_eq.
    destruct Hin as [<-|[<-|[<-|[]]]];
      rewrite (section_value_missing _ _ _ Hmiss); reflexivity.
  - intros text. now rewrite extract_sections_eq.
Qed.

(** A reply whose evidence quotes an answer heading, with a text missing a
    heading and one with none at all. *)
Lemma extract_sections_delimited_witness :
  extract_sections
    ("Sure." ++ marker "Evidence" ++ " table 2 " ++ marker "Chain of Thought"
       ++ " add the rows " ++ marker "Answer" ++ " 42 ")
  = [("Evidence", "table 2"); ("Chain of Thought", "add the rows");
     ("Answer", "42")]
  /\ PyDict.get "Chain of Thought"
       (extract_sections ("## Evidence: none ## Answer: 7")) = Some "".
Proof.
  destruct extract_sections_delimited as (Hform & Hmissing & _).
  split.
  - apply (Hform "Sure." " table 2 " " add the rows " " 42 "); reflexivity.
  - apply Hmissing; [right; left; reflexivity | reflexivity].
Defined.

(** C6 as stated fails when an earlier section contains a later marker:
    here A quotes [## Answer:], and the Answer section starts at that
    quotation instead of being C. *)
Lemma extract_sections_counterexample :
  let A := " the slide reads ## Answer: 7 " in
  let B := " copy it " in
  let C := " 7 " in
  extract_sections
    (marker "Evidence" ++ A ++ marker "Chain of Thought" ++ B
       ++ marker "Answer" ++ C)
  <> [("Evidence", PyStr.strip A); ("Chain of Thought", PyStr.strip B);
      ("Answer", PyStr.strip C)].
Proof. vm_compute. discriminate. Qed.

(** The loop of [parse_combined_output] adds to each of the three sections
    exactly the lines that stand under its heading. *)
Lemma parse_fold (lines : list string) :
  forall (cur : option string) (a c f : string),
    fold_left parse_step lines
      (cur, [("Analysis", a); ("Conclusion", c); ("Final Answer", f)])
    = (governing cur lines,
       [("Analysis", a ++ body (lines_under "Analysis" cur lines));
        ("Conclusion", c ++ body (lines_under "Conclusion" cur lines));
        ("Final Answer", f ++ body (lines_under "Final Answer" cur lines))]).
Proof.
  induction lines as [|line lines IH]; intros cur a c f.
  - cbn [fold_left governing lines_under body].
    now rewrite !PyStrFacts.append_nil_r.
  - cbn [fold_left governing lines_under]. unfold parse_step at 2.
    destruct (is_heading_line line) eqn:Eh; [apply IH|].
    destruct cur as [cs|]; [|apply IH].
    destruct (String.eqb_spec cs "Analysis") as [->|Ha].
    { cbn. rewrite IH. cbn [body].
      now rewrite !PyStrFacts.append_assoc. }
    destruct (String.eqb_spec cs "Conclusion") as [->|Hc].
    { cbn. rewrite IH. cbn [body].
      now rewrite !PyStrFacts.append_assoc. }
    destruct (String.eqb_spec cs "Final Answer") as [->|Hf].
    { cbn. rewrite IH. cbn [body].
      now rewrite !PyStrFacts.append_assoc. }
    assert (Hmem : PyDict.mem cs
                     [("Analysis", a); ("Conclusion", c); ("Final Answer", f)]
                   = false).
    { unfold PyDict.mem. cbn [PyDict.get].
      apply String.eqb_neq in Ha, Hc, Hf. now rewrite Ha, Hc, Hf. }
    rewrite Hmem, andb_false_r. apply IH.
Qed.

Lemma parse_lines_eq (lines : list string) :
  parse_lines lines =
  [("Analysis", body (lines_under "Analysis" None lines));
   ("Conclusion", body (lines_under "Conclusion" None lines));
   ("Final Answer", body (lines_under "Final Answer" None lines))].
Proof. unfold parse_lines, empty_sections. now rewrite parse_fold. Qed.

Lemma lines_under_skip (key : string) (rest : list string) :
  forall pre,
    (forall l, In l pre -> is_heading_line l = false) ->
    lines_under key None (pre ++ rest)%list = lines_under key None rest.
Proof.
  induction pre as [|l pre IH]; intros Hpre; [reflexivity|].
  rewrite <- app_comm_cons. cbn [lines_under].
  rewrite (Hpre l (or_introl eq_refl)).
  apply IH. intros l' Hl'. apply Hpre. now right.
Qed.

Lemma lines_under_block (key name : string) (rest : list string) :
  forall block,
    (forall l, In l block -> is_heading_line l = false) ->
    lines_under key (Some name) (block ++ rest)%list =
    ((if String.eqb name key then block else [])
       ++ lines_under key (Some name) rest)%list.
Proof.
  induction block as [|l block IH]; intros Hblock.
  - now destruct (String.eqb name key).
  - rewrite <- app_comm_cons. cbn [lines_under].
    rewrite (Hblock l (or_introl eq_refl)).
    rewrite IH by (intros l' Hl'; apply Hblock; now right).
    now destruct (String.eqb name key).
Qed.

(** C10.  [parse_combined_output] is a total function of its input.  Its
    result has exactly the keys Analysis, Conclusion and Final Answer, in
    that order.  The value of a key is the whitespace-stripped
    concatenation of the lines (each with its newline) that are not heading
    lines and whose latest preceding heading line names that key; stripping
    a value again changes nothing.  So the lines before the first heading
    line count for no key, a heading line itself counts for no key, and the
    lines under a heading count for the key it names and for no other: under
    any other heading they are dropped. *)
Theorem parse_combined_output_sections (output : string) :
  let lines := PyStr.split_char (ascii_of_nat 10) output in
  parse_combined_output output =
    [("Analysis", PyStr.strip (body (lines_under "Analysis" None lines)));
     ("Conclusion", PyStr.strip (body (lines_under "Conclusion" None lines)));
     ("Final Answer",
      PyStr.strip (body (lines_under "Final Answer" None lines)))]
  /\ PyDict.keys (parse_combined_output output) =
       ["Analysis"; "Conclusion"; "Final Answer"]
  /\ (forall key value,
         PyDict.get key (parse_combined_output output) = Some value ->
         PyStr.strip value = value)
  /\ (forall key pre rest,
         (forall l, In l pre -> is_heading_line l = false) ->
         lines_under key None (pre ++ rest)%list = lines_under key None rest)
  /\ (forall key current h block rest,
         is_heading_line h = true ->
         (forall l, In l block -> is_heading_line l = false) ->
         lines_under key current (h :: block ++ rest)%list =
         ((if String.eqb (heading_name h) key then block else [])
            ++ lines_under key (Some (heading_name h)) rest)%list).
Proof.
  intros lines.
  assert (Heq : parse_combined_output output =
    [("Analysis", PyStr.strip (body (lines_under "Analysis" None lines)));
     ("Conclusion", PyStr.strip (body (lines_under "Conclusion" None lines)));
     ("Final Answer",
      PyStr.strip (body (lines_under "Final Answer" None lines)))]).
  { unfold parse_combined_output. fold lines. now rewrite parse_lines_eq. }
  split; [exact Heq | split; [now rewrite Heq | split; [|split]]].
  - intros key value. rewrite Heq. cbn [PyDict.get].
    repeat match goal with
           | |- context [String.eqb key ?k] => destruct (String.eqb key k)
           end;
      intros [= <-] || discriminate; apply PyStrFacts.strip_idempotent.
  - intros key pre rest. apply lines_under_skip.
  - intros key current h block rest Hh Hblock.
    cbn [lines_under]. rewrite Hh. now apply lines_under_block.
Qed.

(** A reply with a preamble, a foreign heading and the three sections. *)
Lemma parse_combined_output_sections_witness :
  let output :=
    "Here is my analysis." ++ DocCache.nl ++
    "## Notes:" ++ DocCache.nl ++ "scratch" ++ DocCache.nl ++
    Demo.combined_reply in
  PyStr.strip "both agree" = "both agree"
  /\ lines_under "Analysis" None
       (["Here is my analysis."]
          ++ ["## Notes:"; "scratch"; "## Analysis:"; "both agree"])%list
     = lines_under "Analysis" None
         ["## Notes:"; "scratch"; "## Analysis:"; "both agree"]
  /\ lines_under "Analysis" None
       ("## Notes:" :: ["scratch"] ++ ["## Analysis:"; "both agree"])%list
     = ([] ++ lines_under "Analysis" (Some "Notes")
                          ["## Analysis:"; "both agree"])%list.
Proof.
  intros output.
  destruct (parse_combined_output_sections output)
    as (_ & _ & Hstripped & Hbefore & Hblock).
  split; [|split].
  - apply (Hstripped "Analysis"). reflexivity.
  - apply Hbefore. intros l [<-|[]]. reflexivity.
  - apply (Hblock "Analysis" None "## Notes:" ["scratch"]).
    + reflexivity.
    + intros l [<-|[]]. reflexivity.
Defined.

Example extract_sections_reply :
  extract_sections Demo.structured_reply =
  [("Evidence", "page 1"); ("Chain of Thought", "read it"); ("Answer", "42")].
Proof. reflexivity. Qed.

(** Without the heading that follows it, a section is empty although its
    own heading is there. *)
Example extract_sections_no_next_heading :
  extract_sections "## Evidence: table 2 ## Answer: 42" =
  [("Evidence", ""); ("Chain of Thought", ""); ("Answer", "42")].
Proof. reflexivity. Qed.

Example parse_combined_output_reply :
  parse_combined_output Demo.combined_reply =
  [("Analysis", "both agree"); ("Conclusion", "either");
   ("Final Answer", "42")].
Proof. reflexivity. Qed.

(** Text on the heading line is part of the heading's name, so the line
    names no known section and the lines under it are dropped. *)
Example parse_combined_output_inline_answer :
  parse_combined_output ("## Final Answer: 42" ++ DocCache.nl ++ "units") =
  [("Analysis", ""); ("Conclusion", ""); ("Final Answer", "")].
Proof. reflexivity. Qed.

End SectionsFacts.
(* ================================================================== *)
(** * Retrieval store and orchestrator: properties *)
(* ================================================================== *)

Module OrchestratorFacts.
Import Orchestrator.

Section VisualRetrieval.
Context `{VisionBackend} `{PyEval} `{Disk} `{Pandas}.

Lemma load_contexts_length (pdf_dir : string) (rows : list visual_read) :
  List.length (load_contexts pdf_dir rows) <= List.length rows.
Proof.
  induction rows as [|row rows IH]; simpl; [lia|].
  destruct (load_read pdf_dir row); simpl; lia.
Qed.

Lemma load_contexts_In (pdf_dir : string) (rows : list visual_read)
  (c : visual_context) :
  In c (load_contexts pdf_dir rows) <->
  exists row, In row rows /\ load_read pdf_dir row = Some c.
Proof.
  induction rows as [|row rows IH]; simpl.
  - split; [intros [] | intros [row [[] _]]].
  - destruct (load_read pdf_dir row) as [c'|] eqn:E; simpl; rewrite IH.
    + split.
      * intros [<-|[r [Hr Hl]]]; [exists row | exists r]; auto.
      * intros [r [[<-|Hr] Hl]]; [left; congruence | right; now exists r].
    + split.
      * intros [r [Hr Hl]]. exists r; auto.
      * intros [r [[<-|Hr] Hl]]; [congruence | now exists r].
Qed.

(** The loaded contexts follow the rows, the skipped rows left out. *)
Lemma load_contexts_flat_map (pdf_dir : string) (rows : list visual_read) :
  load_contexts pdf_dir rows =
  flat_map (fun x => match load_read pdf_dir x with
                     | Some c => [c]
                     | None => []
                     end) rows.
Proof.
  induction rows as [|row rows IH]; [reflexivity|].
  cbn [load_contexts flat_map]. rewrite IH.
  now destruct (load_read pdf_dir row).
Qed.

Lemma nlargest_nil (n : nat) : nlargest n [] = [].
Proof. unfold nlargest. simpl. apply firstn_nil. Qed.

Lemma nlargest_length (n : nat) (rows : list visual_read) :
  List.length (nlargest n rows) <= n.
Proof. apply firstn_le_length. Qed.

(** The rows read back are the rows of the table, in table order. *)
Lemma read_visual_rows_row (table : list VisualIndex.row) :
  forall rows i, map v_row (read_visual_rows table i rows) = rows.
Proof.
  induction rows as [|r rows IH]; intros i; [reflexivity|].
  cbn [read_visual_rows map v_row]. now rewrite IH.
Qed.

Lemma read_visual_table_row (table : list VisualIndex.row) :
  map v_row (read_visual_table table) = table.
Proof. apply read_visual_rows_row. Qed.

Lemma save_pages_returns (cfg : config) (page_ids : list string) :
  forall w, snd (save_pages cfg page_ids w) = Some tt.
Proof.
  induction page_ids as [|page page_ids IH]; intros w; [reflexivity|].
  cbn [save_pages]. unfold bind, write_file. apply IH.
Qed.

Lemma save_queries_returns (cfg : config) (rows : Dataset.t) :
  forall w, snd (save_queries cfg rows w) = Some tt.
Proof.
  induction rows as [|r rows IH]; intros w; [reflexivity|].
  cbn [save_queries]. destruct (embed_query _); [|apply IH].
  destruct (can_write _); [|apply IH].
  unfold bind, write_file. apply IH.
Qed.

(** [build_visual_index] step by step. *)
Lemma build_visual_index_run (cfg : config) (w : world) :
  let w0 :=
    mk_world (files w) (document_cache w)
             (trace w ++ [BuildVisualIndex])%list in
  let saved (w1 : world) :=
    fst (save_queries cfg (df cfg)
           (fst (save_pages cfg
                   (VisualIndex.saved_page_ids
                      (OsPath.join (data_dir cfg) "docs")
                      (VisualIndex.pdf_files (df cfg)))
                   w1))) in
  build_visual_index cfg w =
  match make_dirs (embeddings_dir cfg) w0 with
  | (w1, None) => (w1, Some false)
  | (w1, Some _) =>
      if can_write (vision_retrieval_file cfg) then
        (mk_world
           (PyDict.set (vision_retrieval_file cfg)
              (VisualTable
                 (VisualIndex.visual_index_rows (data_dir cfg) (df cfg)))
              (files (saved w1)))
           (document_cache (saved w1))
           (trace (saved w1) ++ [WriteFile (vision_retrieval_file cfg)])%list,
         Some true)
      else (saved w1, Some false)
  end.
Proof.
  intros w0 saved. subst w0 saved.
  unfold build_visual_index. unfold bind at 1. unfold emit at 1.
  unfold catch. unfold bind at 1.
  destruct (make_dirs (embeddings_dir cfg) _) as [w1 [u|]]; [|reflexivity].
  unfold bind at 1.
  pose proof (save_pages_returns cfg
                (VisualIndex.saved_page_ids
                   (OsPath.join (data_dir cfg) "docs")
                   (VisualIndex.pdf_files (df cfg))) w1) as Hpages.
  destruct (save_pages cfg _ w1) as [w2 o2]. cbn [fst snd] in *.
  subst o2. unfold bind at 1.
  pose proof (save_queries_returns cfg (df cfg) w2) as Hqueries.
  destruct (save_queries cfg (df cfg) w2) as [w3 o3]. cbn [fst snd] in *.
  subst o3. cbv zeta.
  destruct (can_write (vision_retrieval_file cfg)); reflexivity.
Qed.

Lemma save_pages_trace (cfg : config) (page_ids : list string) :
  forall w,
    trace (fst (save_pages cfg page_ids w)) =
    (trace w ++ map (fun page => WriteFile (page_tensor_file cfg page))
                    page_ids)%list.
Proof.
  induction page_ids as [|page page_ids IH]; intros w.
  - cbn. now rewrite app_nil_r.
  - cbn [save_pages map]. unfold bind, write_file. rewrite IH.
    cbn [trace]. now rewrite <- app_assoc.
Qed.

Lemma save_queries_trace (cfg : config) (rows : Dataset.t) :
  forall w,
    trace (fst (save_queries cfg rows w)) =
    (trace w ++ map WriteFile (Reads.saved_query_files cfg rows))%list.
Proof.
  unfold Reads.saved_query_files.
  induction rows as [|r rows IH]; intros w.
  - cbn. now rewrite app_nil_r.
  - cbn [save_queries flat_map]. destruct (embed_query _); [|apply IH].
    destruct (can_write _); [|apply IH].
    unfold bind, write_file. rewrite IH. cbn [trace app map].
    now rewrite <- app_assoc.
Qed.

Lemma save_pages_cache (cfg : config) (page_ids : list string) :
  forall w,
    document_cache (fst (save_pages cfg page_ids w)) = document_cache w.
Proof.
  induction page_ids as [|page page_ids IH]; intros w; [reflexivity|].
  cbn [save_pages]. unfold bind, write_file. now rewrite IH.
Qed.

Lemma save_queries_cache (cfg : config) (rows : Dataset.t) :
  forall w,
    document_cache (fst (save_queries cfg rows w)) = document_cache w.
Proof.
  induction rows as [|r rows IH]; intros w; [reflexivity|].
  cbn [save_queries]. destruct (embed_query _); [|apply IH].
  destruct (can_write _); [|apply IH].
  unfold bind, write_file. now rewrite IH.
Qed.

(** The build of the visual index leaves the document cache alone. *)
Lemma build_visual_index_cache (cfg : config) (w : world) :
  document_cache (fst (build_visual_index cfg w)) = document_cache w.
Proof.
  rewrite build_visual_index_run. cbv zeta. unfold make_dirs.
  cbn [files document_cache].
  destruct (PyDict.get (embeddings_dir cfg) (files w)) as [[]|];
    try reflexivity;
    try destruct (can_write (embeddings_dir cfg)); try reflexivity;
    destruct (can_write (vision_retrieval_file cfg));
    cbn [fst document_cache];
    now rewrite save_queries_cache, save_pages_cache.
Qed.

(** Without the embeddings directory the build stops before it writes. *)
Lemma build_visual_index_no_dirs (cfg : config) (w : world) :
  Reads.can_make_dirs cfg w = false ->
  build_visual_index cfg w =
  (mk_world (files w) (document_cache w)
            (trace w ++ [BuildVisualIndex])%list, Some false).
Proof.
  intros Hno. rewrite build_visual_index_run. cbv zeta.
  unfold make_dirs, Reads.can_make_dirs in *. cbn [files].
  destruct (PyDict.get (embeddings_dir cfg) (files w)) as [[]|];
    try reflexivity; try discriminate.
  now rewrite Hno.
Qed.

(** The trace of a build that gets its directory: the build, the
    directory if it had to be made, the embedding files in the order
    saved, and the table if it can be written. *)
Lemma build_visual_index_trace_made (cfg : config) (w : world) :
  Reads.can_make_dirs cfg w = true ->
  trace (fst (build_visual_index cfg w)) =
  (trace w
   ++ BuildVisualIndex
      :: Reads.make_dirs_events cfg w
      ++ map WriteFile (Reads.embedding_writes cfg)
      ++ (if can_write (vision_retrieval_file cfg)
          then [WriteFile (vision_retrieval_file cfg)] else []))%list.
Proof.
  intros Hdirs. rewrite build_visual_index_run. cbv zeta.
  unfold make_dirs, Reads.can_make_dirs, Reads.make_dirs_events,
    Reads.embedding_writes in *.
  cbn [files] in *.
  destruct (PyDict.get (embeddings_dir cfg) (files w)) as [[]|];
    try discriminate; rewrite ?Hdirs;
    destruct (can_write (vision_retrieval_file cfg)); cbn [fst trace];
    rewrite save_queries_trace, save_pages_trace; cbn [trace];
    rewrite map_app, map_map, <- !app_assoc; cbn [app];
    rewrite <- ?app_assoc, ?app_nil_r; reflexivity.
Qed.

(** A build of the visual index records itself first in the trace. *)
Lemma build_visual_index_trace (cfg : config) (w : world) :
  exists rest,
    trace (fst (build_visual_index cfg w))
    = (trace w ++ BuildVisualIndex :: rest)%list.
Proof.
  destruct (Reads.can_make_dirs cfg w) eqn:Hdirs.
  - rewrite (build_visual_index_trace_made cfg w Hdirs). eexists.
    reflexivity.
  - rewrite (build_visual_index_no_dirs cfg w Hdirs). now exists [].
Qed.

(** The build returns [True] exactly when the embeddings directory can be
    had and the table can be written, and then the table holds the fresh
    rows. *)
Lemma build_visual_index_outcome (cfg : config) (w : world) :
  let result := build_visual_index cfg w in
  snd result =
    Some (Reads.can_make_dirs cfg w
          && can_write (vision_retrieval_file cfg))
  /\ (snd result = Some true ->
      PyDict.get (vision_retrieval_file cfg) (files (fst result)) =
      Some (VisualTable
              (VisualIndex.visual_index_rows (data_dir cfg) (df cfg)))).
Proof.
  cbv zeta. rewrite build_visual_index_run. cbv zeta.
  unfold make_dirs, Reads.can_make_dirs. cbn [files].
  destruct (PyDict.get (embeddings_dir cfg) (files w)) as [[]|];
    try (split; [reflexivity | discriminate]);
    try destruct (can_write (embeddings_dir cfg));
    try (split; [reflexivity | discriminate]);
    destruct (can_write (vision_retrieval_file cfg)); cbn [fst snd files];
    (split; [reflexivity|]); try discriminate;
    intros _; apply PyDictFacts.get_set_same.
Qed.

Lemma build_visual_index_returns (cfg : config) (w : world) :
  exists b, snd (build_visual_index cfg w) = Some b.
Proof.
  destruct (build_visual_index_outcome cfg w) as [E _]. eexists. exact E.
Qed.

(** [retrieve_visual_contexts] step by step. *)
Lemma retrieve_visual_contexts_run (cfg : config) (query_id : string)
  (w : world) :
  let w1 :=
    mk_world (files w) (document_cache w)
             (trace w ++ [RetrieveVisual query_id])%list in
  retrieve_visual_contexts cfg query_id w =
  if negb (PyDict.mem (vision_retrieval_file cfg) (files w))
     || force_reindex cfg
  then
    match build_visual_index cfg w1 with
    | (w2, Some true) =>
        (w2, Some (contexts_of cfg query_id
                     (PyDict.get (vision_retrieval_file cfg) (files w2))))
    | (w2, _) => (w2, Some [])
    end
  else
    (w1, Some (contexts_of cfg query_id
                 (PyDict.get (vision_retrieval_file cfg) (files w)))).
Proof.
  intros w1. subst w1.
  assert (Hread : forall w0,
    match read_file (vision_retrieval_file cfg) w0 with
    | (w', Some content) =>
        match content with
        | VisualTable df_retrieval =>
            match rows_of query_id df_retrieval with
            | [] => ret []
            | r :: l =>
                ret (load_contexts (OsPath.join (data_dir cfg) "docs")
                                   (nlargest (top_k cfg) (r :: l)))
            end
        | _ => raise
        end w'
    | (w', None) => (w', None)
    end =
    (w0,
     match PyDict.get (vision_retrieval_file cfg) (files w0) with
     | Some (VisualTable _) =>
         Some (contexts_of cfg query_id
                 (PyDict.get (vision_retrieval_file cfg) (files w0)))
     | _ => None
     end)).
  { intros w0. unfold read_file, contexts_of, ret, raise.
    destruct (PyDict.get (vision_retrieval_file cfg) (files w0))
      as [[table|t|j| | |]|]; try reflexivity.
    destruct (rows_of query_id table) eqn:Erows;
      [now rewrite nlargest_nil | reflexivity]. }
  assert (Hanswer : forall w0,
    match
      match PyDict.get (vision_retrieval_file cfg) (files w0) with
      | Some (VisualTable _) =>
          Some (contexts_of cfg query_id
                  (PyDict.get (vision_retrieval_file cfg) (files w0)))
      | _ => None
      end
    with
    | Some x => (w0, Some x)
    | None => ret [] w0
    end =
    (w0, Some (contexts_of cfg query_id
                 (PyDict.get (vision_retrieval_file cfg) (files w0))))).
  { intros w0. unfold ret.
    now destruct (PyDict.get (vision_retrieval_file cfg) (files w0))
      as [[table|t|j| | |]|]. }
  unfold retrieve_visual_contexts, catch, bind, emit, exists_file.
  cbn [files].
  destruct (negb (PyDict.mem (vision_retrieval_file cfg) (files w))
            || force_reindex cfg) eqn:Eneed.
  - destruct (build_visual_index_returns cfg
                (mk_world (files w) (document_cache w)
                          (trace w ++ [RetrieveVisual query_id])%list))
      as [b Hb].
    destruct (build_visual_index cfg _) as [w2 o]. cbn [snd] in Hb.
    subst o. destruct b; cbn [negb]; [|reflexivity].
    rewrite Hread. apply Hanswer.
  - unfold ret at 1. cbn [negb]. rewrite Hread.
    apply (Hanswer (mk_world (files w) (document_cache w) _)).
Qed.

End VisualRetrieval.


Lemma StronglySorted_app_cross {A : Type} (R : A -> A -> Prop)
  (l1 l2 : list A) :
  StronglySorted R (l1 ++ l2) ->
  forall a b, In a l1 -> In b l2 -> R a b.
Proof.
  induction l1 as [|x l1 IH]; intros Hsorted a b Ha Hb; [destruct Ha|].
  rewrite <- app_comm_cons in Hsorted.
  apply StronglySorted_inv in Hsorted. destruct Hsorted as [Hrest Hall].
  destruct Ha as [<-|Ha].
  - rewrite Forall_forall in Hall. apply Hall, in_or_app. now right.
  - now apply IH.
Qed.

(** [nlargest] selects [n] rows, or all of them when there are fewer, best
    first, and no row left out beats a selected one. *)
Lemma nlargest_top (n : nat) (rows : list visual_read) :
  List.length (nlargest n rows) = Nat.min n (List.length rows)
  /\ (forall a, In a (nlargest n rows) -> In a rows)
  /\ StronglySorted
       (fun a b => (VisualIndex.score (v_row b)
                    <= VisualIndex.score (v_row a))%Q)
       (nlargest n rows)
  /\ (forall a b, In a (nlargest n rows) -> In b rows ->
                  ~ In b (nlargest n rows) ->
                  (VisualIndex.score (v_row b)
                   <= VisualIndex.score (v_row a))%Q).
Proof.
  set (key := fun x => VisualIndex.score (v_row x)).
  pose proof (PyListFacts.sorted_desc_sorted key rows) as Hsorted.
  split; [|split; [|split]].
  - unfold nlargest. fold key.
    now rewrite length_firstn, PyListFacts.sorted_desc_length.
  - intros a Ha. apply PyListFacts.firstn_In in Ha.
    now apply PyListFacts.sorted_desc_In in Ha.
  - now apply PyListFacts.StronglySorted_firstn.
  - intros a b Ha Hb Hout. unfold nlargest in *. fold key in Ha, Hout.
    rewrite <- (firstn_skipn n (PyList.sorted_desc key rows)) in Hsorted.
    apply (StronglySorted_app_cross _ _ _ Hsorted a b Ha).
    apply (PyListFacts.sorted_desc_In key) in Hb.
    rewrite <- (firstn_skipn n (PyList.sorted_desc key rows)) in Hb.
    apply in_app_or in Hb. destruct Hb as [Hb|Hb]; [contradiction | exact Hb].
Qed.

(** Loading one row of the table, exactly. *)
Lemma load_context_spec `{PdfBackend} (pdf_dir : string)
  (row : VisualIndex.row) (c : visual_context) :
  load_context pdf_dir row = Some c <->
  exists base page_text page pdf_images img,
    PyStr.rsplit1 "_" (VisualIndex.document_id row) = Some (base, page_text)
    /\ PyStr.py_int page_text = Some page
    /\ path_exists (OsPath.join pdf_dir (base ++ ".pdf")) = true
    /\ convert_from_path (OsPath.join pdf_dir (base ++ ".pdf"))
       = Some pdf_images
    /\ (page < Z.of_nat (List.length pdf_images))%Z
    /\ PyList.index pdf_images page = Some img
    /\ c = mk_visual_context img (VisualIndex.document_id row) page.
Proof.
  unfold load_context. split.
  - destruct (PyStr.rsplit1 "_" (VisualIndex.document_id row))
      as [[base page_text]|] eqn:Esplit; [|discriminate].
    destruct (PyStr.py_int page_text) as [page|] eqn:Epage; [|discriminate].
    destruct (path_exists _) eqn:Eexists; [|discriminate].
    destruct (convert_from_path _) as [pdf_images|] eqn:Eimages;
      [|discriminate].
    destruct (Z.of_nat (List.length pdf_images) <=? page)%Z eqn:Erange;
      [discriminate|].
    destruct (PyList.index pdf_images page) as [img|] eqn:Eimg;
      [|discriminate].
    intros [= <-]. exists base, page_text, page, pdf_images, img.
    apply Z.leb_gt in Erange.
    split; [reflexivity|]. split; [exact Epage|]. split; [exact Eexists|].
    split; [exact Eimages|]. split; [exact Erange|].
    split; [exact Eimg | reflexivity].
  - intros (base & page_text & page & pdf_images & img & -> & -> & -> & ->
            & Hrange & -> & ->).
    apply Z.leb_gt in Hrange. now rewrite Hrange.
Qed.

Section VisualRead.
Context `{VisionBackend} `{PyEval} `{Disk} `{Pandas}.

(** C9.  A visual read never raises and returns at most [top_k] contexts.
    With the table present and no rebuild forced, it answers from the table
    as it is read back; otherwise it builds first, answers from the fresh
    table when the build went through, and returns the empty list when it
    did not.  The answer from a table is obtained in three steps.  The rows
    of the query are those whose [q_id] cell came back as text equal to the
    id.  Of these, the [top_k] with the highest score are selected, or all
    of them when there are fewer, best first: no row left out has a higher
    score than a selected one.  The selected rows are then loaded in this
    order, and a row appears in the answer exactly when its loading yields
    a page: its page id came back as text and splits at its last underscore
    into a name and an integer, the PDF of that name exists and rasterises,
    and the integer lies below the page count and indexes a page.  Every
    other selected row is skipped: a missing PDF, a page index at or beyond
    the page count, and any error raised while splitting, parsing or
    rasterising.  The answer can therefore be shorter than [top_k], or
    empty. *)
Theorem retrieve_visual_contexts_at_most_top_k (cfg : config)
  (query_id : string) (w : world) :
  let result := retrieve_visual_contexts cfg query_id w in
  let pdf_dir := OsPath.join (data_dir cfg) "docs" in
  let table_file := vision_retrieval_file cfg in
  let fresh :=
    VisualTable (VisualIndex.visual_index_rows (data_dir cfg) (df cfg)) in
  (exists contexts,
      snd result = Some contexts /\ List.length contexts <= top_k cfg)
  /\ (PyDict.mem table_file (files w) = true ->
      force_reindex cfg = false ->
      snd result =
      Some (contexts_of cfg query_id (PyDict.get table_file (files w))))
  /\ (PyDict.mem table_file (files w) = false \/ force_reindex cfg = true ->
      (Reads.can_make_dirs cfg w = true -> can_write table_file = true ->
       PyDict.get table_file (files (fst result)) = Some fresh
       /\ snd result = Some (contexts_of cfg query_id (Some fresh)))
      /\ (Reads.can_make_dirs cfg w = false \/ can_write table_file = false ->
          snd result = Some []))
  /\ (forall table,
        contexts_of cfg query_id (Some (VisualTable table)) =
        load_contexts pdf_dir
          (nlargest (top_k cfg) (rows_of query_id table)))
  /\ (forall table x,
        In x (rows_of query_id table) <->
        In x (read_visual_table table)
        /\ v_q_id_text x = true
        /\ VisualIndex.q_id (v_row x) = query_id)
  /\ (forall rows,
        List.length (nlargest (top_k cfg) rows)
          = Nat.min (top_k cfg) (List.length rows)
        /\ (forall a, In a (nlargest (top_k cfg) rows) -> In a rows)
        /\ StronglySorted
             (fun a b => (VisualIndex.score (v_row b)
                          <= VisualIndex.score (v_row a))%Q)
             (nlargest (top_k cfg) rows)
        /\ (forall a b,
              In a (nlargest (top_k cfg) rows) -> In b rows ->
              ~ In b (nlargest (top_k cfg) rows) ->
              (VisualIndex.score (v_row b)
               <= VisualIndex.score (v_row a))%Q))
  /\ (forall rows,
        load_contexts pdf_dir rows =
        flat_map (fun x => match load_read pdf_dir x with
                           | Some c => [c]
                           | None => []
                           end) rows)
  /\ (forall x c,
        load_read pdf_dir x = Some c <->
        v_document_id_text x = true
        /\ exists base page_text page pdf_images img,
             PyStr.rsplit1 "_" (VisualIndex.document_id (v_row x))
               = Some (base, page_text)
             /\ PyStr.py_int page_text = Some page
             /\ path_exists (OsPath.join pdf_dir (base ++ ".pdf")) = true
             /\ convert_from_path (OsPath.join pdf_dir (base ++ ".pdf"))
                = Some pdf_images
             /\ (page < Z.of_nat (List.length pdf_images))%Z
             /\ PyList.index pdf_images page = Some img
             /\ c = mk_visual_context
                      img (VisualIndex.document_id (v_row x)) page).
Proof.
  intros result pdf_dir table_file fresh.
  assert (Hbound : forall content,
             List.length (contexts_of cfg query_id content) <= top_k cfg).
  { intros [[table|t|j| | |]|]; simpl; try lia.
    eapply Nat.le_trans; [apply load_contexts_length|].
    apply nlargest_length. }
  assert (Hrun := retrieve_visual_contexts_run cfg query_id w).
  cbv zeta in Hrun. fold result table_file in Hrun.
  set (w1 := mk_world (files w) (document_cache w)
                      (trace w ++ [RetrieveVisual query_id])%list) in *.
  assert (Hdirs : Reads.can_make_dirs cfg w1 = Reads.can_make_dirs cfg w)
    by reflexivity.
  destruct (build_visual_index_outcome cfg w1) as [Hout Hfresh].
  rewrite Hdirs in Hout. fold table_file fresh in Hout, Hfresh.
  split; [|split; [|split; [|split; [|split; [|split; [|split]]]]]].
  - rewrite Hrun.
    destruct (negb (PyDict.mem table_file (files w)) || force_reindex cfg).
    + destruct (build_visual_index cfg w1) as [w2 [[|]|]]; cbn [snd];
        eexists; (split; [reflexivity|]); try apply Hbound; simpl; lia.
    + eexists. split; [reflexivity | apply Hbound].
  - intros Hpresent Hforce. rewrite Hrun, Hpresent, Hforce. reflexivity.
  - intros Hneed.
    assert (Hcond : negb (PyDict.mem table_file (files w))
                    || force_reindex cfg = true).
    { destruct Hneed as [-> | ->]; [reflexivity | apply orb_true_r]. }
    rewrite Hrun, Hcond.
    destruct (build_visual_index cfg w1) as [w2 o]. cbn [fst snd] in *.
    split.
    + intros Hd Hw. rewrite Hd, Hw in Hout. cbn [andb] in Hout. subst o.
      cbn [fst snd]. rewrite (Hfresh eq_refl). now split.
    + intros Hno.
      assert (E : Reads.can_make_dirs cfg w && can_write table_file = false)
        by (destruct Hno as [-> | ->];
            [reflexivity | apply andb_false_r]).
      rewrite E in Hout. now subst o.
  - reflexivity.
  - intros table x. unfold rows_of. rewrite filter_In, andb_true_iff.
    rewrite String.eqb_eq. tauto.
  - intros rows. apply (nlargest_top (top_k cfg) rows).
  - intros rows. apply load_contexts_flat_map.
  - intros x c. unfold load_read.
    destruct (v_document_id_text x).
    + rewrite load_context_spec. split; [now split | now intros [_ E]].
    + split; [discriminate | now intros [E _]].
Qed.

End VisualRead.


(** Three contexts are asked for; of the three best rows only one names a
    page that can be loaded. *)
Lemma retrieve_visual_contexts_at_most_top_k_witness :
  snd (@retrieve_visual_contexts Demo.pdf Demo.vision Demo.evaluator
         Demo.disk Demo.pandas Demo.cfg3 "q1" Demo.world_with_visual_table)
  = Some [@mk_visual_context Demo.pdf "alpha beta" "paper_0" 0%Z]
  /\ (PyDict.get (vision_retrieval_file Demo.cfg)
        (files (fst (@retrieve_visual_contexts Demo.pdf Demo.vision
                       Demo.evaluator Demo.disk Demo.pandas Demo.cfg "q1"
                       Demo.empty_world)))
      = Some (VisualTable
                (@VisualIndex.visual_index_rows Demo.pdf Demo.vision
                   Demo.evaluator "data" (df Demo.cfg))))
  /\ (VisualIndex.score
        (VisualIndex.mk_row "q1" "badid" (7 # 10)%Q "alpha beta")
      <= VisualIndex.score
           (VisualIndex.mk_row "q1" "paper_7" (8 # 10)%Q "alpha beta"))%Q
  /\ @load_read Demo.pdf "data/docs"
       (mk_visual_read
          (VisualIndex.mk_row "q1" "paper_0" 1%Q "alpha beta") true true)
     = Some (@mk_visual_context Demo.pdf "alpha beta" "paper_0" 0%Z).
Proof.
  pose proof (@retrieve_visual_contexts_at_most_top_k Demo.pdf Demo.vision
                Demo.evaluator Demo.disk Demo.pandas Demo.cfg3 "q1"
                Demo.world_with_visual_table) as Hpresent.
  pose proof (@retrieve_visual_contexts_at_most_top_k Demo.pdf Demo.vision
                Demo.evaluator Demo.disk Demo.pandas Demo.cfg "q1"
                Demo.empty_world) as Habsent.
  cbv zeta in Hpresent, Habsent.
  destruct Hpresent as (_ & Hread & _ & _ & _ & Htop & _ & Hload).
  destruct Habsent as (_ & _ & Hbuild & _).
  split; [|split; [|split]].
  - rewrite (Hread eq_refl eq_refl). reflexivity.
  - apply Hbuild; [left; reflexivity | reflexivity | reflexivity].
  - destruct (Htop (@read_visual_table Demo.pandas Demo.visual_table))
      as (_ & _ & _ & Hbest).
    apply (Hbest
             (mk_visual_read
                (VisualIndex.mk_row "q1" "paper_7" (8 # 10)%Q "alpha beta")
                true true)
             (mk_visual_read
                (VisualIndex.mk_row "q1" "badid" (7 # 10)%Q "alpha beta")
                true true)).
    + vm_compute. right; right; left; reflexivity.
    + vm_compute. right; right; right; left; reflexivity.
    + vm_compute. intros [E|[E|[E|[]]]]; discriminate E.
  - apply Hload. split; [reflexivity|].
    exists "paper", "0", 0%Z, ["alpha beta"; "gamma delta"], "alpha beta".
    repeat split.
Defined.

(** The read above returns one context where three were asked for. *)
Example retrieve_visual_contexts_shorter :
  option_map (@List.length _)
    (snd (@retrieve_visual_contexts Demo.pdf Demo.vision Demo.evaluator
            Demo.disk Demo.pandas Demo.cfg3 "q1"
            Demo.world_with_visual_table))
  = Some 1.
Proof. reflexivity. Qed.


Section Orchestration.
Context {P : PdfBackend} {V : @VisionBackend P} `{PyEval} `{Similarity}
  `{TextSplitter} `{TextRanker} `{Disk} `{Pandas} {G : @Generator P}.

(** C2.  For a query of the dataset whose combined artifact exists,
    [process_query] returns [True] and leaves the world as it found it: the
    files are the same, the document cache is the same, and the trace of
    actions has not grown, so nothing was retrieved, no index was built, the
    generation backend was not called and no file was written. *)
Theorem process_query_completed_is_noop (cfg : config) (query_id : string)
  (w : world) (query_row : Dataset.row) :
  VisualIndex.find_row query_id (df cfg) = Some query_row ->
  PyDict.mem (combined_file cfg query_id) (files w) = true ->
  let result := process_query cfg query_id w in
  snd result = Some true
  /\ fst result = w
  /\ files (fst result) = files w
  /\ trace (fst result) = trace w.
Proof.
  intros Hrow Hdone result.
  assert (Hrun : process_query cfg query_id w = (w, Some true)).
  { unfold process_query, catch. rewrite Hrow.
    unfold bind at 1. unfold exists_file at 1. now rewrite Hdone. }
  subst result. rewrite Hrun. repeat split.
Qed.

(** An id that names no row of the dataset makes [process_query] return
    [False], again without touching the world. *)
Lemma process_query_unknown_id (cfg : config) (query_id : string)
  (w : world) :
  VisualIndex.find_row query_id (df cfg) = None ->
  process_query cfg query_id w = (w, Some false).
Proof.
  intros Hrow. unfold process_query, catch. now rewrite Hrow.
Qed.

(** A visual read builds the index exactly when the table is absent or a
    rebuild is forced; otherwise it leaves every file as it is. *)
Lemma retrieve_visual_contexts_build_policy (cfg : config)
  (query_id : string) (w : world) :
  let result := retrieve_visual_contexts cfg query_id w in
  (PyDict.mem (vision_retrieval_file cfg) (files w) = true ->
   force_reindex cfg = false ->
   files (fst result) = files w
   /\ trace (fst result) = (trace w ++ [RetrieveVisual query_id])%list)
  /\ (PyDict.mem (vision_retrieval_file cfg) (files w) = false
      \/ force_reindex cfg = true ->
      In BuildVisualIndex (trace (fst result))
      /\ (Reads.can_make_dirs cfg w = true ->
          can_write (vision_retrieval_file cfg) = true ->
          PyDict.get (vision_retrieval_file cfg) (files (fst result)) =
          Some (VisualTable
                  (VisualIndex.visual_index_rows (data_dir cfg) (df cfg))))).
Proof.
  intros result. subst result. rewrite retrieve_visual_contexts_run.
  cbv zeta. split.
  - intros Hpresent Hforce. rewrite Hpresent, Hforce. now split.
  - intros Hneed.
    assert (Hcond : negb (PyDict.mem (vision_retrieval_file cfg) (files w))
                    || force_reindex cfg = true).
    { destruct Hneed as [-> | ->]; [reflexivity | apply orb_true_r]. }
    rewrite Hcond.
    set (w1 := mk_world (files w) (document_cache w)
                        (trace w ++ [RetrieveVisual query_id])%list).
    destruct (build_visual_index_trace cfg w1) as [rest Htrace].
    destruct (build_visual_index_outcome cfg w1) as [Hout Hfresh].
    change (Reads.can_make_dirs cfg w1) with (Reads.can_make_dirs cfg w)
      in Hout.
    destruct (build_visual_index cfg w1) as [w2 o]. cbn [fst snd] in *.
    assert (Hw2 : In BuildVisualIndex (trace w2)).
    { rewrite Htrace. apply in_or_app. right. now left. }
    assert (Hfst : fst (let (w3, o0) := (w2, o) in
                        match o0 with
                        | Some true =>
                            (w3, Some (contexts_of cfg query_id
                                         (PyDict.get
                                            (vision_retrieval_file cfg)
                                            (files w3))))
                        | _ => (w3, Some [])
                        end) = w2).
    { now destruct o as [[|]|]. }
    cbv beta iota in Hfst. 
    destruct o as [[|]|]; cbn [fst]; (split; [exact Hw2|]);
      intros Hd Hc; rewrite Hd, Hc in Hout; try discriminate.
    now apply Hfresh.
Qed.

(** A build of the text index records itself first in the trace. *)
Lemma build_text_index_trace (cfg : config) (w : world) :
  exists rest result,
    build_text_index cfg w = result
    /\ snd result <> None
    /\ trace (fst result) = (trace w ++ BuildTextIndex :: rest)%list.
Proof.
  unfold build_text_index, bind, emit, ensure_document_cache, write_file, ret.
  destruct (document_cache w) eqn:Ecache; cbn [document_cache files trace];
    destruct (TextIndex.text_index_rows _ _ _ _);
    try destruct (can_write (text_retrieval_file cfg));
    eexists; eexists; (split; [reflexivity|]); cbn [fst snd trace];
    (split; [discriminate|]); rewrite <- ?app_assoc; cbn [app];
    try reflexivity; now rewrite app_nil_r.
Qed.

End Orchestration.


Section TextualRead.
Context `{PdfBackend} `{PyEval} `{Similarity} `{TextSplitter} `{TextRanker}
  `{Disk} `{Pandas}.

(** A textual read builds the index even when the table is present and no
    rebuild is forced: the second, unconditional call of the build. *)
Lemma retrieve_textual_contexts_always_builds (cfg : config)
  (query_id : string) (w : world) :
  PyDict.mem (text_retrieval_file cfg) (files w) = true ->
  force_reindex cfg = false ->
  In BuildTextIndex
     (trace (fst (retrieve_textual_contexts cfg query_id w))).
Proof.
  intros Hpresent Hforce.
  unfold retrieve_textual_contexts, catch, bind, emit, exists_file.
  cbn [files]. rewrite Hpresent, Hforce. cbn [negb orb].
  unfold ret at 1. cbn [negb].
  match goal with
  | |- context [build_text_index cfg ?w1] =>
      destruct (build_text_index_trace cfg w1)
        as (rest & [w2 out] & Hrun & Hout & Htrace)
  end.
  rewrite Hrun. cbn [fst snd] in *.
  assert (Hin : In BuildTextIndex (trace w2)).
  { rewrite Htrace. apply in_or_app. right. now left. }
  destruct out as [b|]; [|contradiction].
  unfold read_file.
  destruct (PyDict.get (text_retrieval_file cfg) (files w2))
    as [[table|table|j| | |]|]; try exact Hin.
  destruct (text_rows_of query_id table); exact Hin.
Qed.

End TextualRead.

(** Query [q1] is complete in the demo world: processing it again changes
    nothing. *)
Lemma process_query_completed_is_noop_witness :
  let result :=
    @process_query Demo.pdf Demo.vision Demo.evaluator Demo.similarity
      Demo.splitter Demo.ranker Demo.disk Demo.pandas Demo.generator
      Demo.cfg "q1" Demo.world_completed in
  snd result = Some true
  /\ fst result = Demo.world_completed
  /\ files (fst result) = files Demo.world_completed
  /\ trace (fst result) = trace Demo.world_completed.
Proof.
  apply (@process_query_completed_is_noop Demo.pdf Demo.vision
           Demo.evaluator Demo.similarity Demo.splitter Demo.ranker
           Demo.disk Demo.pandas Demo.generator Demo.cfg "q1"
           Demo.world_completed
           Demo.query1); reflexivity.
Defined.

(** Without the combined artifact the same call does all the work: both
    retrievals, both builds with the embeddings of the pages and of the
    queries saved, three backend calls, the tables and the three responses
    written. *)
Example process_query_fresh_run :
  trace (fst (@process_query Demo.pdf Demo.vision Demo.evaluator
                Demo.similarity Demo.splitter Demo.ranker Demo.disk
                Demo.pandas Demo.generator Demo.cfg "q1" Demo.empty_world))
  = [RetrieveVisual "q1"; BuildVisualIndex;
     MakeDirs "data/visual_embeddings";
     WriteFile "data/visual_embeddings/paper_0.pt";
     WriteFile "data/visual_embeddings/paper_1.pt";
     WriteFile "data/visual_embeddings/scan_0.pt";
     WriteFile "data/visual_embeddings/scan_1.pt";
     WriteFile "data/visual_embeddings/query_q1.pt";
     WriteFile "data/visual_embeddings/query_q2.pt";
     WriteFile "data/retrieval/retrieval_colpali.csv";
     GenerateVisual "alpha beta";
     WriteFile "out/gemini_vision/response_q1.json";
     RetrieveTextual "q1"; BuildTextIndex;
     WriteFile "data/retrieval/retrieval_bm25.csv"; BuildTextIndex;
     WriteFile "data/retrieval/retrieval_bm25.csv";
     GenerateTextual "alpha beta";
     WriteFile "out/gemini_text/response_q1.json";
     GenerateCombined "alpha beta";
     WriteFile "out/gemini_visdmrag/response_q1.json"].
Proof. reflexivity. Qed.

(** C1, at the input where the code departs from it.  The textual table is
    present and [force_reindex] is off, so the read should reuse the table
    as it is.  The read builds the index all the same, writes the table
    again, and the persisted table is no longer the one that was there. *)
Theorem retrieve_textual_contexts_rebuilds_present_table :
  let w := Demo.world_with_text_table in
  let table_file := text_retrieval_file Demo.cfg in
  let w' :=
    fst (@retrieve_textual_contexts Demo.pdf Demo.evaluator Demo.similarity
           Demo.splitter Demo.ranker Demo.disk Demo.pandas Demo.cfg "q1"
           w) in
  force_reindex Demo.cfg = false
  /\ PyDict.get table_file (files w) = Some (TextTable Demo.stale_text_table)
  /\ trace w' = [RetrieveTextual "q1"; BuildTextIndex; WriteFile table_file]
  /\ PyDict.get table_file (files w') <>
     Some (TextTable Demo.stale_text_table).
Proof.
  vm_compute. repeat split. discriminate.
Qed.

(** The visual read of the same shape reuses its table: no build, no
    write. *)
Example retrieve_visual_contexts_reuses_present_table :
  let w := Demo.world_with_visual_table in
  let w' :=
    fst (@retrieve_visual_contexts Demo.pdf Demo.vision Demo.evaluator
           Demo.disk Demo.pandas Demo.cfg3 "q1" w) in
  files w' = files w /\ trace w' = [RetrieveVisual "q1"].
Proof. vm_compute. split; reflexivity. Qed.

End OrchestratorFacts.
(* ================================================================== *)
(** * Identifiers written by the builders and read back by the readers *)
(* ================================================================== *)

Module IdentifierFacts.

Lemma index_of_nat {A : Type} (l : list A) (i : nat) :
  PyList.index l (Z.of_nat i) = nth_error l i.
Proof.
  unfold PyList.index.
  destruct (0 <=? Z.of_nat i)%Z eqn:E; [now rewrite Znat.Nat2Z.id|].
  apply Z.leb_gt in E. lia.
Qed.

Lemma rsplit1_none_cons (c a : ascii) (s : string) :
  PyStr.rsplit1 c (String a s) = None ->
  Ascii.eqb a c = false /\ PyStr.rsplit1 c s = None.
Proof.
  simpl. destruct (PyStr.rsplit1 c s) as [[h t]|]; [discriminate|].
  destruct (Ascii.eqb a c); [discriminate | now split].
Qed.

(** A string without the separator splits into itself. *)
Lemma split_char_none (c : ascii) (s : string) :
  PyStr.rsplit1 c s = None -> PyStr.split_char c s = [s].
Proof.
  induction s as [|a s IH]; intros Hnone; [reflexivity|].
  apply rsplit1_none_cons in Hnone. destruct Hnone as [Hac Hs].
  simpl. now rewrite Hac, (IH Hs).
Qed.

(** [int(id.split('_')[1])] reads back the position that [f"chunk_{i}"]
    rendered. *)
Lemma chunk_index_of_chunk_id (i : nat) :
  TextIndex.chunk_index_of_id ("chunk_" ++ PyStr.of_nat i)
  = Some (Z.of_nat i).
Proof.
  unfold TextIndex.chunk_index_of_id.
  cbn [append PyStr.split_char Ascii.eqb Bool.eqb].
  rewrite (split_char_none "_" _ (PyStrFacts.rsplit1_of_nat i)).
  cbn [nth_error]. apply PyStrNumbers.py_int_of_nat.
Qed.

(** X1.  The ids given to the vector store and the positions read back
    from its answer agree: the id made for the chunk at position [i] is
    [chunk_i], parsing it gives [i], and indexing the chunk list with the
    parsed value gives that chunk.  So an answer of the store that names
    ids it was given never makes the id parsing or the chunk lookup
    raise. *)
Theorem chunk_id_round_trip (chunks : list string) (i : nat) (ch : string) :
  nth_error chunks i = Some ch ->
  nth_error (TextIndex.chunk_ids chunks) i = Some ("chunk_" ++ PyStr.of_nat i)
  /\ TextIndex.chunk_index_of_id ("chunk_" ++ PyStr.of_nat i)
     = Some (Z.of_nat i)
  /\ PyList.index chunks (Z.of_nat i) = Some ch.
Proof.
  intros Hnth.
  assert (Hlt : i < List.length chunks)
    by (apply nth_error_Some; rewrite Hnth; discriminate).
  split; [|split].
  - unfold TextIndex.chunk_ids.
    rewrite nth_error_map, (nth_error_nth' _ 0) by (now rewrite length_seq).
    now rewrite seq_nth.
  - apply chunk_index_of_chunk_id.
  - now rewrite index_of_nat.
Qed.

Lemma chunk_id_round_trip_witness :
  nth_error (TextIndex.chunk_ids ["alpha"; "beta"; "gamma"]) 2
    = Some ("chunk_" ++ PyStr.of_nat 2)
  /\ TextIndex.chunk_index_of_id ("chunk_" ++ PyStr.of_nat 2) = Some 2%Z
  /\ PyList.index ["alpha"; "beta"; "gamma"] (Z.of_nat 2) = Some "gamma".
Proof.
  apply (chunk_id_round_trip ["alpha"; "beta"; "gamma"] 2 "gamma").
  reflexivity.
Defined.

Lemma rsplit1_app_none (c : ascii) (b : string) :
  PyStr.rsplit1 c b = None ->
  forall a, PyStr.rsplit1 c a = None -> PyStr.rsplit1 c (a ++ b) = None.
Proof.
  intros Hb. induction a as [|x a IH]; intros Ha; [exact Hb|].
  apply rsplit1_none_cons in Ha. destruct Ha as [Hx Ha].
  simpl. now rewrite (IH Ha), Hx.
Qed.

(** [os.path.splitext] takes [.pdf] off a plain file name. *)
Lemma splitext_root_pdf (stem : string) :
  PyStr.rsplit1 "/" stem = None ->
  OsPath.all_dots stem = false ->
  OsPath.splitext_root (stem ++ ".pdf") = stem.
Proof.
  intros Hslash Hdots. unfold OsPath.splitext_root.
  rewrite (rsplit1_app_none "/" ".pdf" eq_refl stem Hslash).
  change (stem ++ ".pdf") with (stem ++ String "." "pdf").
  rewrite (PyStrFacts.rsplit1_app "." "pdf" eq_refl stem).
  now rewrite Hdots.
Qed.

Lemma keys_set_new {V : Type} (k : string) (v : V) (d : PyDict.t V) :
  In k (PyDict.keys (PyDict.set k v d)).
Proof.
  unfold PyDict.keys. induction d as [|[k' v'] d IH]; simpl; [now left|].
  destruct (String.eqb_spec k k'); simpl; [now left | now right].
Qed.

Lemma keys_set_keep {V : Type} (k k' : string) (v : V) (d : PyDict.t V) :
  In k (PyDict.keys d) -> In k (PyDict.keys (PyDict.set k' v d)).
Proof.
  unfold PyDict.keys. induction d as [|[k2 v2] d IH]; simpl; [intros []|].
  destruct (String.eqb_spec k' k2) as [->|Hne]; simpl.
  - intros [<-|Hin]; [now left | now right].
  - intros [<-|Hin]; [now left | right; now apply IH].
Qed.

Section PageIds.
Context `{VisionBackend}.

Lemma embed_pages_keep (doc_id : string) (pages : list Image) :
  forall start embeddings k,
    In k (PyDict.keys embeddings) ->
    In k (PyDict.keys
            (VisualIndex.embed_pages doc_id start pages embeddings)).
Proof.
  induction pages as [|img pages IH]; intros start embs k Hk; [exact Hk|].
  cbn [VisualIndex.embed_pages]. apply IH.
  destruct (embed_image img); [now apply keys_set_keep | exact Hk].
Qed.

Lemma embed_pages_key (doc_id : string) (pages : list Image) :
  forall start embeddings i img e,
    nth_error pages i = Some img ->
    embed_image img = Some e ->
    In (VisualIndex.page_id doc_id (start + i))
       (PyDict.keys
          (VisualIndex.embed_pages doc_id start pages embeddings)).
Proof.
  induction pages as [|p pages IH]; intros start embs i img e Hnth He.
  - destruct i; discriminate.
  - cbn [VisualIndex.embed_pages]. destruct i as [|i].
    + injection Hnth as ->. rewrite He, Nat.add_0_r.
      apply embed_pages_keep, keys_set_new.
    + replace (start + S i) with (S start + i) by lia.
      eapply IH; eassumption.
Qed.

(** X2.  What the visual build writes, the visual read can load.  For a
    PDF [stem.pdf] with a plain name (no slash, not only dots) that exists
    and rasterises, the page at index [i] is embedded under the page id
    [stem_i] if its embedding succeeds; and a table row carrying that page
    id is loaded by the read as exactly that page image, with page number
    [i]: splitting the id at its last underscore gives back [stem],
    [int] gives back [i], and the PDF path is the one the build used. *)
Theorem embedded_page_is_loadable (pdf_dir stem : string)
  (pages : list Image) (i : nat) (img : Image) :
  PyStr.rsplit1 "/" stem = None ->
  OsPath.all_dots stem = false ->
  path_exists (OsPath.join pdf_dir (stem ++ ".pdf")) = true ->
  convert_from_path (OsPath.join pdf_dir (stem ++ ".pdf")) = Some pages ->
  nth_error pages i = Some img ->
  (forall embeddings e,
      embed_image img = Some e ->
      In (VisualIndex.page_id stem i)
         (PyDict.keys
            (VisualIndex.embed_pdf pdf_dir embeddings (stem ++ ".pdf"))))
  /\ (forall q score question,
         Orchestrator.load_context pdf_dir
           (VisualIndex.mk_row q (VisualIndex.page_id stem i) score question)
         = Some (Orchestrator.mk_visual_context
                   img (VisualIndex.page_id stem i) (Z.of_nat i))).
Proof.
  intros Hslash Hdots Hexists Hconv Hnth. split.
  - intros embeddings e He. unfold VisualIndex.embed_pdf.
    rewrite (splitext_root_pdf stem Hslash Hdots), Hexists, Hconv.
    apply (embed_pages_key stem pages 0 embeddings i img e Hnth He).
  - intros q score question. unfold Orchestrator.load_context.
    cbn [VisualIndex.document_id]. unfold VisualIndex.page_id at 1.
    change ("_" ++ PyStr.of_nat i) with (String "_" (PyStr.of_nat i)).
    rewrite (PyStrFacts.rsplit1_app "_" _ (PyStrFacts.rsplit1_of_nat i)).
    rewrite PyStrNumbers.py_int_of_nat, Hexists, Hconv, index_of_nat, Hnth.
    assert (Hlt : i < List.length pages)
      by (apply nth_error_Some; rewrite Hnth; discriminate).
    destruct (Z.of_nat (List.length pages) <=? Z.of_nat i)%Z eqn:E;
      [apply Z.leb_le in E; lia | reflexivity].
Qed.

End PageIds.

Lemma embedded_page_is_loadable_witness :
  In (VisualIndex.page_id "paper" 1)
     (PyDict.keys
        (@VisualIndex.embed_pdf Demo.pdf Demo.vision "data/docs" []
                                "paper.pdf"))
  /\ @Orchestrator.load_context Demo.pdf "data/docs"
       (VisualIndex.mk_row "q1" (VisualIndex.page_id "paper" 1) 1%Q "alpha")
     = Some (@Orchestrator.mk_visual_context Demo.pdf "gamma delta"
               (VisualIndex.page_id "paper" 1) 1%Z).
Proof.
  destruct (@embedded_page_is_loadable Demo.pdf Demo.vision "data/docs"
              "paper" ["alpha beta"; "gamma delta"] 1 "gamma delta")
    as [Hbuilt Hread]; try reflexivity.
  split.
  - apply (Hbuilt [] "gamma delta"). reflexivity.
  - apply Hread.
Defined.

End IdentifierFacts.
(* ================================================================== *)
(** * Document cache: which ids are cached and which are warned about *)
(* ================================================================== *)

Module DocRefsFacts.
Import DocCache DocRefs.

Lemma add_In (x y : string) (s : PySet.t) :
  In y (PySet.add x s) <-> y = x \/ In y s.
Proof.
  unfold PySet.add. destruct (PySet.mem x s) eqn:E.
  - apply PySetFacts.mem_In in E. split; [now right|].
    intros [->|H]; assumption.
  - rewrite in_app_iff. simpl. intuition.
Qed.

Lemma add_NoDup (x : string) (s : PySet.t) :
  NoDup s -> NoDup (PySet.add x s).
Proof.
  intros Hs. unfold PySet.add. destruct (PySet.mem x s) eqn:E; [exact Hs|].
  assert (Hx : ~ In x s).
  { intros Hin. apply PySetFacts.mem_In in Hin. congruence. }
  clear E. induction Hs as [|y s Hy Hs IH]; simpl.
  - constructor; [intros [] | constructor].
  - constructor.
    + rewrite in_app_iff. simpl. intros [H|[H|[]]]; [contradiction|].
      apply Hx. now left.
    + apply IH. intros H. apply Hx. now right.
Qed.

Lemma update_In (xs : list string) :
  forall (s : PySet.t) (y : string),
    In y (PySet.update xs s) <-> In y xs \/ In y s.
Proof.
  unfold PySet.update.
  induction xs as [|x xs IH]; intros s y; simpl; [intuition|].
  rewrite IH, add_In. intuition.
Qed.

Lemma update_NoDup (xs : list string) :
  forall s : PySet.t, NoDup s -> NoDup (PySet.update xs s).
Proof.
  unfold PySet.update.
  induction xs as [|x xs IH]; intros s Hs; simpl; [exact Hs|].
  apply IH. now apply add_NoDup.
Qed.

Section References.
Context `{PyEval}.

Lemma add_row_docs_In (s : PySet.t) (r : Dataset.row) (d : string) :
  In d (DocCache.add_row_docs s r) <-> In d (row_docs r) \/ In d s.
Proof.
  unfold DocCache.add_row_docs, row_docs. rewrite in_app_iff.
  destruct (Dataset.nonblank_text (Dataset.doc_path r)) as [p|];
    [rewrite add_In|];
    (destruct (Dataset.documents r) as [| |t];
     [| destruct (eval_documents_cell Dataset.NaN) as [docs|]
      | destruct (eval_documents_cell (Dataset.Text t)) as [docs|]];
     rewrite ?update_In; simpl; intuition).
Qed.

Lemma add_row_docs_NoDup (s : PySet.t) (r : Dataset.row) :
  NoDup s -> NoDup (DocCache.add_row_docs s r).
Proof.
  intros Hs. unfold DocCache.add_row_docs.
  destruct (Dataset.nonblank_text (Dataset.doc_path r));
    [apply add_NoDup|];
    destruct (Dataset.documents r);
    try destruct (eval_documents_cell _); auto using update_NoDup.
Qed.

Lemma fold_row_docs (df : Dataset.t) :
  forall (s : PySet.t) (d : string),
    In d (fold_left DocCache.add_row_docs df s) <->
    (exists r, In r df /\ In d (row_docs r)) \/ In d s.
Proof.
  induction df as [|r df IH]; intros s d; simpl.
  - split; [now right | intros [[r [[] _]]|Hd]; exact Hd].
  - rewrite IH, add_row_docs_In. split.
    + intros [[r' [Hr' Hd]] | [Hd | Hd]].
      * left. exists r'. split; [now right | exact Hd].
      * left. exists r. split; [now left | exact Hd].
      * now right.
    + intros [[r' [[<-|Hr'] Hd]] | Hd].
      * right. now left.
      * left. now exists r'.
      * right. now right.
Qed.

Lemma fold_row_docs_NoDup (df : Dataset.t) :
  forall s : PySet.t, NoDup s -> NoDup (fold_left DocCache.add_row_docs df s).
Proof.
  induction df as [|r df IH]; intros s Hs; simpl; [exact Hs|].
  apply IH. now apply add_row_docs_NoDup.
Qed.

End References.

Lemma keys_set_NoDup {V : Type} (k : string) (v : V) (d : PyDict.t V) :
  NoDup (PyDict.keys d) -> NoDup (PyDict.keys (PyDict.set k v d)).
Proof.
  unfold PyDict.keys. induction d as [|[k' v'] d IH]; simpl; intros Hd.
  - constructor; [intros [] | constructor].
  - inversion Hd as [|? ? Hk' Hrest]; subst.
    destruct (String.eqb_spec k k') as [->|Hne]; simpl.
    + now constructor.
    + constructor; [|now apply IH].
      intros Hin. apply (PyDictFacts.keys_set_in k k' v d) in Hin.
      destruct Hin as [->|Hin]; [now apply Hne | now apply Hk'].
Qed.

Lemma mem_get {V : Type} (k : string) (d : PyDict.t V) :
  PyDict.mem k d = true <-> PyDict.get k d <> None.
Proof.
  unfold PyDict.mem. destruct (PyDict.get k d); split; congruence.
Qed.

Lemma append_inj_l (p a b : string) : p ++ a = p ++ b -> a = b.
Proof.
  induction p as [|c p IH]; simpl; [auto|]. intros [= E]. now apply IH.
Qed.

Lemma map_NoDup_injective {A B : Type} (f : A -> B) (l : list A) :
  (forall a b, f a = f b -> a = b) -> NoDup l -> NoDup (map f l).
Proof.
  intros Hinj. induction 1 as [|x l Hx Hl IH]; simpl; constructor; auto.
  intros Hin. apply in_map_iff in Hin. destruct Hin as [y [E Hy]].
  apply Hinj in E. now subst.
Qed.

Section Partition.
Context `{PdfBackend}.
Variable pdf_dir : string.

Lemma fold_cache_keys_NoDup (docs : list string) :
  forall st, NoDup (PyDict.keys (cache st)) ->
             NoDup (PyDict.keys
                      (cache (fold_left (cache_one pdf_dir) docs st))).
Proof.
  induction docs as [|d docs IH]; intros st Hst; simpl; [exact Hst|].
  apply IH. unfold cache_one.
  destruct (first_existing (possible_paths pdf_dir d)); simpl;
    [now apply keys_set_NoDup | exact Hst].
Qed.

Lemma fold_cache_warnings (docs : list string) :
  forall st,
    warnings (fold_left (cache_one pdf_dir) docs st) =
    (warnings st
       ++ map no_pdf_warning
            (filter (fun d => negb (found pdf_dir d)) docs))%list.
Proof.
  induction docs as [|d docs IH]; intros st; simpl.
  - now rewrite app_nil_r.
  - rewrite IH. unfold cache_one, found.
    destruct (first_existing (possible_paths pdf_dir d)); simpl;
      [reflexivity | now rewrite <- app_assoc].
Qed.

End Partition.

Section CachePartition.
Context `{PdfBackend} `{PyEval}.

(** X3.  [cache_documents] splits the referenced document ids in two.  An
    id is referenced when some dataset row contributes it, through a
    [documents] list that evaluates or through a non-blank [doc_path]; a row
    whose [documents] cell does not evaluate contributes nothing from it and
    stops nothing.  The cache has one entry, and only one, for each
    referenced id that has an existing candidate path; the log has one
    warning, and only one, for each referenced id that has none; no id has
    both. *)
Theorem cache_documents_partition (data_dir : string) (df : Dataset.t) :
  let pdf_dir := OsPath.join data_dir "docs" in
  let st := cache_documents data_dir df in
  let referenced d := exists r, In r df /\ In d (row_docs r) in
  NoDup (PyDict.keys (cache st))
  /\ NoDup (warnings st)
  /\ (forall d, PyDict.mem d (cache st) = true <->
                referenced d /\ found pdf_dir d = true)
  /\ (forall d, In (no_pdf_warning d) (warnings st) <->
                referenced d /\ found pdf_dir d = false).
Proof.
  intros pdf_dir st referenced. subst st.
  unfold cache_documents, cache_loop. fold pdf_dir.
  assert (Hin : forall d, In d (unique_docs df) <-> referenced d).
  { intros d. unfold unique_docs. rewrite fold_row_docs. subst referenced.
    simpl. intuition. }
  assert (Huniq : NoDup (unique_docs df)).
  { unfold unique_docs. apply fold_row_docs_NoDup. constructor. }
  assert (Hinj : forall a b, no_pdf_warning a = no_pdf_warning b -> a = b).
  { intros a b. unfold no_pdf_warning. apply append_inj_l. }
  split; [|split; [|split]].
  - apply fold_cache_keys_NoDup. constructor.
  - rewrite fold_cache_warnings. cbn [warnings]. rewrite app_nil_l.
    apply map_NoDup_injective; [exact Hinj|].
    now apply NoDup_filter.
  - intros d. rewrite mem_get, DocCacheFacts.fold_cache_get, <- Hin.
    unfold found. cbn [cache PyDict.get].
    destruct (PySet.mem d (unique_docs df)) eqn:Em.
    + apply PySetFacts.mem_In in Em.
      destruct (first_existing (possible_paths pdf_dir d)).
      * split; [intros _; now split | intros _; discriminate].
      * split; [intros C; now contradiction C | intros [_ E]; discriminate E].
    + split; [intros C; now contradiction C|]. intros [Hd _].
      apply PySetFacts.mem_In in Hd. congruence.
  - intros d. rewrite fold_cache_warnings, <- Hin. cbn [warnings]. rewrite app_nil_l.
    rewrite in_map_iff. split.
    + intros [d' [E Hd']]. apply Hinj in E. subst d'.
      apply filter_In in Hd'. destruct Hd' as [Hd Hf].
      split; [exact Hd | now apply negb_true_iff].
    + intros [Hd Hf]. exists d. split; [reflexivity|].
      apply filter_In. split; [exact Hd | now apply negb_true_iff].
Qed.

End CachePartition.

Lemma cache_documents_partition_witness :
  let df :=
    [Demo.query1;
     Dataset.mk_row "q9" "where" "" (Dataset.Text "not a list")
                    (Dataset.Text "pdfs/ghost.v2.pdf")] in
  PyDict.mem "paper"
    (cache (@cache_documents Demo.pdf Demo.evaluator "data" df)) = true
  /\ In (no_pdf_warning "ghost")
        (warnings (@cache_documents Demo.pdf Demo.evaluator "data" df)).
Proof.
  intros df.
  destruct (@cache_documents_partition Demo.pdf Demo.evaluator "data" df)
    as (_ & _ & Hcached & Hwarned).
  split.
  - apply Hcached. split; [|reflexivity].
    exists Demo.query1. split; [left; reflexivity | left; reflexivity].
  - apply Hwarned. split; [|reflexivity].
    eexists. split; [right; left; reflexivity | left; reflexivity].
Defined.

End DocRefsFacts.
(* ================================================================== *)
(** * Textual index: selection and provenance *)
(* ================================================================== *)

Module TextIndexMore.
Import TextIndex.

Lemma index_In {A : Type} (l : list A) (i : Z) (x : A) :
  PyList.index l i = Some x -> In x l.
Proof.
  unfold PyList.index.
  destruct (0 <=? i)%Z; [apply nth_error_In|].
  destruct (- Z.of_nat (List.length l) <=? i)%Z; [apply nth_error_In|].
  discriminate.
Qed.

Lemma index_map {A B : Type} (f : A -> B) (l : list A) (i : Z) :
  PyList.index (map f l) i = option_map f (PyList.index l i).
Proof.
  unfold PyList.index. rewrite length_map.
  destruct (0 <=? i)%Z; [apply nth_error_map|].
  destruct (- Z.of_nat (List.length l) <=? i)%Z;
    [apply nth_error_map | reflexivity].
Qed.

Section Sorting.
Context {A : Type}.
Variable key : A -> Q.

Lemma insert_desc_NoDup (x : A) (l : list A) :
  ~ In x l -> NoDup l -> NoDup (PyList.insert_desc key x l).
Proof.
  intros Hx Hl. induction l as [|y l IH]; simpl.
  - constructor; [intros [] | constructor].
  - destruct (DocCache.Qgtb (key y) (key x)).
    + inversion Hl as [|? ? Hy Hrest]; subst. constructor.
      * intros Hin. apply PyListFacts.insert_desc_In in Hin.
        destruct Hin as [->|Hin]; [apply Hx; now left | contradiction].
      * apply IH; [intros Hin; apply Hx; now right | exact Hrest].
    + now constructor.
Qed.

Lemma sorted_desc_NoDup (l : list A) :
  NoDup l -> NoDup (PyList.sorted_desc key l).
Proof.
  induction 1 as [|x l Hx Hl IH]; simpl; [constructor|].
  apply insert_desc_NoDup; [|exact IH].
  intros Hin. now apply PyListFacts.sorted_desc_In in Hin.
Qed.

End Sorting.

Lemma firstn_NoDup {A : Type} (l : list A) :
  NoDup l -> forall n, NoDup (firstn n l).
Proof.
  induction 1 as [|x l Hx Hl IH]; intros [|n]; simpl; try constructor; auto.
  intros Hin. apply Hx. eapply PyListFacts.firstn_In; eassumption.
Qed.

Lemma StronglySorted_cross {A : Type} (R : A -> A -> Prop) (l1 l2 : list A) :
  StronglySorted R (l1 ++ l2) ->
  forall a b, In a l1 -> In b l2 -> R a b.
Proof.
  induction l1 as [|x l1 IH]; intros Hsorted a b Ha Hb; [destruct Ha|].
  rewrite <- app_comm_cons in Hsorted.
  apply StronglySorted_inv in Hsorted. destruct Hsorted as [Hrest Hall].
  destruct Ha as [<-|Ha].
  - rewrite Forall_forall in Hall. apply Hall, in_or_app. now right.
  - now apply IH.
Qed.

(** The first [n] elements of a descending list: nothing left out beats
    them. *)
Lemma firstn_sorted_top {A : Type} (R : A -> A -> Prop) (l : list A) (n : nat) :
  StronglySorted R l ->
  forall a b, In a (firstn n l) -> In b l -> ~ In b (firstn n l) -> R a b.
Proof.
  intros Hsorted a b Ha Hb Hout.
  rewrite <- (firstn_skipn n l) in Hsorted, Hb.
  apply (StronglySorted_cross _ _ _ Hsorted a b Ha).
  apply in_app_or in Hb. destruct Hb as [Hb|Hb]; [contradiction | exact Hb].
Qed.

(** X4.  The BM25 selection [top_indices].  It keeps [2 * top_k] chunk
    positions, or all of them when there are fewer; the positions are valid
    and pairwise distinct, so no chunk is ranked twice for a query; they
    come in non-increasing order of score; and no position left out has a
    larger score than a position kept. *)
Theorem top_indices_selects_best (top_k : nat) (scores : list Q) :
  let top := top_indices top_k scores in
  List.length top = Nat.min (top_k * 2) (List.length scores)
  /\ NoDup top
  /\ (forall i, In i top -> i < List.length scores)
  /\ StronglySorted (fun a b => (b <= a)%Q)
                    (map (fun i => nth i scores 0%Q) top)
  /\ (forall i j, In i top -> j < List.length scores -> ~ In j top ->
                  (nth j scores 0 <= nth i scores 0)%Q).
Proof.
  intros top. subst top. unfold top_indices.
  set (key := fun i => nth i scores 0%Q).
  set (range := seq 0 (List.length scores)).
  split; [|split; [|split; [|split]]].
  - rewrite length_firstn, PyListFacts.sorted_desc_length.
    subst range. now rewrite length_seq.
  - apply firstn_NoDup, sorted_desc_NoDup, seq_NoDup.
  - intros i Hi. apply PyListFacts.firstn_In in Hi.
    apply PyListFacts.sorted_desc_In in Hi. apply in_seq in Hi. lia.
  - apply PyListFacts.StronglySorted_map, PyListFacts.StronglySorted_firstn.
    apply (PyListFacts.sorted_desc_sorted key).
  - intros i j Hi Hj Hout.
    apply (firstn_sorted_top (fun a b => (key b <= key a)%Q)
             (PyList.sorted_desc key range) (top_k * 2)
             (PyListFacts.sorted_desc_sorted key range) i j Hi); [|exact Hout].
    apply PyListFacts.sorted_desc_In, in_seq. lia.
Qed.

Lemma top_indices_selects_best_witness :
  List.length (top_indices 1 [1%Q; 3%Q; 2%Q; 3%Q]) = 2
  /\ (nth 2 [1%Q; 3%Q; 2%Q; 3%Q] 0 <= nth 3 [1%Q; 3%Q; 2%Q; 3%Q] 0)%Q.
Proof.
  destruct (top_indices_selects_best 1 [1%Q; 3%Q; 2%Q; 3%Q])
    as (Hlen & _ & _ & _ & Htop).
  split; [exact Hlen|].
  apply Htop.
  - vm_compute. right; left; reflexivity.
  - simpl; lia.
  - vm_compute. intros [E|[E|[]]]; discriminate E.
Defined.

Section Provenance.
Variables (q qn : string).
Variable mapping : list DocCache.chunk_info.

Lemma emit_rows_In (items : list (Z * Q)) :
  forall start row,
    In row (emit_rows q qn mapping (map DocCache.chunk mapping) start items) ->
    q_id row = q /\ question row = qn
    /\ In (DocCache.mk_chunk_info (chunk row) (chunk_pdf_name row)
                                  (pdf_page_number row)) mapping
    /\ start < rank row <= start + List.length items.
Proof.
  induction items as [|[idx sc] items IH]; intros start row Hrow;
    [destruct Hrow|].
  cbn [emit_rows] in Hrow. rewrite index_map in Hrow.
  destruct (PyList.index mapping idx) as [info|] eqn:Einfo;
    [|destruct Hrow].
  cbn [option_map] in Hrow. destruct Hrow as [<-|Hrow].
  - cbn [q_id question chunk chunk_pdf_name pdf_page_number rank List.length].
    repeat split; try lia.
    apply index_In in Einfo. now destruct info.
  - destruct (IH (S start) row Hrow) as (Hq & Hqn & Hin & Hrank).
    cbn [List.length]. repeat split; auto; lia.
Qed.

End Provenance.

Section TableProvenance.
Context `{Similarity} `{TextSplitter} `{TextRanker}.

(** X5.  Provenance of the textual retrieval table.  Every row of a built
    table belongs to a query of the dataset and carries its question; its
    chunk is a chunk of some cached document, and the document name and
    page number it reports are the ones the aligner assigned to that very
    chunk when the mapping was built; its rank is at least 1, and under
    BM25 at most [2 * top_k]. *)
Theorem text_rows_provenance (retriever : text_retriever) (top_k : nat)
  (df : Dataset.t) (document_cache : PyDict.t (list string))
  (table : list row) (x : row) :
  text_index_rows retriever top_k df document_cache = Some table ->
  In x table ->
  (exists r, In r df /\ q_id x = Dataset.q_id r
             /\ question x = Dataset.question r)
  /\ (exists doc_id pages,
         In (doc_id, pages) document_cache
         /\ In (chunk x) (split_text (PyStr.join DocCache.nl pages))
         /\ chunk_pdf_name x =
            DocCache.chunk_pdf_name
              (DocCache.assign_chunk document_cache doc_id (chunk x))
         /\ pdf_page_number x =
            DocCache.pdf_page_number
              (DocCache.assign_chunk document_cache doc_id (chunk x)))
  /\ 1 <= rank x
  /\ (retriever = bm25 -> rank x <= 2 * top_k).
Proof.
  intros Hbuild Hx. unfold text_index_rows in Hbuild.
  unfold all_chunks in Hbuild.
  set (mapping := chunk_to_doc_mapping document_cache) in *.
  assert (Hrow : exists r items,
             In r df
             /\ In x (emit_rows (Dataset.q_id r) (Dataset.question r) mapping
                                (map DocCache.chunk mapping) 0 items)
             /\ (retriever = bm25 -> List.length items <= 2 * top_k)).
  { destruct retriever;
      match type of Hbuild with
      | (if ?c then _ else _) = _ => destruct c; [|discriminate]
      end;
      injection Hbuild as <-; apply in_flat_map in Hx;
      destruct Hx as [r [Hr Hx]]; exists r.
    - unfold bm25_rows in Hx.
      destruct (bm25_get_scores _ _) as [scores|]; [|destruct Hx].
      eexists. split; [exact Hr | split; [exact Hx|]].
      intros _. rewrite length_map.
      unfold top_indices. rewrite (Nat.mul_comm 2). apply firstn_le_length.
    - unfold dense_rows in Hx.
      destruct (store_query _ _ _) as [[ids ds]|]; [|destruct Hx].
      destruct (PyList.all_some _); [|destruct Hx].
      eexists. split; [exact Hr | split; [exact Hx | discriminate]].
    - unfold dense_rows in Hx.
      destruct (store_query _ _ _) as [[ids ds]|]; [|destruct Hx].
      destruct (PyList.all_some _); [|destruct Hx].
      eexists. split; [exact Hr | split; [exact Hx | discriminate]].
    - unfold dense_rows in Hx.
      destruct (store_query _ _ _) as [[ids ds]|]; [|destruct Hx].
      destruct (PyList.all_some _); [|destruct Hx].
      eexists. split; [exact Hr | split; [exact Hx | discriminate]]. }
  destruct Hrow as (r & items & Hr & Hemit & Hlen).
  apply emit_rows_In in Hemit.
  destruct Hemit as (Hq & Hqn & Hinfo & Hrank).
  split; [now exists r | split; [|split; [lia|]]].
  - subst mapping. unfold chunk_to_doc_mapping in Hinfo.
    apply in_flat_map in Hinfo. destruct Hinfo as [[doc_id pages] [Hdoc Hc]].
    unfold chunks_of_doc in Hc. apply in_map_iff in Hc.
    destruct Hc as [c [Hassign Hc]].
    assert (Ec : c = chunk x)
      by (apply (f_equal DocCache.chunk) in Hassign; exact Hassign).
    subst c. exists doc_id, pages.
    split; [exact Hdoc | split; [exact Hc|]]. now rewrite Hassign.
  - intros Hbm. specialize (Hlen Hbm). lia.
Qed.

End TableProvenance.

Lemma text_rows_provenance_witness :
  let document_cache :=
    DocCache.cache
      (@DocCache.cache_documents Demo.pdf Demo.evaluator "data"
                                 [Demo.query1; Demo.query2]) in
  exists r, In r [Demo.query1; Demo.query2]
            /\ "q2" = Dataset.q_id r /\ "title" = Dataset.question r.
Proof.
  intros document_cache.
  pose (x := mk_row "q2" "title" "title" "scan" 0 1 1%Q).
  destruct (@text_rows_provenance Demo.similarity Demo.splitter Demo.ranker
              bm25 1 [Demo.query1; Demo.query2] document_cache
              (match @text_index_rows Demo.similarity Demo.splitter
                       Demo.ranker bm25 1 [Demo.query1; Demo.query2]
                       document_cache with
               | Some t => t
               | None => []
               end) x) as (Hquery & _).
  - reflexivity.
  - vm_compute. right; right; left; reflexivity.
  - exact Hquery.
Defined.

End TextIndexMore.
(* ================================================================== *)
(** * Visual index: the rows of one query *)
(* ================================================================== *)

Module VisualIndexMore.
Import VisualIndex.

Lemma map_fst_combine {A B : Type} (l : list A) :
  forall l' : list B, map fst (combine l l') = firstn (List.length l') l.
Proof.
  induction l as [|x l IH]; intros [|y l']; simpl; try reflexivity.
  now rewrite IH.
Qed.

Lemma filter_keys_NoDup {E : Type} (p : string * E -> bool)
  (d : PyDict.t E) :
  NoDup (PyDict.keys d) -> NoDup (PyDict.keys (filter p d)).
Proof.
  unfold PyDict.keys. induction d as [|kv d IH]; simpl; intros Hd;
    [constructor|].
  inversion Hd as [|? ? Hk Hrest]; subst.
  destruct (p kv); simpl; [|now apply IH].
  constructor; [|now apply IH].
  intros Hin. apply Hk. apply in_map_iff in Hin.
  destruct Hin as [kv' [Ekv Hin]]. apply filter_In in Hin.
  rewrite <- Ekv. apply in_map. tauto.
Qed.

(** Looking up distinct positions of a list without repetitions gives
    distinct elements. *)
Lemma all_some_nth_NoDup {A : Type} (keys : list A) (positions : list nat) :
  NoDup keys -> NoDup positions ->
  forall found,
    PyList.all_some (map (nth_error keys) positions) = Some found ->
    NoDup found.
Proof.
  intros Hkeys. induction 1 as [|i positions Hi Hpos IH]; simpl;
    intros found Hall.
  - injection Hall as <-. constructor.
  - destruct (nth_error keys i) as [k|] eqn:Ek; [|discriminate].
    destruct (PyList.all_some _) as [rest|] eqn:Erest; [|discriminate].
    injection Hall as <-. constructor; [|now apply IH].
    intros Hin.
    destruct (PyListFacts.all_some_In _ _ _ _ Erest Hin) as [j [Hj Ej]].
    apply Hi. replace i with j; [exact Hj|].
    rewrite NoDup_nth_error in Hkeys. symmetry. apply Hkeys.
    + apply nth_error_Some. rewrite Ek. discriminate.
    + now rewrite Ek, Ej.
Qed.

(** The rows of one key of a dictionary whose entries each produce rows
    carrying their key. *)
Lemma rows_of_dict {E : Type} (f : string -> E -> list row)
  (d : PyDict.t E) (q : string) :
  (forall k e x, In x (f k e) -> q_id x = k) ->
  NoDup (PyDict.keys d) ->
  VisualIndex.rows_of q (flat_map (fun kv => f (fst kv) (snd kv)) d) =
  match PyDict.get q d with
  | Some e => f q e
  | None => []
  end.
Proof.
  intros Hf. unfold VisualIndex.rows_of, PyDict.keys.
  induction d as [|[k e] d IH]; intros Hd; [reflexivity|].
  cbn [flat_map map fst snd PyDict.get] in *. rewrite filter_app.
  inversion Hd as [|? ? Hk Hrest]; subst.
  destruct (String.eqb_spec q k) as [->|Hne].
  - rewrite PyListFacts.filter_all, PyListFacts.filter_none;
      [apply app_nil_r | |].
    + intros x Hx. apply in_flat_map in Hx. destruct Hx as [[k' e'] [Hin Hx]].
      rewrite (Hf _ _ _ Hx). apply String.eqb_neq. intros Ek.
      apply Hk. cbn [fst] in Ek. rewrite <- Ek.
      now apply (in_map fst) in Hin.
    + intros x Hx. rewrite (Hf _ _ _ Hx). apply String.eqb_refl.
  - rewrite PyListFacts.filter_none, IH; auto.
    intros x Hx. rewrite (Hf _ _ _ Hx). apply String.eqb_neq. congruence.
Qed.

Section OneQuery.
Context `{VisionBackend} `{PyEval}.

Lemma page_embeddings_NoDup (pdf_dir : string) (files : list string) :
  NoDup (PyDict.keys (page_embeddings pdf_dir files)).
Proof.
  unfold page_embeddings.
  assert (Hpages : forall doc pages start embs,
             NoDup (PyDict.keys embs) ->
             NoDup (PyDict.keys (embed_pages doc start pages embs))).
  { intros doc pages. induction pages as [|img pages IH];
      intros start embs Hembs; [exact Hembs|].
    cbn [embed_pages]. apply IH.
    destruct (embed_image img);
      [now apply DocRefsFacts.keys_set_NoDup | exact Hembs]. }
  assert (Hfold : forall fs embs,
             NoDup (PyDict.keys embs) ->
             NoDup (PyDict.keys (fold_left (embed_pdf pdf_dir) fs embs))).
  { induction fs as [|f fs IH]; intros embs Hembs; [exact Hembs|].
    cbn [fold_left]. apply IH. unfold embed_pdf.
    destruct (path_exists _); [|exact Hembs].
    destruct (convert_from_path _); [now apply Hpages | exact Hembs]. }
  apply Hfold. constructor.
Qed.

Lemma query_embeddings_NoDup (df : Dataset.t) :
  NoDup (PyDict.keys (query_embeddings df)).
Proof.
  unfold query_embeddings.
  assert (Hfold : forall rows acc,
             NoDup (PyDict.keys acc) ->
             NoDup (PyDict.keys
                      (fold_left
                         (fun acc r =>
                            match embed_query (Dataset.question r) with
                            | Some embedding =>
                                PyDict.set (Dataset.q_id r) embedding acc
                            | None => acc
                            end) rows acc))).
  { induction rows as [|r rows IH]; intros acc Hacc; [exact Hacc|].
    cbn [fold_left]. apply IH.
    destruct (embed_query _);
      [now apply DocRefsFacts.keys_set_NoDup | exact Hacc]. }
  apply Hfold. constructor.
Qed.

(** The rows of one ranking: best score first, no page twice. *)
Lemma rank_query_shape (df : Dataset.t) (files : list string)
  (embeddings : PyDict.t Emb) (q : string) (query_emb : Emb) :
  NoDup (PyDict.keys embeddings) ->
  let rows := rank_query df files embeddings q query_emb in
  StronglySorted (fun a b => (b <= a)%Q) (map score rows)
  /\ NoDup (map document_id rows)
  /\ (forall x, In x rows -> q_id x = q).
Proof.
  intros Hkeys rows. subst rows. unfold rank_query.
  assert (Hnil : StronglySorted (fun a b => (b <= a)%Q) (map score [])
                 /\ NoDup (map document_id [])
                 /\ (forall x : row, In x [] -> q_id x = q)).
  { split; [constructor | split; [constructor | intros x []]]. }
  destruct (find_row q df) as [document_info|]; [|exact Hnil].
  set (candidates :=
         relevant_page_embeddings (relevant_docs files document_info)
                                  embeddings).
  destruct (_ <? 2); [exact Hnil|].
  destruct (score_multi_vector _ _) as [scores|]; [|exact Hnil].
  set (key := fun i => nth i scores 0%Q).
  set (top := PyList.sorted_desc key (seq 0 (List.length scores))).
  destruct (PyList.all_some _) as [ranked_docs|] eqn:Eranked; [|exact Hnil].
  split; [|split].
  - rewrite map_map.
    replace (map (fun x => score (let '(doc, i) := x in
                                  mk_row q doc (nth i scores 0%Q)
                                         (Dataset.question document_info)))
                 (combine ranked_docs top))
      with (map key (map snd (combine ranked_docs top))).
    + rewrite PyListFacts.map_snd_combine.
      apply PyListFacts.StronglySorted_map, PyListFacts.StronglySorted_firstn.
      apply (PyListFacts.sorted_desc_sorted key).
    + rewrite map_map. apply map_ext. now intros [doc i].
  - rewrite map_map.
    replace (map (fun x => document_id (let '(doc, i) := x in
                                        mk_row q doc (nth i scores 0%Q)
                                               (Dataset.question document_info)))
                 (combine ranked_docs top))
      with (map fst (combine ranked_docs top))
      by (apply map_ext; now intros [doc i]).
    rewrite map_fst_combine. apply TextIndexMore.firstn_NoDup.
    apply (all_some_nth_NoDup (PyDict.keys candidates) top).
    + subst candidates. unfold relevant_page_embeddings.
      now apply filter_keys_NoDup.
    + subst top. apply TextIndexMore.sorted_desc_NoDup, seq_NoDup.
    + exact Eranked.
  - intros x Hx. apply in_map_iff in Hx.
    destruct Hx as [[doc i] [<- _]]. reflexivity.
Qed.

(** X6.  The rows of one query in the visual retrieval table.  They come
    from a single ranking, that of the first dataset row with the query's
    id, whatever the number of rows sharing the id: their scores are in
    non-increasing order, and no page id occurs twice.  A query with fewer
    than two candidate pages gets no row at all, because the two diagnostic
    prints before the scoring index the second candidate. *)
Theorem visual_rows_of_query (data_dir : string) (df : Dataset.t)
  (q : string) :
  let files := pdf_files df in
  let embeddings := page_embeddings (OsPath.join data_dir "docs") files in
  let rows := VisualIndex.rows_of q (visual_index_rows data_dir df) in
  StronglySorted (fun a b => (b <= a)%Q) (map score rows)
  /\ NoDup (map document_id rows)
  /\ (forall document_info,
         find_row q df = Some document_info ->
         (forall x, In x rows ->
                    question x = Dataset.question document_info)
         /\ (List.length
               (relevant_page_embeddings
                  (relevant_docs files document_info) embeddings) < 2 ->
             rows = [])).
Proof.
  intros files embeddings rows. subst rows. unfold visual_index_rows.
  fold files. fold embeddings.
  assert (Hrows :
            VisualIndex.rows_of q
              (flat_map (fun '(q0, query_emb) =>
                           rank_query df files embeddings q0 query_emb)
                        (query_embeddings df))
            = match PyDict.get q (query_embeddings df) with
              | Some e => rank_query df files embeddings q e
              | None => []
              end).
  { rewrite <- (rows_of_dict (rank_query df files embeddings)
                  (query_embeddings df) q).
    - f_equal. apply flat_map_ext. now intros [k e].
    - intros k e x Hx.
      apply (rank_query_shape df files embeddings k e
               (page_embeddings_NoDup _ _)). exact Hx.
    - apply query_embeddings_NoDup. }
  rewrite Hrows.
  destruct (PyDict.get q (query_embeddings df)) as [e|].
  - destruct (rank_query_shape df files embeddings q e
                (page_embeddings_NoDup _ _)) as (Hsorted & Hnodup & _).
    split; [exact Hsorted | split; [exact Hnodup|]].
    intros document_info Hfind. unfold rank_query. rewrite Hfind. split.
    + intros x Hx.
      destruct (_ <? 2); [destruct Hx|].
      destruct (score_multi_vector _ _); [|destruct Hx].
      destruct (PyList.all_some _); [|destruct Hx].
      apply in_map_iff in Hx. destruct Hx as [[doc i] [<- _]]. reflexivity.
    + intros Hfew. apply Nat.ltb_lt in Hfew. now rewrite Hfew.
  - split; [constructor | split; [constructor|]].
    intros document_info _. split; [intros x [] | reflexivity].
Qed.

End OneQuery.

(** The only page of the only document is never ranked. *)
Lemma visual_rows_of_query_witness :
  VisualIndex.rows_of "q1"
    (@visual_index_rows DemoSolo.pdf DemoSolo.vision Demo.evaluator "data"
                        [DemoSolo.query]) = []
  /\ (forall x,
         In x (VisualIndex.rows_of "q1"
                 (@visual_index_rows Demo.pdf Demo.vision Demo.evaluator
                                     "data" [Demo.query1; Demo.query2])) ->
         question x = "alpha beta").
Proof.
  split.
  - apply (proj2 (proj2 (proj2 (@visual_rows_of_query DemoSolo.pdf
                                  DemoSolo.vision Demo.evaluator "data"
                                  [DemoSolo.query] "q1"))
                   DemoSolo.query eq_refl)).
    vm_compute. lia.
  - apply (proj1 (proj2 (proj2 (@visual_rows_of_query Demo.pdf Demo.vision
                                  Demo.evaluator "data"
                                  [Demo.query1; Demo.query2] "q1"))
                   Demo.query1 eq_refl)).
Defined.

End VisualIndexMore.
(* ================================================================== *)
(** * Frames: what an action may write *)
(* ================================================================== *)

Module FrameFacts.
Import Orchestrator Footprint.

Lemma mem_set {V : Type} (k k' : string) (v : V) (d : PyDict.t V) :
  PyDict.mem k d = true -> PyDict.mem k (PyDict.set k' v d) = true.
Proof.
  unfold PyDict.mem. intros Hm.
  destruct (String.eqb_spec k k') as [->|Hne].
  - now rewrite PyDictFacts.get_set_same.
  - now rewrite PyDictFacts.get_set_other.
Qed.

Lemma mem_set_same {V : Type} (k : string) (v : V) (d : PyDict.t V) :
  PyDict.mem k (PyDict.set k v d) = true.
Proof. unfold PyDict.mem. now rewrite PyDictFacts.get_set_same. Qed.

Lemma within_refl (paths : list string) (w : world) : within paths w w.
Proof.
  repeat split; auto. exists []. now rewrite app_nil_r.
Qed.

Lemma within_trans (paths : list string) (w1 w2 w3 : world) :
  within paths w1 w2 -> within paths w2 w3 -> within paths w1 w3.
Proof.
  intros (Hg1 & Hm1 & Hc1 & more1 & Ht1) (Hg2 & Hm2 & Hc2 & more2 & Ht2).
  split; [|split; [|split]].
  - intros p Hp. now rewrite Hg2, Hg1.
  - intros p Hp. auto.
  - intros Hfull. rewrite Hc2; [now apply Hc1|].
    now rewrite (Hc1 Hfull).
  - exists (more1 ++ more2)%list. now rewrite Ht2, Ht1, app_assoc.
Qed.

Lemma within_weaken (paths paths' : list string) (w w' : world) :
  incl paths paths' -> within paths w w' -> within paths' w w'.
Proof.
  intros Hincl (Hg & Hm & Hc & Ht).
  split; [|split; [|split]]; [|exact Hm|exact Hc|exact Ht].
  intros p Hp. apply Hg. intros Hin. apply Hp. now apply Hincl.
Qed.

Lemma touches_weaken {A : Type} (paths paths' : list string) (m : M A) :
  incl paths paths' -> touches paths m -> touches paths' m.
Proof.
  intros Hincl Hm w. eapply within_weaken; [exact Hincl | apply Hm].
Qed.

Lemma touches_ret {A : Type} (paths : list string) (x : A) :
  touches paths (ret x).
Proof. intros w. apply within_refl. Qed.

Lemma touches_raise {A : Type} (paths : list string) :
  touches paths (@raise A).
Proof. intros w. apply within_refl. Qed.

Lemma touches_exists_file (paths : list string) (path : string) :
  touches paths (exists_file path).
Proof. intros w. apply within_refl. Qed.

Lemma touches_read_file (paths : list string) (path : string) :
  touches paths (read_file path).
Proof.
  intros w. unfold read_file. destruct (PyDict.get path (files w));
    apply within_refl.
Qed.

Lemma touches_emit (paths : list string) (e : event) :
  touches paths (emit e).
Proof.
  intros w. unfold emit. cbn [fst]. repeat split; auto. now exists [e].
Qed.

Lemma touches_write_file (paths : list string) (path : string)
  (content : file) :
  In path paths -> touches paths (write_file path content).
Proof.
  intros Hin w. unfold write_file. cbn [fst].
  split; [|split; [|split]]; cbn [files document_cache trace].
  - intros p Hp. apply PyDictFacts.get_set_other. intros ->. now apply Hp.
  - intros p Hp. now apply mem_set.
  - reflexivity.
  - now exists [WriteFile path].
Qed.

Lemma touches_bind {A B : Type} (paths : list string) (m : M A)
  (f : A -> M B) :
  touches paths m -> (forall x, touches paths (f x)) ->
  touches paths (bind m f).
Proof.
  intros Hm Hf w. unfold bind. specialize (Hm w).
  destruct (m w) as [w' [x|]]; cbn [fst] in *; [|exact Hm].
  eapply within_trans; [exact Hm | apply Hf].
Qed.

Lemma touches_catch {A : Type} (paths : list string) (m h : M A) :
  touches paths m -> touches paths h -> touches paths (catch m h).
Proof.
  intros Hm Hh w. unfold catch. specialize (Hm w).
  destruct (m w) as [w' [x|]]; cbn [fst] in *; [exact Hm|].
  eapply within_trans; [exact Hm | apply Hh].
Qed.

(** Composition of the pipeline's actions, piece by piece. *)
Ltac footprint :=
  repeat match goal with
         | |- touches _ (ret _) => apply touches_ret
         | |- touches _ raise => apply touches_raise
         | |- touches _ (emit _) => apply touches_emit
         | |- touches _ (exists_file _) => apply touches_exists_file
         | |- touches _ (read_file _) => apply touches_read_file
         | |- touches _ (write_file _ _) =>
             apply touches_write_file; cbn; tauto
         | |- touches _ (bind _ _) => apply touches_bind; [|intros ?]
         | |- touches _ (catch _ _) => apply touches_catch
         | |- touches _ (if ?c then _ else _) => destruct c
         | |- touches _ (match ?c with _ => _ end) => destruct c
         end.

(** A write of JSON touches its file at most: written in full, left
    damaged, or not opened at all. *)
Lemma touches_write_json `{Disk} (paths : list string) (path : string)
  (value : json) :
  In path paths -> touches paths (write_json path value).
Proof.
  intros Hin. unfold write_json. destruct (can_write path).
  - destruct (serialisable value).
    + now apply touches_write_file.
    + apply touches_bind; [now apply touches_write_file|].
      intros ?. apply touches_raise.
  - apply touches_raise.
Qed.

Lemma touches_load_json (paths : list string) (path : string) :
  touches paths (load_json path).
Proof. unfold load_json. footprint. Qed.

Lemma touches_make_dirs `{Disk} (paths : list string) (path : string) :
  In path paths -> touches paths (make_dirs path).
Proof.
  intros Hin w. unfold make_dirs.
  destruct (PyDict.get path (files w)) as [[]|];
    try apply within_refl.
  destruct (can_write path); [|apply within_refl].
  cbn [fst]. split; [|split; [|split]]; cbn [files document_cache trace].
  - intros p Hp. apply PyDictFacts.get_set_other. intros ->. now apply Hp.
  - intros p Hp. now apply mem_set.
  - reflexivity.
  - now exists [MakeDirs path].
Qed.

Lemma touches_save_pages (paths : list string) (cfg : config)
  (page_ids : list string) :
  (forall page, In page page_ids -> In (page_tensor_file cfg page) paths) ->
  touches paths (save_pages cfg page_ids).
Proof.
  induction page_ids as [|page page_ids IH]; intros Hin.
  - apply touches_ret.
  - cbn [save_pages]. apply touches_bind.
    + apply touches_write_file. apply Hin. now left.
    + intros _. apply IH. intros p Hp. apply Hin. now right.
Qed.

Lemma touches_save_queries `{VisionBackend} `{Disk} (paths : list string)
  (cfg : config) (rows : Dataset.t) :
  (forall r, In r rows ->
             In (query_tensor_file cfg (Dataset.q_id r)) paths) ->
  touches paths (save_queries cfg rows).
Proof.
  induction rows as [|r rows IH]; intros Hin.
  - apply touches_ret.
  - assert (Hrest : touches paths (save_queries cfg rows))
      by (apply IH; intros r' Hr'; apply Hin; now right).
    cbn [save_queries]. destruct (embed_query _); [|exact Hrest].
    destruct (can_write _); [|exact Hrest].
    apply touches_bind; [|intros _; exact Hrest].
    apply touches_write_file. apply Hin. now left.
Qed.

(** The build of the visual index writes the table, the embeddings
    directory and the embedding files, and nothing else. *)
Lemma touches_build_visual_index `{VisionBackend} `{PyEval} `{Disk}
  (cfg : config) :
  touches (visual_paths cfg) (build_visual_index cfg).
Proof.
  unfold build_visual_index.
  apply touches_bind; [apply touches_emit | intros _].
  apply touches_catch; [|apply touches_ret].
  apply touches_bind; [|intros _].
  { apply touches_make_dirs. right. left. reflexivity. }
  apply touches_bind; [|intros _].
  { apply touches_save_pages. intros page Hpage.
    right. right. apply in_or_app. left. now apply in_map. }
  apply touches_bind; [|intros _].
  { apply touches_save_queries. intros r Hr.
    right. right. apply in_or_app. right.
    apply in_map_iff. now exists r. }
  cbv zeta. destruct (can_write (vision_retrieval_file cfg));
    [|apply touches_raise].
  apply touches_bind; [|intros _; apply touches_ret].
  apply touches_write_file. left. reflexivity.
Qed.

Lemma touches_retrieve_visual_contexts `{VisionBackend} `{PyEval} `{Disk}
  `{Pandas} (cfg : config) (query_id : string) :
  touches (visual_paths cfg) (retrieve_visual_contexts cfg query_id).
Proof.
  unfold retrieve_visual_contexts.
  apply touches_bind; [apply touches_emit | intros _].
  apply touches_catch; [|apply touches_ret].
  apply touches_bind; [apply touches_exists_file | intros present].
  apply touches_bind.
  { destruct (negb present || force_reindex cfg);
      [apply touches_build_visual_index | apply touches_ret]. }
  intros built. destruct (negb built); [apply touches_ret|].
  apply touches_bind; [apply touches_read_file | intros content].
  destruct content; try apply touches_raise.
  destruct (rows_of query_id rows); apply touches_ret.
Qed.

End FrameFacts.

(* ================================================================== *)
(** * Retrieval store: what the two reads do to the world *)
(* ================================================================== *)

Module ReadsFacts.
Import Orchestrator Reads.

Section Visual.
Context `{VisionBackend} `{PyEval} `{Disk} `{Pandas}.

(** X7.  The visual read and the files it may write.  The read changes no
    file other than the visual retrieval table, the embeddings directory
    and the embedding files of the pages and of the questions; it removes
    no file and never touches the document cache.  With the table present
    and no forced rebuild it changes no file at all, builds nothing, and
    answers from the table as it is read back.  With the table absent, or
    with a forced rebuild, it builds once.  If the embeddings directory is
    in the way or cannot be made, the build stops there: no file changes
    and the answer is the empty list.  Otherwise the build makes the
    directory if it was not there, saves the embedding files, and then, if
    the table can be written, replaces it by the freshly built rows, from
    which the answer is read back; if the table cannot be written the
    answer is the empty list, the embedding files having been saved all
    the same. *)
Theorem visual_read_policy (cfg : config) (query_id : string) (w : world) :
  let result := retrieve_visual_contexts cfg query_id w in
  let table_file := vision_retrieval_file cfg in
  let fresh :=
    VisualTable (VisualIndex.visual_index_rows (data_dir cfg) (df cfg)) in
  (forall p, ~ In p (Footprint.visual_paths cfg) ->
             PyDict.get p (files (fst result)) = PyDict.get p (files w))
  /\ (forall p, PyDict.mem p (files w) = true ->
                PyDict.mem p (files (fst result)) = true)
  /\ document_cache (fst result) = document_cache w
  /\ (PyDict.mem table_file (files w) = true ->
      force_reindex cfg = false ->
      files (fst result) = files w
      /\ trace (fst result) = (trace w ++ [RetrieveVisual query_id])%list
      /\ snd result =
         Some (contexts_of cfg query_id (PyDict.get table_file (files w))))
  /\ (PyDict.mem table_file (files w) = false \/ force_reindex cfg = true ->
      (can_make_dirs cfg w = false ->
       files (fst result) = files w
       /\ trace (fst result) =
          (trace w ++ [RetrieveVisual query_id; BuildVisualIndex])%list
       /\ snd result = Some [])
      /\ (can_make_dirs cfg w = true ->
          trace (fst result) =
          (trace w
           ++ RetrieveVisual query_id
              :: BuildVisualIndex
              :: make_dirs_events cfg w
              ++ map WriteFile (embedding_writes cfg)
              ++ (if can_write table_file
                  then [WriteFile table_file] else []))%list
          /\ (can_write table_file = true ->
              PyDict.get table_file (files (fst result)) = Some fresh
              /\ snd result = Some (contexts_of cfg query_id (Some fresh)))
          /\ (can_write table_file = false -> snd result = Some []))).
Proof.
  intros result table_file fresh.
  destruct (FrameFacts.touches_retrieve_visual_contexts cfg query_id w)
    as (Hframe & Hkept & _ & _).
  fold result in Hframe, Hkept.
  split; [exact Hframe|]. split; [exact Hkept|].
  subst result. rewrite OrchestratorFacts.retrieve_visual_contexts_run.
  cbv zeta. fold table_file.
  set (w1 := mk_world (files w) (document_cache w)
                      (trace w ++ [RetrieveVisual query_id])%list).
  pose proof (OrchestratorFacts.build_visual_index_cache cfg w1) as Hcache.
  destruct (OrchestratorFacts.build_visual_index_outcome cfg w1)
    as [Hout Hfresh].
  pose proof (OrchestratorFacts.build_visual_index_no_dirs cfg w1) as Hstop.
  pose proof (OrchestratorFacts.build_visual_index_trace_made cfg w1)
    as Htrace.
  change (can_make_dirs cfg w1) with (can_make_dirs cfg w)
    in Hout, Hstop, Htrace.
  change (make_dirs_events cfg w1) with (make_dirs_events cfg w) in Htrace.
  fold table_file fresh in Hout, Hfresh, Htrace.
  assert (Hfst : forall w2 o,
    fst (match o with
         | Some true =>
             (w2, Some (contexts_of cfg query_id
                          (PyDict.get table_file (files w2))))
         | _ => (w2, Some [])
         end) = w2).
  { intros w2 [[|]|]; reflexivity. }
  split; [|split].
  - destruct (negb (PyDict.mem table_file (files w)) || force_reindex cfg);
      [|reflexivity].
    destruct (build_visual_index cfg w1) as [w2 o]. rewrite Hfst.
    exact Hcache.
  - intros Hpresent Hforce. rewrite Hpresent, Hforce. now repeat split.
  - intros Hneed.
    assert (Hcond : negb (PyDict.mem table_file (files w))
                    || force_reindex cfg = true).
    { destruct Hneed as [-> | ->]; [reflexivity | apply orb_true_r]. }
    rewrite Hcond. split.
    + intros Hno. rewrite (Hstop Hno). subst w1.
      cbn [fst snd files trace]. rewrite <- app_assoc. now repeat split.
    + intros Hdirs. specialize (Htrace Hdirs). rewrite Hdirs in Hout.
      cbn [andb] in Hout.
      destruct (build_visual_index cfg w1) as [w2 o]. cbn [fst snd] in *.
      rewrite Hfst. split; [|split].
      * rewrite Htrace. subst w1. cbn [trace]. rewrite <- app_assoc.
        reflexivity.
      * intros Hw. rewrite Hw in Hout. subst o. cbn [fst snd].
        rewrite (Hfresh eq_refl). now split.
      * intros Hw. rewrite Hw in Hout. now subst o.
Qed.

(** The answer of a visual read: empty, or loaded from the table the read
    leaves behind, as it is read back. *)
Lemma visual_read_shape (cfg : config) (query_id : string) (w : world) :
  exists contexts,
    snd (retrieve_visual_contexts cfg query_id w) = Some contexts
    /\ (contexts = []
        \/ exists table,
            PyDict.get (vision_retrieval_file cfg)
                       (files (fst (retrieve_visual_contexts cfg query_id w)))
              = Some (VisualTable table)
            /\ contexts =
               load_contexts (OsPath.join (data_dir cfg) "docs")
                 (nlargest (top_k cfg) (rows_of query_id table))).
Proof.
  rewrite OrchestratorFacts.retrieve_visual_contexts_run.
  assert (Hshape : forall content,
             contexts_of cfg query_id content = []
             \/ exists table,
                 content = Some (VisualTable table)
                 /\ contexts_of cfg query_id content =
                    load_contexts (OsPath.join (data_dir cfg) "docs")
                      (nlargest (top_k cfg) (rows_of query_id table))).
  { intros [[table| | | | |]|]; try (now left). right. now exists table. }
  destruct (negb (PyDict.mem (vision_retrieval_file cfg) (files w))
            || force_reindex cfg).
  - destruct (build_visual_index cfg _) as [w2 [[|]|]]; cbn [fst snd];
      eexists; (split; [reflexivity|]); try (now left).
    destruct (Hshape (PyDict.get (vision_retrieval_file cfg) (files w2)))
      as [E | (table & E1 & E2)]; [now left|].
    right. exists table. now split.
  - cbn [fst snd files]. eexists. split; [reflexivity|].
    destruct (Hshape (PyDict.get (vision_retrieval_file cfg) (files w)))
      as [E | (table & E1 & E2)]; [now left|].
    right. exists table. now split.
Qed.

(** The rows read back are rows of the table. *)
Lemma read_visual_table_In (table : list VisualIndex.row) (x : visual_read) :
  In x (read_visual_table table) -> In (v_row x) table.
Proof.
  intros Hx. rewrite <- (OrchestratorFacts.read_visual_table_row table).
  now apply in_map.
Qed.

(** X8.  What a returned visual context is.  Every context the read
    returns is backed by a row of the requested query in the table the read
    used: it carries that row's page id; the page id splits at its last
    underscore into a document name and a page index; the PDF of that name
    exists and rasterises; and the image returned is the page of that PDF
    at that index, which lies below the page count.  The read never returns
    a page of another query's row or an image other than the one the row
    names. *)
Theorem visual_contexts_sound (cfg : config) (query_id : string) (w : world)
  (contexts : list visual_context) (c : visual_context) :
  snd (retrieve_visual_contexts cfg query_id w) = Some contexts ->
  In c contexts ->
  exists table row base page_text pages,
    PyDict.get (vision_retrieval_file cfg)
               (files (fst (retrieve_visual_contexts cfg query_id w)))
      = Some (VisualTable table)
    /\ In row table
    /\ VisualIndex.q_id row = query_id
    /\ document_id c = VisualIndex.document_id row
    /\ PyStr.rsplit1 "_" (VisualIndex.document_id row)
       = Some (base, page_text)
    /\ PyStr.py_int page_text = Some (page_number c)
    /\ path_exists (OsPath.join (OsPath.join (data_dir cfg) "docs")
                                (base ++ ".pdf")) = true
    /\ convert_from_path (OsPath.join (OsPath.join (data_dir cfg) "docs")
                                      (base ++ ".pdf")) = Some pages
    /\ PyList.index pages (page_number c) = Some (image c)
    /\ (page_number c < Z.of_nat (List.length pages))%Z.
Proof.
  intros Hres Hc.
  destruct (visual_read_shape cfg query_id w)
    as (contexts' & Hres' & [-> | (table & Ht & ->)]);
    rewrite Hres in Hres'; injection Hres' as ->; [destruct Hc|].
  apply OrchestratorFacts.load_contexts_In in Hc.
  destruct Hc as (x & Hx & Hload).
  apply PyListFacts.firstn_In, PyListFacts.sorted_desc_In in Hx.
  unfold rows_of in Hx. apply filter_In in Hx.
  destruct Hx as [Hx Hq]. apply andb_true_iff in Hq.
  destruct Hq as [_ Hq]. apply String.eqb_eq in Hq.
  apply read_visual_table_In in Hx.
  unfold load_read in Hload.
  destruct (v_document_id_text x); [|discriminate].
  apply OrchestratorFacts.load_context_spec in Hload.
  destruct Hload as (base & page_text & page & pages & img & Esplit & Eint
                     & Eexists & Econv & Erange & Eidx & ->).
  cbn [document_id page_number image].
  exists table, (v_row x), base, page_text, pages.
  repeat (split; [assumption || reflexivity|]). exact Erange.
Qed.

End Visual.

(** The read on a present table, on a disk that takes nothing, and on a
    fresh store. *)
Lemma visual_read_policy_witness :
  (let result :=
     @retrieve_visual_contexts Demo.pdf Demo.vision Demo.evaluator Demo.disk
       Demo.pandas Demo.cfg3 "q1" Demo.world_with_visual_table in
   files (fst result) = files Demo.world_with_visual_table
   /\ trace (fst result) = ([] ++ [RetrieveVisual "q1"])%list
   /\ snd result =
      Some (@contexts_of Demo.pdf Demo.pandas Demo.cfg3 "q1"
              (PyDict.get (vision_retrieval_file Demo.cfg3)
                          (files Demo.world_with_visual_table))))
  /\ (let result :=
        @retrieve_visual_contexts Demo.pdf Demo.vision Demo.evaluator
          DemoMore.read_only Demo.pandas Demo.cfg "q1" Demo.empty_world in
      files (fst result) = []
      /\ trace (fst result) =
         ([] ++ [RetrieveVisual "q1"; BuildVisualIndex])%list
      /\ snd result = Some [])
  /\ trace (fst (@retrieve_visual_contexts Demo.pdf Demo.vision
                   Demo.evaluator Demo.disk Demo.pandas Demo.cfg "q1"
                   Demo.empty_world))
     = [RetrieveVisual "q1"; BuildVisualIndex;
        MakeDirs "data/visual_embeddings";
        WriteFile "data/visual_embeddings/paper_0.pt";
        WriteFile "data/visual_embeddings/paper_1.pt";
        WriteFile "data/visual_embeddings/scan_0.pt";
        WriteFile "data/visual_embeddings/scan_1.pt";
        WriteFile "data/visual_embeddings/query_q1.pt";
        WriteFile "data/visual_embeddings/query_q2.pt";
        WriteFile "data/retrieval/retrieval_colpali.csv"]
  /\ PyDict.get (text_retrieval_file DemoMore.cfg_forced)
       (files (fst (@retrieve_visual_contexts Demo.pdf Demo.vision
                      Demo.evaluator Demo.disk Demo.pandas
                      DemoMore.cfg_forced "q1"
                      Demo.world_with_text_table)))
     = PyDict.get (text_retrieval_file DemoMore.cfg_forced)
                  (files Demo.world_with_text_table).
Proof.
  split; [|split; [|split]].
  - apply (@visual_read_policy Demo.pdf Demo.vision Demo.evaluator Demo.disk
             Demo.pandas Demo.cfg3 "q1" Demo.world_with_visual_table);
      reflexivity.
  - apply (@visual_read_policy Demo.pdf Demo.vision Demo.evaluator
             DemoMore.read_only Demo.pandas Demo.cfg "q1" Demo.empty_world);
      [left; reflexivity | reflexivity].
  - apply (@visual_read_policy Demo.pdf Demo.vision Demo.evaluator Demo.disk
             Demo.pandas Demo.cfg "q1" Demo.empty_world);
      [left; reflexivity | reflexivity].
  - apply (@visual_read_policy Demo.pdf Demo.vision Demo.evaluator Demo.disk
             Demo.pandas DemoMore.cfg_forced "q1"
             Demo.world_with_text_table).
    vm_compute. intuition discriminate.
Defined.

Lemma visual_contexts_sound_witness :
  exists table row base page_text pages,
    PyDict.get (vision_retrieval_file Demo.cfg3)
      (files (fst (@retrieve_visual_contexts Demo.pdf Demo.vision
                     Demo.evaluator Demo.disk Demo.pandas Demo.cfg3 "q1"
                     Demo.world_with_visual_table)))
      = Some (VisualTable table)
    /\ In row table
    /\ VisualIndex.q_id row = "q1"
    /\ "paper_0" = VisualIndex.document_id row
    /\ PyStr.rsplit1 "_" (VisualIndex.document_id row)
       = Some (base, page_text)
    /\ PyStr.py_int page_text = Some 0%Z
    /\ @path_exists Demo.pdf (OsPath.join (OsPath.join "data" "docs")
                                          (base ++ ".pdf")) = true
    /\ @convert_from_path Demo.pdf
         (OsPath.join (OsPath.join "data" "docs") (base ++ ".pdf"))
       = Some pages
    /\ PyList.index pages 0%Z = Some "alpha beta"
    /\ (0 < Z.of_nat (List.length pages))%Z.
Proof.
  apply (@visual_contexts_sound Demo.pdf Demo.vision Demo.evaluator Demo.disk
           Demo.pandas Demo.cfg3 "q1" Demo.world_with_visual_table
           [@mk_visual_context Demo.pdf "alpha beta" "paper_0" 0%Z]
           (@mk_visual_context Demo.pdf "alpha beta" "paper_0" 0%Z)).
  - reflexivity.
  - left. reflexivity.
Defined.

Section Textual.
Context `{PdfBackend} `{PyEval} `{Similarity} `{TextSplitter} `{TextRanker}
  `{Disk} `{Pandas}.

(** The state a build of the text index leaves behind. *)
Lemma build_text_index_run (cfg : config) (w : world) :
  let built :=
    mk_world (files w) (filled_cache cfg w)
             (trace w ++ [BuildTextIndex])%list in
  build_text_index cfg w =
  match TextIndex.text_index_rows (text cfg) (top_k cfg) (df cfg)
                                  (filled_cache cfg w) with
  | Some results =>
      if can_write (text_retrieval_file cfg) then
        (mk_world
           (PyDict.set (text_retrieval_file cfg) (TextTable results)
                       (files w))
           (filled_cache cfg w)
           ((trace w ++ [BuildTextIndex])
              ++ [WriteFile (text_retrieval_file cfg)])%list,
         Some true)
      else (built, Some false)
  | None => (built, Some false)
  end.
Proof.
  intros built. subst built.
  unfold build_text_index, bind, emit, ensure_document_cache, write_file, ret,
    filled_cache.
  destruct (document_cache w) eqn:Ecache; cbn [document_cache files trace];
    rewrite ?Ecache;
    destruct (TextIndex.text_index_rows _ _ _ _);
    try destruct (can_write (text_retrieval_file cfg)); reflexivity.
Qed.

Lemma build_text_index_total (cfg : config) (w : world) :
  exists b, snd (build_text_index cfg w) = Some b.
Proof.
  rewrite build_text_index_run.
  destruct (TextIndex.text_index_rows _ _ _ _);
    try destruct (can_write _); eexists; reflexivity.
Qed.

Lemma build_text_index_frame (cfg : config) (w : world) (p : string) :
  p <> text_retrieval_file cfg ->
  PyDict.get p (files (fst (build_text_index cfg w))) = PyDict.get p (files w).
Proof.
  intros Hp. rewrite build_text_index_run.
  destruct (TextIndex.text_index_rows _ _ _ _);
    try destruct (can_write _); cbn [fst files]; try reflexivity.
  now apply PyDictFacts.get_set_other.
Qed.

Lemma text_contexts_of_nil (cfg : config) (query_id : string)
  (table : list TextIndex.row) :
  text_rows_of query_id table = [] ->
  text_contexts_of cfg query_id (Some (TextTable table)) = [].
Proof.
  intros E. unfold text_contexts_of. rewrite E. simpl. now rewrite firstn_nil.
Qed.

(** [retrieve_textual_contexts] step by step. *)
Lemma retrieve_textual_contexts_run (cfg : config) (query_id : string)
  (w : world) :
  let w1 :=
    mk_world (files w) (document_cache w)
             (trace w ++ [RetrieveTextual query_id])%list in
  let answer (w' : world) :=
    (w', Some (text_contexts_of cfg query_id
                 (PyDict.get (text_retrieval_file cfg) (files w')))) in
  retrieve_textual_contexts cfg query_id w =
  if negb (PyDict.mem (text_retrieval_file cfg) (files w))
     || force_reindex cfg
  then
    match build_text_index cfg w1 with
    | (w2, Some true) => answer (fst (build_text_index cfg w2))
    | (w2, _) => (w2, Some [])
    end
  else answer (fst (build_text_index cfg w1)).
Proof.
  intros w1 answer. subst w1 answer.
  assert (Hread : forall w0,
    (let (w', o) := build_text_index cfg w0 in
     match o with
     | Some _ =>
         let (w'0, o0) := read_file (text_retrieval_file cfg) w' in
         match o0 with
         | Some x0 =>
             match x0 with
             | TextTable df_retrieval =>
                 match text_rows_of query_id df_retrieval with
                 | [] => ret []
                 | r :: l =>
                     ret
                       (map context_of_read
                          (firstn (top_k cfg)
                             (PyList.sorted_asc
                                (fun x => TextIndex.rank (t_row x))
                                (r :: l))))
                 end
             | _ => raise
             end w'0
         | None => (w'0, None)
         end
     | None => (w', None)
     end) =
    let w' := fst (build_text_index cfg w0) in
    match PyDict.get (text_retrieval_file cfg) (files w') with
    | Some (TextTable _) =>
        (w', Some (text_contexts_of cfg query_id
                     (PyDict.get (text_retrieval_file cfg) (files w'))))
    | _ => (w', None)
    end).
  { intros w0. destruct (build_text_index_total cfg w0) as [b Hb].
    destruct (build_text_index cfg w0) as [w' o]. cbn [fst snd] in *.
    subst o. unfold read_file.
    destruct (PyDict.get (text_retrieval_file cfg) (files w'))
      as [[table|table|j| | |]|]; try reflexivity.
    destruct (text_rows_of query_id table) eqn:Erows.
    - now rewrite (text_contexts_of_nil cfg query_id table Erows).
    - unfold text_contexts_of. now rewrite Erows. }
  unfold retrieve_textual_contexts, catch, bind, emit, exists_file.
  cbn [files].
  destruct (negb (PyDict.mem (text_retrieval_file cfg) (files w))
            || force_reindex cfg) eqn:Eneed.
  - destruct (build_text_index cfg _) as [w2 [[|]|]] eqn:Ebuild;
      cbn [negb]; try reflexivity.
    rewrite Hread. cbv zeta.
    destruct (PyDict.get (text_retrieval_file cfg)
                         (files (fst (build_text_index cfg w2))))
      as [[table|table|j| | |]|]; reflexivity.
  - unfold ret at 1. cbn [negb]. rewrite Hread. cbv zeta.
    destruct (PyDict.get (text_retrieval_file cfg)
                         (files (fst (build_text_index cfg _))))
      as [[table|table|j| | |]|]; reflexivity.
Qed.

End Textual.

End ReadsFacts.
(* ================================================================== *)
(** * The textual read *)
(* ================================================================== *)

Module TextReadFacts.
Import Orchestrator Reads.

Section Ascending.
Context {A : Type} (key : A -> nat).

Lemma insert_asc_In (x y : A) (l : list A) :
  In y (PyList.insert_asc key x l) <-> y = x \/ In y l.
Proof.
  induction l as [|z l IH]; simpl.
  - intuition.
  - destruct (key z <? key x); simpl; rewrite ?IH; intuition.
Qed.

Lemma sorted_asc_In (y : A) (l : list A) :
  In y (PyList.sorted_asc key l) <-> In y l.
Proof.
  induction l as [|x l IH]; simpl; [reflexivity|].
  rewrite insert_asc_In, IH. intuition.
Qed.

Lemma insert_asc_length (x : A) (l : list A) :
  List.length (PyList.insert_asc key x l) = S (List.length l).
Proof.
  induction l as [|z l IH]; simpl; [reflexivity|].
  destruct (key z <? key x); simpl; now rewrite ?IH.
Qed.

Lemma sorted_asc_length (l : list A) :
  List.length (PyList.sorted_asc key l) = List.length l.
Proof.
  induction l as [|x l IH]; simpl; [reflexivity|].
  now rewrite insert_asc_length, IH.
Qed.

Lemma insert_asc_sorted (x : A) (l : list A) :
  StronglySorted (fun a b => key a <= key b) l ->
  StronglySorted (fun a b => key a <= key b) (PyList.insert_asc key x l).
Proof.
  induction 1 as [|z l Hsorted IH Hall]; simpl.
  - constructor; constructor.
  - destruct (key z <? key x) eqn:E.
    + apply Nat.ltb_lt in E. constructor; [exact IH|].
      apply Forall_forall. intros y Hy. apply insert_asc_In in Hy.
      destruct Hy as [->|Hy]; [lia|].
      rewrite Forall_forall in Hall. now apply Hall.
    + apply Nat.ltb_ge in E. constructor; [now constructor|].
      constructor; [exact E|].
      rewrite Forall_forall in *. intros y Hy. specialize (Hall y Hy). lia.
Qed.

Lemma sorted_asc_sorted (l : list A) :
  StronglySorted (fun a b => key a <= key b) (PyList.sorted_asc key l).
Proof.
  induction l as [|x l IH]; simpl; [constructor|].
  now apply insert_asc_sorted.
Qed.

(** Sorting a list whose keys already increase strictly changes nothing. *)
Lemma sorted_asc_increasing (l : list A) :
  StronglySorted (fun a b => key a < key b) l ->
  PyList.sorted_asc key l = l.
Proof.
  induction 1 as [|x l Hsorted IH Hall]; [reflexivity|].
  cbn [PyList.sorted_asc fold_right]. fold (PyList.sorted_asc key l).
  rewrite IH. destruct l as [|y l']; [reflexivity|].
  cbn [PyList.insert_asc].
  inversion Hall as [|? ? Hxy _]; subst.
  assert (E : (key y <? key x) = false) by (apply Nat.ltb_ge; lia).
  now rewrite E.
Qed.

End Ascending.

Lemma seq_increasing (n start : nat) :
  StronglySorted lt (seq start n).
Proof.
  revert start. induction n as [|n IH]; intros start; [constructor|].
  cbn [seq]. constructor; [apply IH|].
  apply Forall_forall. intros k Hk. apply in_seq in Hk. lia.
Qed.

Lemma StronglySorted_of_map {A B : Type} (f : A -> B) (R : B -> B -> Prop)
  (l : list A) :
  StronglySorted R (map f l) ->
  StronglySorted (fun a b => R (f a) (f b)) l.
Proof.
  induction l as [|x l IH]; intros Hs; [constructor|].
  cbn [map] in Hs. apply StronglySorted_inv in Hs. destruct Hs as [Hs Hall].
  constructor; [now apply IH|].
  rewrite Forall_forall in *. intros y Hy. apply Hall. now apply in_map.
Qed.

(** Rows that carry the ranks 1, 2, ... in table order are already in rank
    order. *)
Lemma sorted_asc_ranked (rows : list TextIndex.row) :
  map TextIndex.rank rows = seq 1 (List.length rows) ->
  PyList.sorted_asc TextIndex.rank rows = rows.
Proof.
  intros Hranks. apply sorted_asc_increasing.
  apply (StronglySorted_of_map TextIndex.rank lt).
  rewrite Hranks. apply seq_increasing.
Qed.

Lemma filled_cache_idem `{PdfBackend} `{PyEval} (cfg : config)
  (w w' : world) :
  document_cache w' = filled_cache cfg w ->
  filled_cache cfg w' = filled_cache cfg w.
Proof.
  unfold filled_cache. intros E. rewrite E.
  destruct (document_cache w); [|reflexivity].
  now destruct (DocCache.cache _).
Qed.

(** The rows of a textual table as they are read back, cell by cell. *)
Lemma read_text_rows_In `{Pandas} (table : list TextIndex.row)
  (x : text_read) :
  forall rows start,
    In x (read_text_rows table start rows) <->
    exists i r,
      nth_error rows i = Some r
      /\ x = mk_text_read r
               (kept (read_text_cell table (start + i) "q_id"))
               (read_back (read_text_cell table (start + i) "chunk")
                          (JStr (TextIndex.chunk r)))
               (read_back (read_text_cell table (start + i) "chunk_pdf_name")
                          (JStr (TextIndex.chunk_pdf_name r)))
               (read_back
                  (read_text_cell table (start + i) "pdf_page_number")
                  (JNum (Z.of_nat (TextIndex.pdf_page_number r)))).
Proof.
  induction rows as [|r rows IH]; intros start; cbn [read_text_rows In].
  - split; [intros [] | intros (i & r & Hi & _)]. now destruct i.
  - rewrite IH. split.
    + intros [<- | (i & r' & Hi & ->)].
      * exists 0, r. rewrite Nat.add_0_r. now split.
      * exists (S i), r'. rewrite Nat.add_succ_r. now split.
    + intros (i & r' & Hi & ->). destruct i as [|i]; cbn in Hi.
      * injection Hi as <-. left. now rewrite Nat.add_0_r.
      * right. exists i, r'. rewrite Nat.add_succ_r. now split.
Qed.

Lemma read_text_rows_row `{Pandas} (table : list TextIndex.row) :
  forall rows start, map t_row (read_text_rows table start rows) = rows.
Proof.
  induction rows as [|r rows IH]; intros start; [reflexivity|].
  cbn [read_text_rows map t_row]. now rewrite IH.
Qed.

(** A reader that hands every cell of a table back as written hands every
    row back as written. *)
Lemma read_text_rows_kept `{Pandas} (table : list TextIndex.row) :
  (forall i column, read_text_cell table i column = None) ->
  forall rows start,
    read_text_rows table start rows =
    map (fun r => mk_text_read r true (JStr (TextIndex.chunk r))
                    (JStr (TextIndex.chunk_pdf_name r))
                    (JNum (Z.of_nat (TextIndex.pdf_page_number r)))) rows.
Proof.
  intros Hkept. induction rows as [|r rows IH]; intros start;
    [reflexivity|].
  cbn [read_text_rows map]. rewrite !Hkept, IH. reflexivity.
Qed.

Lemma filter_map_commute {A B : Type} (f : B -> bool) (g : A -> B)
  (l : list A) :
  filter f (map g l) = map g (filter (fun x => f (g x)) l).
Proof.
  induction l as [|x l IH]; [reflexivity|].
  cbn [map filter]. rewrite IH. now destruct (f (g x)).
Qed.

Section Textual.
Context `{PdfBackend} `{PyEval} `{Similarity} `{TextSplitter} `{TextRanker}
  `{Disk} `{Pandas}.

(** With a computable index and a writable table, the read answers from
    the freshly computed rows. *)
Lemma textual_read_fresh (cfg : config) (query_id : string) (w : world)
  (results : list TextIndex.row) :
  TextIndex.text_index_rows (text cfg) (top_k cfg) (df cfg)
                            (filled_cache cfg w) = Some results ->
  can_write (text_retrieval_file cfg) = true ->
  snd (retrieve_textual_contexts cfg query_id w) =
  Some (text_contexts_of cfg query_id (Some (TextTable results))).
Proof.
  intros Hbuilt Hwrite.
  rewrite ReadsFacts.retrieve_textual_contexts_run. cbv zeta.
  set (w1 := mk_world (files w) (document_cache w)
                      (trace w ++ [RetrieveTextual query_id])%list).
  assert (Hc1 : filled_cache cfg w1 = filled_cache cfg w) by reflexivity.
  rewrite (ReadsFacts.build_text_index_run cfg w1). cbv zeta.
  rewrite Hc1, Hbuilt, Hwrite.
  set (w2 := mk_world _ (filled_cache cfg w) _).
  assert (Hc2 : filled_cache cfg w2 = filled_cache cfg w)
    by (apply filled_cache_idem; reflexivity).
  assert (Hget :
    PyDict.get (text_retrieval_file cfg)
               (files (fst (build_text_index cfg w2))) =
    Some (TextTable results)).
  { rewrite (ReadsFacts.build_text_index_run cfg w2). cbv zeta.
    rewrite Hc2, Hbuilt, Hwrite. cbn [fst files].
    apply PyDictFacts.get_set_same. }
  destruct (negb _ || _); cbn [fst snd].
  - now rewrite Hget.
  - subst w2. cbn [files]. now rewrite PyDictFacts.get_set_same.
Qed.

(** The store after a textual read, and where the answer is read from. *)
Lemma textual_read_store (cfg : config) (query_id : string) (w : world) :
  let table_file := text_retrieval_file cfg in
  let result := retrieve_textual_contexts cfg query_id w in
  let cache' := filled_cache cfg w in
  let built :=
    TextIndex.text_index_rows (text cfg) (top_k cfg) (df cfg) cache' in
  (forall p, p <> table_file ->
             PyDict.get p (files (fst result)) = PyDict.get p (files w))
  /\ document_cache (fst result) = cache'
  /\ (forall results,
        built = Some results -> can_write table_file = true ->
        PyDict.get table_file (files (fst result))
          = Some (TextTable results)
        /\ snd result =
           Some (text_contexts_of cfg query_id (Some (TextTable results))))
  /\ (built = None \/ can_write table_file = false ->
      files (fst result) = files w
      /\ snd result =
         Some (if negb (PyDict.mem table_file (files w))
                  || force_reindex cfg
               then []
               else text_contexts_of cfg query_id
                      (PyDict.get table_file (files w)))).
Proof.
  intros table_file result cache' built.
  subst result. rewrite ReadsFacts.retrieve_textual_contexts_run.
  cbv zeta.
  set (w1 := mk_world (files w) (document_cache w)
                      (trace w ++ [RetrieveTextual query_id])%list).
  assert (Hc1 : filled_cache cfg w1 = cache') by reflexivity.
  rewrite (ReadsFacts.build_text_index_run cfg w1). cbv zeta.
  rewrite Hc1. fold built. fold table_file.
  destruct built as [results|] eqn:Ebuilt.
  - destruct (can_write table_file) eqn:Ewrite.
    + set (w2 := mk_world _ cache' _).
      assert (Hc2 : filled_cache cfg w2 = cache')
        by (apply filled_cache_idem; reflexivity).
      assert (Hfinal :
        fst (build_text_index cfg w2) =
        mk_world
          (PyDict.set table_file (TextTable results) (files w2))
          cache'
          ((trace w2 ++ [BuildTextIndex]) ++ [WriteFile table_file])%list).
      { rewrite (ReadsFacts.build_text_index_run cfg w2). cbv zeta.
        rewrite Hc2. fold built table_file. unfold built at 1.
        fold built. rewrite Ebuilt, Ewrite. reflexivity. }
      assert (Hget :
        PyDict.get table_file (files (fst (build_text_index cfg w2))) =
        Some (TextTable results)).
      { rewrite Hfinal. cbn [files]. apply PyDictFacts.get_set_same. }
      assert (Hframe : forall p, p <> table_file ->
        PyDict.get p (files (fst (build_text_index cfg w2))) =
        PyDict.get p (files w)).
      { intros p Hp. rewrite Hfinal. cbn [files].
        rewrite PyDictFacts.get_set_other by exact Hp.
        subst w2. cbn [files].
        rewrite PyDictFacts.get_set_other by exact Hp. reflexivity. }
      assert (Hcache :
        document_cache (fst (build_text_index cfg w2)) = cache')
        by (rewrite Hfinal; reflexivity).
      assert (Hget2 :
        PyDict.get table_file (files w2) = Some (TextTable results))
        by apply PyDictFacts.get_set_same.
      assert (Hframe2 : forall p, p <> table_file ->
        PyDict.get p (files w2) = PyDict.get p (files w))
        by (intros p Hp; apply PyDictFacts.get_set_other; exact Hp).
      destruct (negb (PyDict.mem table_file (files w)) || force_reindex cfg);
        cbn [fst snd]; rewrite ?Hget, ?Hget2;
        (split; [first [exact Hframe | exact Hframe2]
                | split; [first [exact Hcache | reflexivity] | split]]);
        try (intros results' Eres _; injection Eres as <-;
             split; [first [exact Hget | exact Hget2 | reflexivity] | reflexivity]);
        intros [Hnone | Hno]; discriminate.
    + destruct (negb (PyDict.mem table_file (files w)) || force_reindex cfg);
        cbn [fst snd files document_cache];
        (split; [reflexivity | split; [reflexivity | split]]);
        try (intros results' _ Hyes; discriminate);
        intros _; split; reflexivity.
  - destruct (negb (PyDict.mem table_file (files w)) || force_reindex cfg);
      cbn [fst snd files document_cache];
      (split; [reflexivity | split; [reflexivity | split]]);
      try (intros results' Hyes; discriminate);
      intros _; split; reflexivity.
Qed.

(** X9.  What a textual read does to the store.  It touches no file other
    than the textual retrieval table, and it leaves the document cache
    filled.  When the index can be computed from the filled cache and the
    table can be written, the table after the call is the freshly computed
    one and the answer is what the reader hands back from it, whatever
    table was on disk before and whether or not a rebuild was asked for.
    When the index cannot be computed or the table cannot be written, no
    file changes: the answer is empty if the table was absent or a rebuild
    was forced, and is what the reader hands back from the table on disk
    otherwise.  What the reader hands back from a table is the first
    [top_k] rows in ascending rank among the rows whose [q_id] cell came
    back as text equal to the id, each with its chunk and its document name
    as they came back, which need not be the text written. *)
Theorem textual_read_policy (cfg : config) (query_id : string) (w : world) :
  let table_file := text_retrieval_file cfg in
  let result := retrieve_textual_contexts cfg query_id w in
  let cache' := filled_cache cfg w in
  let built :=
    TextIndex.text_index_rows (text cfg) (top_k cfg) (df cfg) cache' in
  (forall p, p <> table_file ->
             PyDict.get p (files (fst result)) = PyDict.get p (files w))
  /\ document_cache (fst result) = cache'
  /\ (forall results,
        built = Some results -> can_write table_file = true ->
        PyDict.get table_file (files (fst result))
          = Some (TextTable results)
        /\ snd result =
           Some (text_contexts_of cfg query_id (Some (TextTable results))))
  /\ (built = None \/ can_write table_file = false ->
      files (fst result) = files w
      /\ snd result =
         Some (if negb (PyDict.mem table_file (files w))
                  || force_reindex cfg
               then []
               else text_contexts_of cfg query_id
                      (PyDict.get table_file (files w))))
  /\ (forall table,
        text_contexts_of cfg query_id (Some (TextTable table)) =
        map (fun x => mk_textual_context
                        (t_chunk x) (t_chunk_pdf_name x)
                        (t_pdf_page_number x))
            (firstn (top_k cfg)
               (PyList.sorted_asc (fun x => TextIndex.rank (t_row x))
                  (filter (fun x => t_q_id_text x
                                    && String.eqb
                                         (TextIndex.q_id (t_row x)) query_id)
                          (read_text_table table)))))
  /\ (forall table x,
        In x (read_text_table table) <->
        exists i r,
          nth_error table i = Some r
          /\ x = mk_text_read r
                   (kept (read_text_cell table i "q_id"))
                   (read_back (read_text_cell table i "chunk")
                              (JStr (TextIndex.chunk r)))
                   (read_back (read_text_cell table i "chunk_pdf_name")
                              (JStr (TextIndex.chunk_pdf_name r)))
                   (read_back (read_text_cell table i "pdf_page_number")
                              (JNum (Z.of_nat
                                       (TextIndex.pdf_page_number r)))))
  /\ (forall written,
        read_back None written = written /\ kept None = true)
  /\ (forall v written,
        read_back (Some v) written = v /\ kept (Some v) = false).
Proof.
  intros table_file result cache' built.
  destruct (textual_read_store cfg query_id w)
    as (Hframe & Hcache & Hfresh & Hkept).
  split; [exact Hframe|]. split; [exact Hcache|]. split; [exact Hfresh|].
  split; [exact Hkept|]. split; [reflexivity|]. split; [|split].
  - intros table x. apply (read_text_rows_In table x table 0).
  - intros written. split; reflexivity.
  - intros v written. split; reflexivity.
Qed.

(** The answer of a textual read is empty or is read from the table the
    call leaves on disk. *)
Lemma textual_read_shape (cfg : config) (query_id : string) (w : world) :
  let result := retrieve_textual_contexts cfg query_id w in
  snd result = Some []
  \/ snd result =
     Some (text_contexts_of cfg query_id
             (PyDict.get (text_retrieval_file cfg) (files (fst result)))).
Proof.
  cbv zeta. rewrite ReadsFacts.retrieve_textual_contexts_run. cbv zeta.
  destruct (negb _ || _).
  - destruct (build_text_index cfg _) as [w2 [[|]|]];
      [right | left | left]; reflexivity.
  - right. reflexivity.
Qed.

(** X10.  The contexts a textual read returns.  The call always returns a
    list, of at most [top_k] contexts.  Each comes from a row of the table
    the call leaves on disk, as the reader hands it back: its chunk, its
    document name and its page number are the values that came back for
    the row's cells.  The rows are all rows of the query asked,
    with a [q_id] cell that came back as text, listed by ascending rank;
    and no such row that was left out has a smaller rank than a row that
    was kept. *)
Theorem textual_contexts_by_rank (cfg : config) (query_id : string)
  (w : world) :
  let result := retrieve_textual_contexts cfg query_id w in
  exists reads,
    snd result =
      Some (map (fun x =>
                   mk_textual_context
                     (t_chunk x) (t_chunk_pdf_name x)
                     (t_pdf_page_number x)) reads)
    /\ List.length reads <= top_k cfg
    /\ StronglySorted
         (fun a b => TextIndex.rank (t_row a) <= TextIndex.rank (t_row b))
         reads
    /\ forall x, In x reads ->
         exists table i,
           PyDict.get (text_retrieval_file cfg) (files (fst result))
             = Some (TextTable table)
           /\ nth_error table i = Some (t_row x)
           /\ TextIndex.q_id (t_row x) = query_id
           /\ t_q_id_text x = true
           /\ read_text_cell table i "q_id" = None
           /\ t_chunk x =
              read_back (read_text_cell table i "chunk")
                        (JStr (TextIndex.chunk (t_row x)))
           /\ t_chunk_pdf_name x =
              read_back (read_text_cell table i "chunk_pdf_name")
                        (JStr (TextIndex.chunk_pdf_name (t_row x)))
           /\ t_pdf_page_number x =
              read_back (read_text_cell table i "pdf_page_number")
                        (JNum (Z.of_nat
                                 (TextIndex.pdf_page_number (t_row x))))
           /\ forall other,
                In other (read_text_table table) ->
                t_q_id_text other = true ->
                TextIndex.q_id (t_row other) = query_id ->
                ~ In other reads ->
                TextIndex.rank (t_row x) <= TextIndex.rank (t_row other).
Proof.
  intros result.
  destruct (textual_read_shape cfg query_id w) as [Hres | Hres];
    fold result in Hres.
  { exists []. split; [exact Hres | split; [apply Nat.le_0_l|]].
    split; [constructor | intros row []]. }
  unfold text_contexts_of in Hres.
  destruct (PyDict.get (text_retrieval_file cfg) (files (fst result)))
    as [[table|table|j| | |]|] eqn:Eget;
    try (exists []; split; [exact Hres | split; [apply Nat.le_0_l|]];
         split; [constructor | intros row []]).
  set (key := fun x => TextIndex.rank (t_row x)) in *.
  set (query_rows := text_rows_of query_id table) in *.
  set (sorted := PyList.sorted_asc key query_rows) in *.
  exists (firstn (top_k cfg) sorted).
  split; [exact Hres|]. split; [apply firstn_le_length|].
  assert (Hsorted : StronglySorted (fun a b => key a <= key b) sorted)
    by apply sorted_asc_sorted.
  split; [now apply PyListFacts.StronglySorted_firstn|].
  intros x Hx.
  assert (Hin : In x query_rows).
  { apply (sorted_asc_In key).
    now apply (PyListFacts.firstn_In _ _ (top_k cfg)). }
  apply filter_In in Hin. destruct Hin as [Hin Hq].
  apply andb_true_iff in Hq. destruct Hq as [Htext Hq].
  apply String.eqb_eq in Hq.
  apply (read_text_rows_In table x table 0) in Hin.
  destruct Hin as (i & r & Hi & Ex). cbn [Nat.add] in Ex.
  exists table, i. split; [reflexivity|].
  assert (Erow : t_row x = r) by (rewrite Ex; reflexivity).
  rewrite Erow. split; [exact Hi|]. rewrite <- Erow.
  split; [exact Hq|]. split; [exact Htext|].
  split.
  { rewrite Ex in Htext. cbn [t_q_id_text] in Htext.
    unfold kept in Htext.
    now destruct (read_text_cell table i "q_id"). }
  split; [rewrite Ex; reflexivity|].
  split; [rewrite Ex; reflexivity|].
  split; [rewrite Ex; reflexivity|].
  intros other Hother Hotext Hoq Hout.
  apply (TextIndexMore.firstn_sorted_top
           (fun a b => key a <= key b)
           sorted (top_k cfg) Hsorted x other Hx); [|exact Hout].
  apply (sorted_asc_In key). apply filter_In.
  split; [exact Hother|]. rewrite Hotext. now apply String.eqb_eq.
Qed.

Lemma built_rows_of (cfg : config) (cache : PyDict.t (list string))
  (results : list TextIndex.row) (r : Dataset.row) :
  NoDup (map Dataset.q_id (df cfg)) ->
  In r (df cfg) ->
  TextIndex.text_index_rows (text cfg) (top_k cfg) (df cfg) cache
    = Some results ->
  TextIndex.rows_of (Dataset.q_id r) results = built_rows cfg cache r.
Proof.
  intros Hnodup Hin. unfold TextIndex.text_index_rows, built_rows.
  destruct (text cfg);
    match goal with
    | |- context [if ?c then _ else _] => destruct c
    end; intros E; try discriminate; injection E as <-;
    apply TextIndexFacts.rows_of_flat_map; auto;
    intros r' x;
    first [apply TextIndexFacts.bm25_rows_q_id
          | apply TextIndexFacts.dense_rows_q_id].
Qed.

Lemma built_rows_ranks (cfg : config) (cache : PyDict.t (list string))
  (r : Dataset.row) :
  map TextIndex.rank (built_rows cfg cache r)
  = seq 1 (List.length (built_rows cfg cache r)).
Proof.
  unfold built_rows, TextIndex.bm25_rows, TextIndex.dense_rows.
  destruct (text cfg);
    repeat match goal with
           | |- context [match ?c with _ => _ end] =>
               lazymatch c with
               | text _ => fail
               | _ => destruct c as [?|]
               end
           | p : (_ * _)%type |- _ => destruct p
           end; try reflexivity;
    apply (TextIndexFacts.emit_rows_ranks _ _ _ _ _ 0).
Qed.

(** X11.  Build, then read.  Over a dataset with distinct query ids, when
    the index can be computed from the filled document cache, the table can
    be written, and the reader hands every cell of the computed table back
    as the value written, a textual read for a query of the dataset returns
    the first [top_k] of the rows the builder produces for that query, in
    the order the builder ranked them, each with its chunk and its document
    name as text and its page number as an integer. *)
Theorem textual_read_of_dataset_query (cfg : config) (r : Dataset.row)
  (w : world) (results : list TextIndex.row) :
  NoDup (map Dataset.q_id (df cfg)) ->
  In r (df cfg) ->
  TextIndex.text_index_rows (text cfg) (top_k cfg) (df cfg)
                            (filled_cache cfg w) = Some results ->
  can_write (text_retrieval_file cfg) = true ->
  (forall i column, read_text_cell results i column = None) ->
  snd (retrieve_textual_contexts cfg (Dataset.q_id r) w) =
  Some (map (fun row =>
               mk_textual_context
                 (JStr (TextIndex.chunk row))
                 (JStr (TextIndex.chunk_pdf_name row))
                 (JNum (Z.of_nat (TextIndex.pdf_page_number row))))
            (firstn (top_k cfg) (built_rows cfg (filled_cache cfg w) r))).
Proof.
  intros Hnodup Hin Hbuilt Hwrite Hkept.
  rewrite (textual_read_fresh cfg (Dataset.q_id r) w results Hbuilt Hwrite).
  unfold text_contexts_of, text_rows_of, read_text_table.
  rewrite (read_text_rows_kept results Hkept results 0).
  rewrite filter_map_commute. cbn [t_q_id_text t_row andb].
  change (filter (fun x => String.eqb (TextIndex.q_id x) (Dataset.q_id r))
                 results)
    with (TextIndex.rows_of (Dataset.q_id r) results).
  rewrite (built_rows_of cfg _ results r Hnodup Hin Hbuilt).
  rewrite sorted_asc_increasing.
  - rewrite firstn_map, map_map. reflexivity.
  - apply PyListFacts.StronglySorted_map. cbn [t_row].
    apply (StronglySorted_of_map TextIndex.rank lt).
    rewrite built_rows_ranks. apply seq_increasing.
Qed.

End Textual.

(** The read on a present stale table, on a writable and on a read-only
    disk. *)
Lemma textual_read_policy_witness :
  (PyDict.get (vision_retrieval_file Demo.cfg)
     (files (fst (@retrieve_textual_contexts Demo.pdf Demo.evaluator
                    Demo.similarity Demo.splitter Demo.ranker Demo.disk
                    Demo.pandas Demo.cfg "q1" Demo.world_with_text_table)))
   = PyDict.get (vision_retrieval_file Demo.cfg)
                (files Demo.world_with_text_table))
  /\ (exists results,
        @TextIndex.text_index_rows Demo.similarity Demo.splitter Demo.ranker
          (text Demo.cfg) (top_k Demo.cfg) (df Demo.cfg)
          (@filled_cache Demo.pdf Demo.evaluator Demo.cfg
             Demo.world_with_text_table) = Some results
        /\ results <> Demo.stale_text_table
        /\ snd (@retrieve_textual_contexts Demo.pdf Demo.evaluator
                  Demo.similarity Demo.splitter Demo.ranker Demo.disk
                  Demo.pandas Demo.cfg "q1" Demo.world_with_text_table)
           = Some (@text_contexts_of Demo.pandas Demo.cfg "q1"
                     (Some (TextTable results))))
  /\ (let result :=
        @retrieve_textual_contexts Demo.pdf Demo.evaluator Demo.similarity
          Demo.splitter Demo.ranker DemoMore.read_only Demo.pandas Demo.cfg
          "q1" Demo.world_with_text_table in
      files (fst result) = files Demo.world_with_text_table
      /\ snd result =
         Some (@text_contexts_of Demo.pandas Demo.cfg "q1"
                 (Some (TextTable Demo.stale_text_table)))).
Proof.
  split; [|split].
  - apply (@textual_read_policy Demo.pdf Demo.evaluator Demo.similarity
             Demo.splitter Demo.ranker Demo.disk Demo.pandas Demo.cfg "q1"
             Demo.world_with_text_table).
    discriminate.
  - eexists. split; [vm_compute; reflexivity|].
    split; [discriminate|].
    apply (@textual_read_policy Demo.pdf Demo.evaluator Demo.similarity
             Demo.splitter Demo.ranker Demo.disk Demo.pandas Demo.cfg "q1"
             Demo.world_with_text_table); reflexivity.
  - apply (@textual_read_policy Demo.pdf Demo.evaluator Demo.similarity
             Demo.splitter Demo.ranker DemoMore.read_only Demo.pandas
             Demo.cfg "q1" Demo.world_with_text_table).
    right. reflexivity.
Defined.

(** On the demo corpus the read returns a context, backed by a row of
    query [q1]. *)
Lemma textual_contexts_by_rank_witness :
  exists reads,
    snd (@retrieve_textual_contexts Demo.pdf Demo.evaluator Demo.similarity
           Demo.splitter Demo.ranker Demo.disk Demo.pandas Demo.cfg "q1"
           Demo.world_with_text_table)
    = Some (map (fun x =>
                   mk_textual_context
                     (t_chunk x) (t_chunk_pdf_name x)
                     (t_pdf_page_number x)) reads)
    /\ reads <> []
    /\ forall x, In x reads -> TextIndex.q_id (t_row x) = "q1".
Proof.
  destruct (@textual_contexts_by_rank Demo.pdf Demo.evaluator
              Demo.similarity Demo.splitter Demo.ranker Demo.disk
              Demo.pandas Demo.cfg "q1" Demo.world_with_text_table)
    as (reads & Hres & _ & _ & Hrows).
  exists reads. split; [exact Hres|]. split.
  - intros ->. vm_compute in Hres. discriminate.
  - intros x Hx.
    destruct (Hrows x Hx) as (table & i & _ & _ & Hq & _).
    exact Hq.
Defined.

Lemma textual_read_of_dataset_query_witness :
  snd (@retrieve_textual_contexts Demo.pdf Demo.evaluator Demo.similarity
         Demo.splitter Demo.ranker Demo.disk Demo.pandas Demo.cfg
         (Dataset.q_id Demo.query1) Demo.empty_world)
  = Some (map (fun row =>
                 mk_textual_context
                   (JStr (TextIndex.chunk row))
                   (JStr (TextIndex.chunk_pdf_name row))
                   (JNum (Z.of_nat (TextIndex.pdf_page_number row))))
              (firstn (top_k Demo.cfg)
                 (@built_rows Demo.similarity Demo.splitter Demo.ranker
                    Demo.cfg
                    (@filled_cache Demo.pdf Demo.evaluator Demo.cfg
                       Demo.empty_world)
                    Demo.query1))).
Proof.
  eapply (@textual_read_of_dataset_query Demo.pdf Demo.evaluator
            Demo.similarity Demo.splitter Demo.ranker Demo.disk Demo.pandas
            Demo.cfg Demo.query1 Demo.empty_world).
  - repeat constructor; cbn; intuition discriminate.
  - left. reflexivity.
  - vm_compute. reflexivity.
  - reflexivity.
  - reflexivity.
Defined.

End TextReadFacts.

(* ================================================================== *)
(** * What a query may write *)
(* ================================================================== *)

Module FootprintFacts.
Import Orchestrator Footprint FrameFacts.

Lemma touches_build_text_index `{PdfBackend} `{PyEval} `{Similarity}
  `{TextSplitter} `{TextRanker} `{Disk} (cfg : config) :
  touches [text_retrieval_file cfg] (build_text_index cfg).
Proof.
  intros w. rewrite ReadsFacts.build_text_index_run. cbv zeta.
  assert (Hcache : document_cache w <> [] ->
                   Reads.filled_cache cfg w = document_cache w).
  { unfold Reads.filled_cache. now destruct (document_cache w). }
  destruct (TextIndex.text_index_rows _ _ _ _);
    try destruct (can_write _); cbn [fst];
    (split; [|split; [|split]]); cbn [files document_cache trace];
    try exact Hcache; auto.
  - intros p Hp. apply PyDictFacts.get_set_other. intros ->.
    apply Hp. now left.
  - intros p Hp. now apply mem_set.
  - eexists. now rewrite <- app_assoc.
  - now eexists.
  - now eexists.
Qed.

Lemma touches_retrieve_textual_contexts `{PdfBackend} `{PyEval}
  `{Similarity} `{TextSplitter} `{TextRanker} `{Disk} `{Pandas}
  (cfg : config) (query_id : string) :
  touches [text_retrieval_file cfg]
          (retrieve_textual_contexts cfg query_id).
Proof.
  unfold retrieve_textual_contexts. footprint.
  all: try apply touches_build_text_index.
Qed.

Lemma touches_generate_visual_response `{Generator} (paths : list string)
  (query : string) (contexts : list visual_context) :
  touches paths (generate_visual_response query contexts).
Proof. unfold generate_visual_response. footprint. Qed.

Lemma touches_generate_textual_response `{Generator} (paths : list string)
  (query : string) (contexts : list textual_context) :
  touches paths (generate_textual_response query contexts).
Proof. unfold generate_textual_response. footprint. Qed.

Lemma touches_combine_responses `{Generator} (paths : list string)
  (query : string) (v t : json) :
  touches paths (combine_responses query v t).
Proof. unfold combine_responses. footprint. Qed.

Section Steps.
Context {P : PdfBackend} {V : @VisionBackend P} `{PyEval} `{Similarity}
  `{TextSplitter} `{TextRanker} `{Disk} `{Pandas} {G : @Generator P}.

Lemma touches_visual_step (cfg : config) (query_id question : string)
  (answer : json) :
  touches (visual_file cfg query_id :: visual_paths cfg)
          (visual_step cfg query_id question answer).
Proof.
  unfold visual_step. cbv zeta. footprint.
  all: try apply touches_generate_visual_response.
  all: try (apply touches_write_json; left; reflexivity).
  all: try apply touches_load_json.
  all: try (eapply touches_weaken;
            [|apply touches_retrieve_visual_contexts];
            intros p Hp; right; exact Hp).
Qed.

Lemma touches_textual_step (cfg : config) (query_id question : string)
  (answer : json) :
  touches [text_retrieval_file cfg; textual_file cfg query_id]
          (textual_step cfg query_id question answer).
Proof.
  unfold textual_step. cbv zeta. footprint.
  all: try apply touches_generate_textual_response.
  all: try (apply touches_write_json; cbn; tauto).
  all: try apply touches_load_json.
  all: try (eapply touches_weaken;
            [|apply touches_retrieve_textual_contexts];
            intros p [<-|[]]; cbn; tauto).
Qed.

Lemma touches_process_query (cfg : config) (query_id : string) :
  touches (query_paths cfg query_id) (process_query cfg query_id).
Proof.
  unfold process_query. cbv zeta.
  apply touches_catch; [|apply touches_ret].
  destruct (VisualIndex.find_row query_id (df cfg));
    [|apply touches_raise].
  apply touches_bind; [apply touches_exists_file|]. intros done.
  destruct done; [apply touches_ret|].
  apply touches_bind.
  { eapply touches_weaken; [|apply touches_visual_step].
    unfold query_paths, visual_paths.
    intros p [<-|[<-|Hp]]; apply in_or_app;
      [left; cbn; tauto | left; cbn; tauto | right; exact Hp]. }
  intros v.
  apply touches_bind;
    [eapply touches_weaken; [|apply touches_textual_step];
     intros p [<-|[<-|[]]]; cbn; tauto|].
  intros t.
  destruct (missing v || missing t); [apply touches_ret|].
  apply touches_bind; [apply touches_combine_responses|]. intros sections.
  apply touches_bind; [|intros ?; apply touches_ret].
  apply touches_write_json. cbn. tauto.
Qed.

Lemma process_query_returns (cfg : config) (query_id : string) (w : world) :
  exists b, snd (process_query cfg query_id w) = Some b.
Proof.
  unfold process_query, catch.
  match goal with
  | |- context [match ?m w with _ => _ end] => destruct (m w) as [w' [b|]]
  end; eexists; reflexivity.
Qed.

(** X12.  The footprint of [process_query].  The call never lets an
    exception out.  It leaves every file as it was other than the two
    retrieval tables, the three response artifacts of the query, the
    embeddings directory and the embedding files of the pages and of the
    questions; it removes no file, keeps a document cache that was already
    filled, and only adds to the trace of actions. *)
Theorem process_query_footprint (cfg : config) (query_id : string)
  (w : world) :
  let result := process_query cfg query_id w in
  (exists b, snd result = Some b)
  /\ within ([vision_retrieval_file cfg; text_retrieval_file cfg;
              visual_file cfg query_id; textual_file cfg query_id;
              combined_file cfg query_id]
             ++ embeddings_dir cfg
                :: map (page_tensor_file cfg)
                       (VisualIndex.saved_page_ids
                          (OsPath.join (data_dir cfg) "docs")
                          (VisualIndex.pdf_files (df cfg)))
                ++ map (fun r => query_tensor_file cfg (Dataset.q_id r))
                       (df cfg))
            w (fst result).
Proof.
  split; [apply process_query_returns | apply touches_process_query].
Qed.

End Steps.

End FootprintFacts.

(* ================================================================== *)
(** * The files of a query are distinct *)
(* ================================================================== *)

Module PathFacts.
Import Orchestrator Footprint.

Lemma list_of_append (a b : string) :
  list_ascii_of_string (a ++ b) =
  (list_ascii_of_string a ++ list_ascii_of_string b)%list.
Proof.
  induction a as [|c a IH]; [reflexivity|]. cbn. now rewrite IH.
Qed.

Lemma last_app_cons {A : Type} (l1 l2 : list A) (x d : A) :
  last (l1 ++ x :: l2) d = last (x :: l2) d.
Proof.
  induction l1 as [|y l1 IH]; [reflexivity|].
  rewrite <- app_comm_cons. cbn [last].
  destruct (l1 ++ x :: l2)%list eqn:E; [|exact IH].
  now destruct l1.
Qed.

(** The last character of [a ++ String c b] is the last character of
    [String c b]. *)
Lemma last_char_append (a b : string) (c : ascii) :
  last (list_ascii_of_string (a ++ String c b)) Ascii.zero =
  last (list_ascii_of_string (String c b)) Ascii.zero.
Proof.
  rewrite list_of_append. cbn [list_ascii_of_string]. apply last_app_cons.
Qed.

Lemma csv_not_json (a b : string) : a ++ ".csv" <> b ++ ".json".
Proof.
  intros E.
  apply (f_equal (fun s => last (list_ascii_of_string s) Ascii.zero)) in E.
  rewrite !last_char_append in E. cbn in E. discriminate.
Qed.

Lemma table_file_csv (dir name : string) :
  dir ++ "/retrieval/retrieval_" ++ name ++ ".csv" =
  (dir ++ "/retrieval/retrieval_" ++ name) ++ ".csv".
Proof.
  now rewrite !PyStrFacts.append_assoc.
Qed.

Lemma response_file_json (cfg : config) (kind query_id : string) :
  response_file cfg kind query_id =
  (output_dir cfg ++ "/" ++ llm_name (llm cfg) ++ "_" ++ kind
     ++ "/response_" ++ PyStr.replace_char "/" "$" query_id) ++ ".json".
Proof.
  unfold response_file. now rewrite !PyStrFacts.append_assoc.
Qed.

Lemma response_not_vision_table (cfg : config) (kind query_id : string) :
  response_file cfg kind query_id <> vision_retrieval_file cfg.
Proof.
  rewrite response_file_json. unfold vision_retrieval_file.
  rewrite table_file_csv. intros E. symmetry in E.
  exact (csv_not_json _ _ E).
Qed.

Lemma response_not_text_table (cfg : config) (kind query_id : string) :
  response_file cfg kind query_id <> text_retrieval_file cfg.
Proof.
  rewrite response_file_json. unfold text_retrieval_file.
  rewrite table_file_csv. intros E. symmetry in E.
  exact (csv_not_json _ _ E).
Qed.

(** Two response files of one query with different kinds. *)
Lemma response_kinds_apart (cfg : config) (kind kind' query_id : string) :
  (forall x y, kind ++ x <> kind' ++ y) ->
  response_file cfg kind query_id <> response_file cfg kind' query_id.
Proof.
  intros Hkinds. unfold response_file. intros E.
  apply DocRefsFacts.append_inj_l in E. injection E as E.
  apply DocRefsFacts.append_inj_l in E. injection E as E.
  exact (Hkinds _ _ E).
Qed.

Lemma visual_not_textual (cfg : config) (query_id : string) :
  visual_file cfg query_id <> textual_file cfg query_id.
Proof.
  apply response_kinds_apart. intros x y. discriminate.
Qed.

Lemma visual_not_combined (cfg : config) (query_id : string) :
  visual_file cfg query_id <> combined_file cfg query_id.
Proof.
  apply response_kinds_apart. intros x y. discriminate.
Qed.

Lemma textual_not_combined (cfg : config) (query_id : string) :
  textual_file cfg query_id <> combined_file cfg query_id.
Proof.
  apply response_kinds_apart. intros x y. discriminate.
Qed.

Lemma length_append (a b : string) :
  String.length (a ++ b) = String.length a + String.length b.
Proof. induction a as [|c a IH]; [reflexivity|]. cbn. now rewrite IH. Qed.

Lemma append_inj_r (s : string) :
  forall a b, a ++ s = b ++ s -> a = b.
Proof.
  induction a as [|c a IH]; intros b E.
  - destruct b as [|d b]; [reflexivity|].
    apply (f_equal String.length) in E.
    rewrite !length_append in E. cbn in E. lia.
  - destruct b as [|d b].
    + apply (f_equal String.length) in E.
      rewrite !length_append in E. cbn in E. lia.
    + cbn [append] in E. injection E as -> E. f_equal. now apply IH.
Qed.

Lemma vision_table_not_text_table (cfg : config) :
  vision_retrieval_file cfg <> text_retrieval_file cfg.
Proof.
  unfold vision_retrieval_file, text_retrieval_file. intros E.
  apply DocRefsFacts.append_inj_l in E.
  apply (DocRefsFacts.append_inj_l "/retrieval/retrieval_") in E.
  destruct (vision cfg), (text cfg); discriminate.
Qed.

(** The last character of a joined path is the last character of its
    second part. *)
Lemma last_char_join (a b : string) (c : ascii) :
  last (list_ascii_of_string (OsPath.join a (String c b))) Ascii.zero =
  last (list_ascii_of_string (String c b)) Ascii.zero.
Proof.
  unfold OsPath.join.
  destruct (PyStr.startswith "/" (String c b)); [reflexivity|].
  destruct (String.eqb a "" || PyStr.endswith "/" a).
  - apply last_char_append.
  - replace (a ++ "/" ++ String c b) with ((a ++ "/") ++ String c b)
      by (now rewrite PyStrFacts.append_assoc).
    apply last_char_append.
Qed.

Lemma last_char_response (cfg : config) (kind query_id : string) :
  last (list_ascii_of_string (response_file cfg kind query_id)) Ascii.zero
  = "n"%char.
Proof. rewrite response_file_json, last_char_append. reflexivity. Qed.

Lemma last_char_table (dir name : string) :
  last (list_ascii_of_string
          (dir ++ "/retrieval/retrieval_" ++ name ++ ".csv")) Ascii.zero
  = "v"%char.
Proof. rewrite table_file_csv, last_char_append. reflexivity. Qed.

Lemma last_char_embeddings_dir (cfg : config) :
  last (list_ascii_of_string (embeddings_dir cfg)) Ascii.zero = "s"%char.
Proof. unfold embeddings_dir. rewrite last_char_join. reflexivity. Qed.

Lemma last_char_tensor (dir name : string) :
  last (list_ascii_of_string (OsPath.join dir (name ++ ".pt"))) Ascii.zero
  = "t"%char.
Proof.
  destruct name as [|c name].
  - cbn [append]. rewrite last_char_join. reflexivity.
  - cbn [append]. rewrite last_char_join.
    change (String c (name ++ ".pt")) with (String c name ++ ".pt").
    rewrite last_char_append. reflexivity.
Qed.

(** Every embedding file ends in [s] or [t]. *)
Lemma last_char_embedding_files `{VisionBackend} `{PyEval} (cfg : config)
  (p : string) :
  In p (embedding_files cfg) ->
  last (list_ascii_of_string p) Ascii.zero = "s"%char
  \/ last (list_ascii_of_string p) Ascii.zero = "t"%char.
Proof.
  unfold embedding_files. intros [<-|Hp].
  - left. apply last_char_embeddings_dir.
  - right. apply in_app_or in Hp. destruct Hp as [Hp|Hp];
      apply in_map_iff in Hp; destruct Hp as (x & <- & _).
    + apply last_char_tensor.
    + unfold query_tensor_file.
      replace ("query_" ++ Dataset.q_id x ++ ".pt")
        with (("query_" ++ Dataset.q_id x) ++ ".pt")
        by (now rewrite PyStrFacts.append_assoc).
      apply last_char_tensor.
Qed.

(** No response artifact and no retrieval table is an embedding file. *)
Lemma response_not_embedding `{VisionBackend} `{PyEval} (cfg : config)
  (kind query_id : string) :
  ~ In (response_file cfg kind query_id) (embedding_files cfg).
Proof.
  intros Hin. apply last_char_embedding_files in Hin.
  rewrite last_char_response in Hin. destruct Hin; discriminate.
Qed.

Lemma text_table_not_embedding `{VisionBackend} `{PyEval} (cfg : config) :
  ~ In (text_retrieval_file cfg) (embedding_files cfg).
Proof.
  intros Hin. apply last_char_embedding_files in Hin.
  unfold text_retrieval_file in Hin. rewrite last_char_table in Hin.
  destruct Hin; discriminate.
Qed.

Lemma vision_table_not_embedding `{VisionBackend} `{PyEval} (cfg : config) :
  ~ In (vision_retrieval_file cfg) (embedding_files cfg).
Proof.
  intros Hin. apply last_char_embedding_files in Hin.
  unfold vision_retrieval_file in Hin. rewrite last_char_table in Hin.
  destruct Hin; discriminate.
Qed.

Lemma response_not_visual_paths `{VisionBackend} `{PyEval} (cfg : config)
  (kind query_id : string) :
  ~ In (response_file cfg kind query_id) (visual_paths cfg).
Proof.
  intros [E|Hin].
  - exact (response_not_vision_table cfg kind query_id (eq_sym E)).
  - exact (response_not_embedding cfg kind query_id Hin).
Qed.

(** X13.  The files of a query.  The two retrieval tables and the three
    response artifacts of a query are five different paths, so no step of
    [process_query] overwrites what another step wrote.  The response
    artifacts of two query ids coincide exactly when the ids are equal
    after every slash is replaced by a dollar sign. *)
Theorem query_files_distinct (cfg : config) (query_id : string) :
  NoDup [vision_retrieval_file cfg; text_retrieval_file cfg;
         visual_file cfg query_id; textual_file cfg query_id;
         combined_file cfg query_id]
  /\ forall kind other_id,
       response_file cfg kind query_id = response_file cfg kind other_id
       <-> PyStr.replace_char "/" "$" query_id
           = PyStr.replace_char "/" "$" other_id.
Proof.
  split.
  - pose proof (vision_table_not_text_table cfg).
    pose proof (response_not_vision_table cfg "vision" query_id).
    pose proof (response_not_vision_table cfg "text" query_id).
    pose proof (response_not_vision_table cfg "visdmrag" query_id).
    pose proof (response_not_text_table cfg "vision" query_id).
    pose proof (response_not_text_table cfg "text" query_id).
    pose proof (response_not_text_table cfg "visdmrag" query_id).
    pose proof (visual_not_textual cfg query_id).
    pose proof (visual_not_combined cfg query_id).
    pose proof (textual_not_combined cfg query_id).
    unfold visual_file, textual_file, combined_file in *.
    repeat constructor; cbn [In]; intuition congruence.
  - intros kind other_id. split.
    + unfold response_file. intros E.
      apply DocRefsFacts.append_inj_l in E.
      apply (DocRefsFacts.append_inj_l "/") in E.
      apply DocRefsFacts.append_inj_l in E.
      apply (DocRefsFacts.append_inj_l "_") in E.
      apply DocRefsFacts.append_inj_l in E.
      apply (DocRefsFacts.append_inj_l "/response_") in E.
      now apply append_inj_r in E.
    + unfold response_file. now intros ->.
Qed.

End PathFacts.

(* ================================================================== *)
(** * The steps of a query *)
(* ================================================================== *)

Module ProcessFacts.
Import Orchestrator Footprint Artifacts.

Lemma parse_combined_output_keys (output : string) :
  PyDict.keys (Sections.parse_combined_output output) =
  ["Analysis"; "Conclusion"; "Final Answer"].
Proof.
  unfold Sections.parse_combined_output.
  now rewrite SectionsFacts.parse_lines_eq.
Qed.

(** [d.update(...)] with keys that are not section headings appends them
    after the three sections. *)
Lemma dict_update_sections (reply : string) (k1 k2 k3 k4 : json) :
  dict_update
    [("question", k1); ("document", k2); ("gt_answer", k3); ("pages", k4)]
    (sections_json (Sections.extract_sections reply))
  = (sections_json (Sections.extract_sections reply)
       ++ [("question", k1); ("document", k2); ("gt_answer", k3);
           ("pages", k4)])%list.
Proof. now rewrite SectionsFacts.extract_sections_eq. Qed.

Lemma dict_update_sections_chunks (reply : string) (k1 k2 k3 k4 k5 : json) :
  dict_update
    [("question", k1); ("document", k2); ("gt_answer", k3); ("pages", k4);
     ("chunks", k5)]
    (sections_json (Sections.extract_sections reply))
  = (sections_json (Sections.extract_sections reply)
       ++ [("question", k1); ("document", k2); ("gt_answer", k3);
           ("pages", k4); ("chunks", k5)])%list.
Proof. now rewrite SectionsFacts.extract_sections_eq. Qed.

Lemma sections_have_answer (reply : string) (more : list (string * json)) :
  has_answer
    (JObj (sections_json (Sections.extract_sections reply) ++ more)%list)
  = true.
Proof. now rewrite SectionsFacts.extract_sections_eq. Qed.

Section Combine.
Context `{Generator}.

Lemma combine_responses_run (query : string) (v t : json) (w : world) :
  combine_responses query v t w =
  if has_answer v && has_answer t then
    (mk_world (files w) (document_cache w)
              (trace w ++ [GenerateCombined query])%list,
     Some (match llm_combine query v t with
           | Some text => Sections.parse_combined_output text
           | None => combine_error
           end))
  else (w, Some combine_error).
Proof.
  unfold combine_responses, has_answer.
  destruct v as [| | | |dv|]; try reflexivity.
  destruct t as [| | | |dt|];
    try (destruct (PyDict.mem "Answer" dv); reflexivity).
  destruct (PyDict.mem "Answer" dv && PyDict.mem "Answer" dt); reflexivity.
Qed.

(** X14.  The combination step.  [combine_responses] never raises and
    always returns the three keys [Analysis], [Conclusion] and
    [Final Answer], in this order.  It writes no file.  It calls the
    backend exactly when both responses are dictionaries with an [Answer]
    key, and then returns the parsed reply, or the fixed error sections
    when the backend fails; in every other case it returns the fixed error
    sections without any call. *)
Theorem combine_responses_contract (query : string) (v t : json)
  (w : world) :
  let result := combine_responses query v t w in
  exists sections,
    snd result = Some sections
    /\ PyDict.keys sections = ["Analysis"; "Conclusion"; "Final Answer"]
    /\ files (fst result) = files w
    /\ document_cache (fst result) = document_cache w
    /\ (has_answer v && has_answer t = true ->
        trace (fst result) = (trace w ++ [GenerateCombined query])%list
        /\ sections = match llm_combine query v t with
                      | Some text => Sections.parse_combined_output text
                      | None => combine_error
                      end)
    /\ (has_answer v && has_answer t = false ->
        fst result = w /\ sections = combine_error).
Proof.
  cbv zeta. rewrite combine_responses_run.
  destruct (has_answer v && has_answer t).
  - eexists. split; [reflexivity|]. cbn [fst snd files document_cache trace].
    split; [|split; [reflexivity | split; [reflexivity | split]]].
    + destruct (llm_combine query v t); [|reflexivity].
      apply parse_combined_output_keys.
    + intros _. split; reflexivity.
    + discriminate.
  - eexists. split; [reflexivity|]. cbn [fst snd].
    split; [reflexivity | split; [reflexivity | split; [reflexivity|]]].
    split; [discriminate | intros _; split; reflexivity].
Qed.

End Combine.

Lemma combine_responses_contract_witness :
  exists sections,
    snd (@combine_responses Demo.pdf Demo.generator "title"
           (JObj [("Answer", JStr "42")]) (JObj [("Evidence", JStr "p1")])
           Demo.empty_world) = Some sections
    /\ sections = combine_error
    /\ fst (@combine_responses Demo.pdf Demo.generator "title"
              (JObj [("Answer", JStr "42")]) (JObj [("Evidence", JStr "p1")])
              Demo.empty_world) = Demo.empty_world.
Proof.
  destruct (@combine_responses_contract Demo.pdf Demo.generator "title"
              (JObj [("Answer", JStr "42")]) (JObj [("Evidence", JStr "p1")])
              Demo.empty_world)
    as (sections & Hres & _ & _ & _ & _ & Hskip).
  exists sections. split; [exact Hres|].
  destruct (Hskip eq_refl) as [Hw Hs]. split; [exact Hs | exact Hw].
Defined.

(** What [json.dump] makes of the metadata added to a response. *)
Lemma serialisable_sections (sections : PyDict.t string)
  (more : list (string * json)) :
  serialisable (JObj (sections_json sections ++ more)%list) =
  serialisable (JObj more).
Proof.
  cbn [serialisable]. rewrite forallb_app.
  replace (forallb (fun '(_, v) => serialisable v) (sections_json sections))
    with true; [reflexivity|].
  symmetry. apply forallb_forall. intros [k v] Hin.
  unfold sections_json in Hin. apply in_map_iff in Hin.
  destruct Hin as (kv & E & _). injection E as _ <-. reflexivity.
Qed.

Lemma serialisable_strings {A : Type} (f : A -> string) (l : list A) :
  forallb serialisable (map (fun x => JStr (f x)) l) = true.
Proof. induction l as [|x l IH]; [reflexivity | exact IH]. Qed.

Lemma serialisable_numbers {A : Type} (f : A -> Z) (l : list A) :
  forallb serialisable (map (fun x => JNum (f x)) l) = true.
Proof. induction l as [|x l IH]; [reflexivity | exact IH]. Qed.

Section Steps.
Context {P : PdfBackend} {V : @VisionBackend P} `{PyEval} `{Similarity}
  `{TextSplitter} `{TextRanker} `{Disk} `{Pandas} {G : @Generator P}.

Lemma retrieve_visual_contexts_returns (cfg : config) (query_id : string)
  (w : world) :
  exists contexts,
    snd (retrieve_visual_contexts cfg query_id w) = Some contexts.
Proof.
  destruct (ReadsFacts.visual_read_shape cfg query_id w)
    as (contexts & Hres & _).
  now exists contexts.
Qed.

Lemma retrieve_textual_contexts_returns (cfg : config) (query_id : string)
  (w : world) :
  exists contexts,
    snd (retrieve_textual_contexts cfg query_id w) = Some contexts.
Proof.
  destruct (TextReadFacts.textual_read_shape cfg query_id w) as [E | E];
    eexists; exact E.
Qed.

Lemma write_json_run (path : string) (value : json) (w1 : world)
  (events : list event) :
  write_json path value
    (mk_world (files w1) (document_cache w1) (trace w1 ++ events)%list)
  = written path value w1 events.
Proof.
  unfold write_json, written, write_file, bind, raise.
  destruct (can_write path); [|reflexivity].
  destruct (serialisable value); cbn [files document_cache trace];
    now rewrite <- app_assoc.
Qed.

Lemma serialisable_visual_dict (question : string) (answer : json)
  (reply : string) (contexts : list visual_context) :
  serialisable (visual_dict question answer reply contexts)
  = serialisable answer.
Proof.
  unfold visual_dict. rewrite serialisable_sections.
  cbn [serialisable forallb].
  rewrite serialisable_strings, serialisable_numbers.
  now rewrite !andb_true_r.
Qed.

Lemma serialisable_textual_dict (question : string) (answer : json)
  (reply : string) (contexts : list textual_context)
  (chunks : list string) :
  serialisable (textual_dict question answer reply contexts chunks)
  = forallb serialisable (map chunk_pdf_name contexts)
    && (serialisable answer
        && forallb serialisable (map pdf_page_number contexts)).
Proof.
  unfold textual_dict. rewrite serialisable_sections.
  cbn [serialisable forallb].
  now rewrite !andb_true_r.
Qed.

(** [visual_step], case by case. *)
Lemma visual_step_run (cfg : config) (query_id question : string)
  (answer : json) (w : world) :
  visual_step cfg query_id question answer w =
  if PyDict.mem (visual_file cfg query_id) (files w) then
    match PyDict.get (visual_file cfg query_id) (files w) with
    | Some (JsonFile j) => (w, Some (Some j))
    | _ => (w, None)
    end
  else
    let w1 := fst (retrieve_visual_contexts cfg query_id w) in
    match snd (retrieve_visual_contexts cfg query_id w) with
    | None => (w1, None)
    | Some [] => (w1, Some None)
    | Some contexts =>
        let reply :=
          match llm_visual question (map image contexts) with
          | Some text => text
          | None => "Error generating response from visual contexts."
          end in
        let dict := visual_dict question answer reply contexts in
        match written (visual_file cfg query_id) dict w1
                      [GenerateVisual question] with
        | (w2, Some _) => (w2, Some (Some dict))
        | (w2, None) => (w2, None)
        end
    end.
Proof.
  unfold visual_step, bind at 1, exists_file at 1.
  destruct (PyDict.mem (visual_file cfg query_id) (files w)) eqn:Emem;
    cbn [negb].
  - unfold bind, load_json, bind, read_file, ret, raise.
    destruct (PyDict.get (visual_file cfg query_id) (files w))
      as [[t|t|j| | |]|]; reflexivity.
  - cbv zeta. unfold bind at 1.
    destruct (retrieve_visual_contexts cfg query_id w)
      as [w1 [[|c contexts]|]]; cbn [fst snd]; try reflexivity.
    unfold generate_visual_response.
    unfold bind at 1. unfold bind at 1. unfold emit, ret at 1.
    cbv beta iota zeta. rewrite dict_update_sections.
    unfold bind. rewrite write_json_run. unfold visual_dict, ret.
    destruct (written _ _ _ _) as [w2 [u|]]; reflexivity.
Qed.

(** [textual_step], case by case. *)
Lemma textual_step_run (cfg : config) (query_id question : string)
  (answer : json) (w : world) :
  textual_step cfg query_id question answer w =
  if PyDict.mem (textual_file cfg query_id) (files w) then
    match PyDict.get (textual_file cfg query_id) (files w) with
    | Some (JsonFile j) => (w, Some (Some j))
    | _ => (w, None)
    end
  else
    let w1 := fst (retrieve_textual_contexts cfg query_id w) in
    match snd (retrieve_textual_contexts cfg query_id w) with
    | None => (w1, None)
    | Some [] => (w1, Some None)
    | Some contexts =>
        match chunk_texts contexts with
        | None => (w1, None)
        | Some chunks =>
            let reply :=
              match llm_textual question chunks with
              | Some text => text
              | None => "Error generating response from textual contexts."
              end in
            let dict :=
              textual_dict question answer reply contexts chunks in
            match written (textual_file cfg query_id) dict w1
                          [GenerateTextual question] with
            | (w2, Some _) => (w2, Some (Some dict))
            | (w2, None) => (w2, None)
            end
        end
    end.
Proof.
  unfold textual_step, bind at 1, exists_file at 1.
  destruct (PyDict.mem (textual_file cfg query_id) (files w)) eqn:Emem;
    cbn [negb].
  - unfold bind, load_json, bind, read_file, ret, raise.
    destruct (PyDict.get (textual_file cfg query_id) (files w))
      as [[t|t|j| | |]|]; reflexivity.
  - cbv zeta. unfold bind at 1.
    destruct (retrieve_textual_contexts cfg query_id w)
      as [w1 [[|c contexts]|]]; cbn [fst snd]; try reflexivity.
    unfold generate_textual_response.
    destruct (chunk_texts (c :: contexts)) as [chunks|].
    + unfold bind at 1. unfold bind at 1. unfold emit, ret at 1.
      cbv beta iota zeta. rewrite dict_update_sections_chunks.
      unfold bind. rewrite write_json_run. unfold textual_dict, ret.
      destruct (written _ _ _ _) as [w2 [u|]]; reflexivity.
    + unfold bind, ret, raise. reflexivity.
Qed.

(** X15.  The visual step of a query whose visual artifact is absent.  With
    no context retrieved the step stops after the retrieval: it yields no
    response, calls no backend and writes no artifact.  With contexts it
    calls the backend once and then writes the artifact: the three sections
    extracted from the reply, followed by the question, the ids of the
    pages used, the ground truth and the page numbers.  The encoder takes
    all of these but possibly the ground truth, which is whatever the
    answer cell evaluated to.  If it takes the ground truth, the artifact
    is written in full, counts as a response and has an [Answer] key; when
    the backend failed it is written all the same, with three empty
    sections.  If it rejects the ground truth, the file has been opened and
    is left damaged, and the step raises.  If the file cannot be opened,
    the step raises and no file changes. *)
Theorem visual_step_outcomes (cfg : config) (query_id question : string)
  (answer : json) (w : world) (contexts : list visual_context) :
  PyDict.mem (visual_file cfg query_id) (files w) = false ->
  snd (retrieve_visual_contexts cfg query_id w) = Some contexts ->
  let w1 := fst (retrieve_visual_contexts cfg query_id w) in
  let result := visual_step cfg query_id question answer w in
  let reply :=
    match llm_visual question (map image contexts) with
    | Some text => text
    | None => "Error generating response from visual contexts."
    end in
  let dict :=
    JObj (sections_json (Sections.extract_sections reply)
            ++ [("question", JStr question);
                ("document",
                 JList (map (fun c => JStr (document_id c)) contexts));
                ("gt_answer", answer);
                ("pages",
                 JList (map (fun c => JNum (page_number c)) contexts))])%list
  in
  (contexts = [] -> result = (w1, Some None))
  /\ serialisable dict = serialisable answer
  /\ (contexts <> [] -> can_write (visual_file cfg query_id) = true ->
      serialisable answer = true ->
      snd result = Some (Some dict)
      /\ files (fst result) =
         PyDict.set (visual_file cfg query_id) (JsonFile dict) (files w1)
      /\ trace (fst result) =
         (trace w1 ++ [GenerateVisual question;
                       WriteFile (visual_file cfg query_id)])%list
      /\ missing (Some dict) = false
      /\ has_answer dict = true)
  /\ (contexts <> [] -> can_write (visual_file cfg query_id) = true ->
      serialisable answer = false ->
      snd result = None
      /\ files (fst result) =
         PyDict.set (visual_file cfg query_id) Damaged (files w1)
      /\ trace (fst result) =
         (trace w1 ++ [GenerateVisual question;
                       WriteFile (visual_file cfg query_id)])%list)
  /\ (contexts <> [] -> can_write (visual_file cfg query_id) = false ->
      snd result = None
      /\ files (fst result) = files w1
      /\ trace (fst result) = (trace w1 ++ [GenerateVisual question])%list)
  /\ (llm_visual question (map image contexts) = None ->
      sections_json (Sections.extract_sections reply) =
      [("Evidence", JStr ""); ("Chain of Thought", JStr "");
       ("Answer", JStr "")]).
Proof.
  intros Habsent Hres w1 result reply dict.
  assert (Hser : serialisable dict = serialisable answer)
    by apply (serialisable_visual_dict question answer reply contexts).
  subst result. rewrite visual_step_run, Habsent. cbv zeta. rewrite Hres.
  fold w1 reply. change (visual_dict question answer reply contexts) with dict.
  unfold written. rewrite Hser.
  split; [|split; [reflexivity|split; [|split; [|split]]]].
  - now intros ->.
  - intros Hsome Hwrite Hdump. destruct contexts as [|c contexts]; [easy|].
    rewrite Hwrite, Hdump. cbn [fst snd files trace].
    split; [reflexivity|]. split; [reflexivity|]. split; [reflexivity|].
    split; [|apply sections_have_answer].
    subst dict. now rewrite SectionsFacts.extract_sections_eq.
  - intros Hsome Hwrite Hdump. destruct contexts as [|c contexts]; [easy|].
    rewrite Hwrite, Hdump. cbn [fst snd files trace]. now repeat split.
  - intros Hsome Hwrite. destruct contexts as [|c contexts]; [easy|].
    rewrite Hwrite. cbn [fst snd files trace]. now repeat split.
  - intros Hfail. subst reply. rewrite Hfail. reflexivity.
Qed.

(** X16.  The textual step of a query whose textual artifact is absent.
    With no context retrieved the step stops after the retrieval.  With
    contexts of which some chunk did not come back from the table as text,
    the step calls no backend, writes nothing and raises.  Otherwise it
    calls the backend once with the chunks and then writes the artifact:
    the three sections extracted from the reply, followed by the question,
    the document names as they came back from the table, the ground truth,
    the page numbers as they came back from the table and the chunks
    joined by newlines.  The encoder takes these when it takes every
    document name, the ground truth and every page number: then the
    artifact is written in full, counts as a response and has an [Answer]
    key.  When it rejects one of them, the file has been opened and is left
    damaged, and the step raises.  If the file cannot be opened, the step
    raises and no file changes. *)
Theorem textual_step_outcomes (cfg : config) (query_id question : string)
  (answer : json) (w : world) (contexts : list textual_context) :
  PyDict.mem (textual_file cfg query_id) (files w) = false ->
  snd (retrieve_textual_contexts cfg query_id w) = Some contexts ->
  let w1 := fst (retrieve_textual_contexts cfg query_id w) in
  let result := textual_step cfg query_id question answer w in
  let reply chunks :=
    match llm_textual question chunks with
    | Some text => text
    | None => "Error generating response from textual contexts."
    end in
  let dict chunks :=
    JObj (sections_json (Sections.extract_sections (reply chunks))
            ++ [("question", JStr question);
                ("document", JList (map chunk_pdf_name contexts));
                ("gt_answer", answer);
                ("pages", JList (map pdf_page_number contexts));
                ("chunks", JStr (PyStr.join DocCache.nl chunks))])%list
  in
  let dumps :=
    forallb serialisable (map chunk_pdf_name contexts)
    && (serialisable answer
        && forallb serialisable (map pdf_page_number contexts)) in
  (contexts = [] -> result = (w1, Some None))
  /\ (contexts <> [] -> chunk_texts contexts = None ->
      result = (w1, None))
  /\ (forall chunks,
        contexts <> [] -> chunk_texts contexts = Some chunks ->
        serialisable (dict chunks) = dumps
        /\ (can_write (textual_file cfg query_id) = true ->
            dumps = true ->
            snd result = Some (Some (dict chunks))
            /\ files (fst result) =
               PyDict.set (textual_file cfg query_id)
                          (JsonFile (dict chunks)) (files w1)
            /\ trace (fst result) =
               (trace w1 ++ [GenerateTextual question;
                             WriteFile (textual_file cfg query_id)])%list
            /\ missing (Some (dict chunks)) = false
            /\ has_answer (dict chunks) = true)
        /\ (can_write (textual_file cfg query_id) = true ->
            dumps = false ->
            snd result = None
            /\ files (fst result) =
               PyDict.set (textual_file cfg query_id) Damaged (files w1)
            /\ trace (fst result) =
               (trace w1 ++ [GenerateTextual question;
                             WriteFile (textual_file cfg query_id)])%list)
        /\ (can_write (textual_file cfg query_id) = false ->
            snd result = None
            /\ files (fst result) = files w1
            /\ trace (fst result) =
               (trace w1 ++ [GenerateTextual question])%list)
        /\ (llm_textual question chunks = None ->
            sections_json (Sections.extract_sections (reply chunks)) =
            [("Evidence", JStr ""); ("Chain of Thought", JStr "");
             ("Answer", JStr "")]))
  /\ (forall chunks,
        chunk_texts contexts = Some chunks <->
        map chunk contexts = map JStr chunks).
Proof.
  intros Habsent Hres w1 result reply dict dumps.
  subst result. rewrite textual_step_run, Habsent. cbv zeta. rewrite Hres.
  fold w1. split; [|split; [|split]].
  - now intros ->.
  - intros Hsome Hnone. destruct contexts as [|c contexts]; [easy|].
    now rewrite Hnone.
  - intros chunks Hsome Hchunks.
    assert (Hser : serialisable (dict chunks) = dumps)
      by apply (serialisable_textual_dict question answer (reply chunks)
                  contexts chunks).
    destruct contexts as [|c contexts]; [easy|].
    rewrite Hchunks. fold (reply chunks).
    change (textual_dict question answer (reply chunks) (c :: contexts)
                         chunks) with (dict chunks).
    unfold written. rewrite Hser.
    split; [reflexivity|]. split; [|split; [|split]].
    + intros Hwrite Hdump. rewrite Hwrite, Hdump. cbn [fst snd files trace].
      split; [reflexivity|]. split; [reflexivity|]. split; [reflexivity|].
      split; [|apply sections_have_answer].
      subst dict. cbv beta.
      now rewrite SectionsFacts.extract_sections_eq.
    + intros Hwrite Hdump. rewrite Hwrite, Hdump. cbn [fst snd files trace].
      now repeat split.
    + intros Hwrite. rewrite Hwrite. cbn [fst snd files trace].
      now repeat split.
    + intros Hfail. subst reply. cbv beta. rewrite Hfail. reflexivity.
  - intros chunks. unfold chunk_texts. clear.
    revert chunks. induction contexts as [|c contexts IH]; intros chunks.
    + cbn. split.
      * now intros [= <-].
      * destruct chunks; [reflexivity | discriminate].
    + cbn [map PyList.all_some].
      destruct (chunk c) as [|s| | | |]; try (split; [discriminate|]);
        try (destruct chunks; discriminate).
      destruct (PyList.all_some _) as [rest|] eqn:Erest.
      * split.
        -- intros [= <-]. cbn [map]. f_equal. now apply IH.
        -- destruct chunks as [|s' chunks]; [discriminate|].
           cbn [map]. intros [= -> E]. apply IH in E.
           now injection E as ->.
      * split; [discriminate|].
        destruct chunks as [|s' chunks]; [discriminate|].
        cbn [map]. intros [= -> E]. apply IH in E. discriminate.
Qed.

(** A path outside the footprint of the visual step keeps its content. *)
Lemma visual_step_keeps (cfg : config) (query_id question : string)
  (answer : json) (w : world) (p : string) :
  ~ In p (visual_paths cfg) -> p <> visual_file cfg query_id ->
  PyDict.get p (files (fst (visual_step cfg query_id question answer w)))
  = PyDict.get p (files w).
Proof.
  intros Hout Hne.
  destruct (FootprintFacts.touches_visual_step cfg query_id question answer w)
    as (Hg & _).
  apply Hg. intros [E|Hin]; [now apply Hne | now apply Hout].
Qed.

Lemma textual_step_keeps (cfg : config) (query_id question : string)
  (answer : json) (w : world) (p : string) :
  p <> text_retrieval_file cfg -> p <> textual_file cfg query_id ->
  PyDict.get p (files (fst (textual_step cfg query_id question answer w)))
  = PyDict.get p (files w).
Proof.
  intros H1' H2'.
  destruct (FootprintFacts.touches_textual_step cfg query_id question answer
              w) as (Hg & _).
  apply Hg. intros [<-|[<-|[]]]; contradiction.
Qed.

(** What the world holds at the path after a write of JSON that went
    through. *)
Lemma written_on_disk (path : string) (value : json) (w1 : world)
  (events : list event) (u : unit) :
  snd (written path value w1 events) = Some u ->
  PyDict.get path (files (fst (written path value w1 events)))
  = Some (JsonFile value)
  /\ serialisable value = true.
Proof.
  unfold written. destruct (can_write path); [|discriminate].
  destruct (serialisable value); [|discriminate].
  intros _. cbn [fst files]. split; [|reflexivity].
  apply PyDictFacts.get_set_same.
Qed.

(** A write of JSON that did not go through leaves the file as it was, or
    damaged. *)
Lemma written_failed (path : string) (value : json) (w1 : world)
  (events : list event) :
  snd (written path value w1 events) = None ->
  PyDict.get path (files (fst (written path value w1 events)))
  = PyDict.get path (files w1)
  \/ PyDict.get path (files (fst (written path value w1 events)))
     = Some Damaged.
Proof.
  unfold written. destruct (can_write path); [|now left].
  destruct (serialisable value); [discriminate|].
  intros _. right. cbn [fst files]. apply PyDictFacts.get_set_same.
Qed.

(** A response the visual step returns is on disk when it returns. *)
Lemma visual_step_on_disk (cfg : config) (query_id question : string)
  (answer : json) (w : world) (v : json) :
  snd (visual_step cfg query_id question answer w) = Some (Some v) ->
  PyDict.get (visual_file cfg query_id)
             (files (fst (visual_step cfg query_id question answer w)))
  = Some (JsonFile v).
Proof.
  rewrite visual_step_run.
  destruct (PyDict.mem (visual_file cfg query_id) (files w)).
  - destruct (PyDict.get (visual_file cfg query_id) (files w))
      as [[t|t|j| | |]|] eqn:Eget; cbn [fst snd]; try discriminate.
    now intros [= ->].
  - cbv zeta.
    destruct (snd (retrieve_visual_contexts cfg query_id w))
      as [[|c contexts]|]; cbn [fst snd]; try discriminate.
    match goal with
    | |- context [written ?p ?d ?w1 ?e] =>
        pose proof (written_on_disk p d w1 e) as Hdisk;
        destruct (written p d w1 e) as [w2 [u|]]
    end; cbn [fst snd] in *; [|discriminate].
    intros [= <-]. now apply (Hdisk u).
Qed.

Lemma textual_step_on_disk (cfg : config) (query_id question : string)
  (answer : json) (w : world) (t : json) :
  snd (textual_step cfg query_id question answer w) = Some (Some t) ->
  PyDict.get (textual_file cfg query_id)
             (files (fst (textual_step cfg query_id question answer w)))
  = Some (JsonFile t).
Proof.
  rewrite textual_step_run.
  destruct (PyDict.mem (textual_file cfg query_id) (files w)).
  - destruct (PyDict.get (textual_file cfg query_id) (files w))
      as [[x|x|j| | |]|] eqn:Eget; cbn [fst snd]; try discriminate.
    now intros [= ->].
  - cbv zeta.
    destruct (snd (retrieve_textual_contexts cfg query_id w))
      as [[|c contexts]|]; cbn [fst snd]; try discriminate.
    destruct (chunk_texts (c :: contexts)) as [chunks|];
      cbn [fst snd]; [|discriminate].
    match goal with
    | |- context [written ?p ?d ?w1 ?e] =>
        pose proof (written_on_disk p d w1 e) as Hdisk;
        destruct (written p d w1 e) as [w2 [u|]]
    end; cbn [fst snd] in *; [|discriminate].
    intros [= <-]. now apply (Hdisk u).
Qed.

Lemma serialisable_combined_dict (question : string) (answer : json)
  (sections : PyDict.t string) (v t : json) :
  serialisable (combined_dict question answer sections v t)
  = serialisable answer && (serialisable v && serialisable t).
Proof.
  unfold combined_dict. cbn [serialisable forallb].
  now rewrite !andb_true_r.
Qed.

(** [process_query] for a query of the dataset, case by case. *)
Lemma process_query_run (cfg : config) (query_id : string) (w : world)
  (query_row : Dataset.row) :
  VisualIndex.find_row query_id (df cfg) = Some query_row ->
  let question := Dataset.question query_row in
  let answer :=
    match eval_answer (Dataset.answer query_row) with
    | Some value => value
    | None => JStr (Dataset.answer query_row)
    end in
  process_query cfg query_id w =
  if PyDict.mem (combined_file cfg query_id) (files w) then (w, Some true)
  else
    match visual_step cfg query_id question answer w with
    | (w1, None) => (w1, Some false)
    | (w1, Some v) =>
        match textual_step cfg query_id question answer w1 with
        | (w2, None) => (w2, Some false)
        | (w2, Some t) =>
            if missing v || missing t then (w2, Some false)
            else
              let events :=
                if has_answer (or_null v) && has_answer (or_null t)
                then [GenerateCombined question] else [] in
              match written (combined_file cfg query_id)
                      (combined_dict question answer
                         (combined_sections question (or_null v) (or_null t))
                         (or_null v) (or_null t))
                      w2 events with
              | (w3, Some _) => (w3, Some true)
              | (w3, None) => (w3, Some false)
              end
        end
    end.
Proof.
  intros Hrow question answer.
  unfold process_query, catch. rewrite Hrow. cbv zeta.
  fold question. fold answer.
  unfold bind at 1, exists_file at 1.
  destruct (PyDict.mem (combined_file cfg query_id) (files w));
    [reflexivity|].
  unfold bind at 1.
  destruct (visual_step cfg query_id question answer w) as [w1 [v|]];
    [|reflexivity].
  unfold bind at 1.
  destruct (textual_step cfg query_id question answer w1) as [w2 [t|]];
    [|reflexivity].
  destruct (missing v || missing t); [reflexivity|].
  unfold bind at 1. rewrite combine_responses_run.
  unfold combined_sections, combined_dict.
  destruct (has_answer (or_null v) && has_answer (or_null t)).
  - unfold bind. rewrite write_json_run.
    destruct (written _ _ _ _) as [w3 [u|]]; reflexivity.
  - replace w2 with (mk_world (files w2) (document_cache w2)
                              (trace w2 ++ [])%list) at 1
      by (rewrite app_nil_r; now destruct w2).
    unfold bind. rewrite write_json_run.
    destruct (written _ _ _ _) as [w3 [u|]]; reflexivity.
Qed.

Lemma missing_false (r : option json) :
  missing r = false -> exists j, r = Some j /\ json_truthy j = true.
Proof.
  destruct r as [j|]; [|discriminate]. cbn. intros E.
  exists j. split; [reflexivity|]. now apply negb_false_iff.
Qed.

(** The combined artifact after a call that found none: written in full
    when the call returns [True]; absent or damaged when it returns
    [False]. *)
Lemma process_query_artifact (cfg : config) (query_id : string) (w : world)
  (query_row : Dataset.row) :
  VisualIndex.find_row query_id (df cfg) = Some query_row ->
  PyDict.mem (combined_file cfg query_id) (files w) = false ->
  let result := process_query cfg query_id w in
  (snd result = Some true ->
   exists j,
     PyDict.get (combined_file cfg query_id) (files (fst result))
       = Some (JsonFile j)
     /\ serialisable j = true)
  /\ (snd result = Some false ->
      PyDict.get (combined_file cfg query_id) (files (fst result)) = None
      \/ PyDict.get (combined_file cfg query_id) (files (fst result))
         = Some Damaged).
Proof.
  intros Hrow Hnew result. subst result.
  rewrite (process_query_run cfg query_id w _ Hrow). cbv zeta.
  set (question := Dataset.question query_row).
  set (answer := match eval_answer (Dataset.answer query_row) with
                 | Some value => value
                 | None => JStr (Dataset.answer query_row)
                 end).
  rewrite Hnew.
  assert (Hnone : PyDict.get (combined_file cfg query_id) (files w) = None).
  { unfold PyDict.mem in Hnew.
    now destruct (PyDict.get (combined_file cfg query_id) (files w)). }
  pose proof (visual_step_keeps cfg query_id question answer w
                (combined_file cfg query_id)
                (PathFacts.response_not_visual_paths cfg _ _)
                (fun E => PathFacts.visual_not_combined cfg query_id
                            (eq_sym E))) as Hv.
  destruct (visual_step cfg query_id question answer w) as [w1 v].
  cbn [fst] in Hv. rewrite Hnone in Hv.
  destruct v as [v|];
    [|cbn [fst snd]; split; [discriminate | intros _; now left]].
  pose proof (textual_step_keeps cfg query_id question answer w1
                (combined_file cfg query_id)
                (PathFacts.response_not_text_table cfg _ _)
                (fun E => PathFacts.textual_not_combined cfg query_id
                            (eq_sym E))) as Ht.
  destruct (textual_step cfg query_id question answer w1) as [w2 t].
  cbn [fst] in Ht. rewrite Hv in Ht.
  destruct t as [t|];
    [|cbn [fst snd]; split; [discriminate | intros _; now left]].
  destruct (missing v || missing t);
    [cbn [fst snd]; split; [discriminate | intros _; now left]|].
  match goal with
  | |- context [written ?p ?d ?w0 ?e] =>
      pose proof (written_on_disk p d w0 e) as Hdisk;
      pose proof (written_failed p d w0 e) as Hfail;
      destruct (written p d w0 e) as [w3 [u|]]
  end; cbn [fst snd] in *.
  - split; [|discriminate]. intros _. eexists. now apply (Hdisk u).
  - split; [discriminate|]. intros _.
    destruct (Hfail eq_refl) as [E|E]; [left; now rewrite E | now right].
Qed.

(** X17.  Success and the combined artifact.  For a query of the dataset,
    a call of [process_query] that returns [True] leaves the combined
    artifact on disk.  If the artifact was not there before the call, a
    call that returns [True] has written it in full, and a call that
    returns [False] leaves it absent or, when the encoder rejected a value
    after the file had been opened, damaged.  Whenever the combined file is
    on disk after a call, damaged or not, the next call returns [True] and
    changes nothing. *)
Theorem process_query_success_and_artifact (cfg : config)
  (query_id : string) (w : world) (query_row : Dataset.row) :
  VisualIndex.find_row query_id (df cfg) = Some query_row ->
  let result := process_query cfg query_id w in
  let artifact :=
    PyDict.get (combined_file cfg query_id) (files (fst result)) in
  (snd result = Some true -> artifact <> None)
  /\ (PyDict.mem (combined_file cfg query_id) (files w) = false ->
      (snd result = Some true ->
       exists j, artifact = Some (JsonFile j) /\ serialisable j = true)
      /\ (snd result = Some false ->
          artifact = None \/ artifact = Some Damaged))
  /\ (artifact <> None ->
      process_query cfg query_id (fst result) = (fst result, Some true)).
Proof.
  intros Hrow result artifact.
  assert (Hdone : forall w0,
    PyDict.mem (combined_file cfg query_id) (files w0) = true ->
    process_query cfg query_id w0 = (w0, Some true)).
  { intros w0 Hm. rewrite (process_query_run cfg query_id w0 _ Hrow).
    cbv zeta. now rewrite Hm. }
  split; [|split].
  - destruct (PyDict.mem (combined_file cfg query_id) (files w)) eqn:Edone.
    + intros _. subst artifact result. rewrite (Hdone w Edone). cbn [fst].
      unfold PyDict.mem in Edone.
      now destruct (PyDict.get (combined_file cfg query_id) (files w)).
    + intros Htrue.
      destruct (process_query_artifact cfg query_id w query_row Hrow Edone)
        as [Hyes _].
      destruct (Hyes Htrue) as (j & E & _). subst artifact result.
      rewrite E. discriminate.
  - intros Hnew.
    exact (process_query_artifact cfg query_id w query_row Hrow Hnew).
  - intros Hthere. apply Hdone. unfold PyDict.mem. subst artifact.
    now destruct (PyDict.get (combined_file cfg query_id)
                             (files (fst result))).
Qed.

(** X18.  What the combined artifact holds.  When a query of the dataset
    had no combined artifact and [process_query] returns [True], the
    artifact written holds, in this order, the question, the final answer,
    the ground truth, the analysis, the conclusion and the two responses.
    The two responses are non-empty and are the contents of the visual and
    the textual artifact on disk after the call, and the three texts are
    the sections [combine_responses] returns for them. *)
Theorem combined_artifact_content (cfg : config) (query_id : string)
  (w : world) (query_row : Dataset.row) :
  VisualIndex.find_row query_id (df cfg) = Some query_row ->
  PyDict.mem (combined_file cfg query_id) (files w) = false ->
  let result := process_query cfg query_id w in
  let question := Dataset.question query_row in
  let answer :=
    match eval_answer (Dataset.answer query_row) with
    | Some value => value
    | None => JStr (Dataset.answer query_row)
    end in
  snd result = Some true ->
  exists v t sections,
    PyDict.get (visual_file cfg query_id) (files (fst result))
      = Some (JsonFile v)
    /\ PyDict.get (textual_file cfg query_id) (files (fst result))
       = Some (JsonFile t)
    /\ json_truthy v = true
    /\ json_truthy t = true
    /\ (forall w0, snd (combine_responses question v t w0) = Some sections)
    /\ PyDict.get (combined_file cfg query_id) (files (fst result))
       = Some (JsonFile
                 (JObj [("question", JStr question);
                        ("answer",
                         JStr (get_or_empty "Final Answer" sections));
                        ("gt_answer", answer);
                        ("analysis",
                         JStr (get_or_empty "Analysis" sections));
                        ("conclusion",
                         JStr (get_or_empty "Conclusion" sections));
                        ("response1", v);
                        ("response2", t)])).
Proof.
  intros Hrow Hnew result question answer.
  subst result. rewrite (process_query_run cfg query_id w _ Hrow).
  cbv zeta. fold question. fold answer. rewrite Hnew.
  pose proof (visual_step_on_disk cfg query_id question answer w) as Hvd.
  destruct (visual_step cfg query_id question answer w) as [w1 v].
  cbn [fst snd] in Hvd.
  destruct v as [v|]; [|discriminate].
  pose proof (textual_step_on_disk cfg query_id question answer w1) as Htd.
  pose proof (textual_step_keeps cfg query_id question answer w1
                (visual_file cfg query_id)
                (PathFacts.response_not_text_table cfg _ _)
                (PathFacts.visual_not_textual cfg query_id)) as Hkeep.
  destruct (textual_step cfg query_id question answer w1) as [w2 t].
  cbn [fst snd] in Htd, Hkeep.
  destruct t as [t|]; [|discriminate].
  destruct (missing v || missing t) eqn:Emiss; [discriminate|].
  apply orb_false_iff in Emiss. destruct Emiss as [Emv Emt].
  apply missing_false in Emv. destruct Emv as (jv & -> & Hjv).
  apply missing_false in Emt. destruct Emt as (jt & -> & Hjt).
  cbn [or_null]. unfold written.
  destruct (can_write (combined_file cfg query_id)); [|discriminate].
  destruct (serialisable _); [|discriminate].
  intros _. cbn [fst files].
  exists jv, jt, (combined_sections question jv jt).
  split; [|split; [|split; [exact Hjv | split; [exact Hjt | split]]]].
  - rewrite PyDictFacts.get_set_other
      by apply PathFacts.visual_not_combined.
    rewrite Hkeep. now apply Hvd.
  - rewrite PyDictFacts.get_set_other
      by apply PathFacts.textual_not_combined.
    now apply Htd.
  - intros w0. rewrite combine_responses_run. unfold combined_sections.
    destruct (has_answer jv && has_answer jt); reflexivity.
  - rewrite PyDictFacts.get_set_same. reflexivity.
Qed.

(** X19.  Resuming from the per-modality artifacts.  When the visual and
    the textual artifact of a dataset query are on disk and the combined
    one is not, [process_query] retrieves nothing, builds no index and
    generates no per-modality response.  If either artifact holds an empty
    value the call returns [False] and does nothing at all.  Otherwise it
    combines the two and opens the combined file.  If the file cannot be
    opened the call returns [False] and no file changes.  If the encoder
    takes the ground truth and the two responses, the artifact is written
    in full and the call returns [True]; if it rejects one of them, the
    file is left damaged and the call returns [False].  In both cases no
    other file is touched. *)
Theorem process_query_resumes (cfg : config) (query_id : string)
  (w : world) (query_row : Dataset.row) (v t : json) :
  VisualIndex.find_row query_id (df cfg) = Some query_row ->
  PyDict.mem (combined_file cfg query_id) (files w) = false ->
  PyDict.get (visual_file cfg query_id) (files w) = Some (JsonFile v) ->
  PyDict.get (textual_file cfg query_id) (files w) = Some (JsonFile t) ->
  let result := process_query cfg query_id w in
  let question := Dataset.question query_row in
  let answer :=
    match eval_answer (Dataset.answer query_row) with
    | Some value => value
    | None => JStr (Dataset.answer query_row)
    end in
  let combining :=
    if has_answer v && has_answer t then [GenerateCombined question]
    else [] in
  let sections :=
    if has_answer v && has_answer t then
      match llm_combine question v t with
      | Some text => Sections.parse_combined_output text
      | None => combine_error
      end
    else combine_error in
  let dict :=
    JObj [("question", JStr question);
          ("answer", JStr (get_or_empty "Final Answer" sections));
          ("gt_answer", answer);
          ("analysis", JStr (get_or_empty "Analysis" sections));
          ("conclusion", JStr (get_or_empty "Conclusion" sections));
          ("response1", v);
          ("response2", t)] in
  let dumps := serialisable answer && (serialisable v && serialisable t) in
  (json_truthy v && json_truthy t = false -> result = (w, Some false))
  /\ (json_truthy v && json_truthy t = true ->
      can_write (combined_file cfg query_id) = true ->
      trace (fst result) =
        (trace w ++ combining
           ++ [WriteFile (combined_file cfg query_id)])%list
      /\ document_cache (fst result) = document_cache w
      /\ (forall p, p <> combined_file cfg query_id ->
                    PyDict.get p (files (fst result))
                    = PyDict.get p (files w))
      /\ (dumps = true ->
          snd result = Some true
          /\ PyDict.get (combined_file cfg query_id) (files (fst result))
             = Some (JsonFile dict))
      /\ (dumps = false ->
          snd result = Some false
          /\ PyDict.get (combined_file cfg query_id) (files (fst result))
             = Some Damaged))
  /\ (json_truthy v && json_truthy t = true ->
      can_write (combined_file cfg query_id) = false ->
      snd result = Some false
      /\ files (fst result) = files w
      /\ trace (fst result) = (trace w ++ combining)%list).
Proof.
  intros Hrow Hnew Hv Ht result question answer combining sections dict
    dumps.
  subst result. rewrite (process_query_run cfg query_id w _ Hrow).
  cbv zeta. fold question answer. rewrite Hnew.
  rewrite visual_step_run.
  assert (Hmv : PyDict.mem (visual_file cfg query_id) (files w) = true)
    by (unfold PyDict.mem; now rewrite Hv).
  assert (Hmt : PyDict.mem (textual_file cfg query_id) (files w) = true)
    by (unfold PyDict.mem; now rewrite Ht).
  rewrite Hmv, Hv. rewrite textual_step_run. rewrite Hmt, Ht.
  cbn [missing or_null]. rewrite <- negb_andb.
  destruct (json_truthy v && json_truthy t); cbn [negb].
  - split; [discriminate|].
    change (combined_dict question answer (combined_sections question v t)
                          v t) with dict.
    fold combining. unfold written.
    assert (Hser : serialisable dict = dumps)
      by apply (serialisable_combined_dict question answer sections v t).
    rewrite Hser.
    destruct (can_write (combined_file cfg query_id));
      (split; intros _ Hw; [|try discriminate]); try discriminate.
    + destruct dumps; cbn [fst snd files document_cache trace];
        (split; [reflexivity|]); (split; [reflexivity|]);
        (split; [intros p Hp; now apply PyDictFacts.get_set_other|]);
        (split; intros Hd; try discriminate Hd);
        (split; [reflexivity | apply PyDictFacts.get_set_same]).
    + cbn [fst snd files trace]. now repeat split.
  - split; [reflexivity|]. split; discriminate.
Qed.

End Steps.

Lemma visual_step_outcomes_witness :
  exists dict,
    snd (@visual_step Demo.pdf Demo.vision Demo.evaluator Demo.disk
           Demo.pandas Demo.generator Demo.cfg "q1" "alpha beta" (JNum 42)
           Demo.empty_world) = Some (Some dict)
    /\ has_answer dict = true.
Proof.
  pose proof
    (@visual_step_outcomes Demo.pdf Demo.vision Demo.evaluator Demo.disk
       Demo.pandas Demo.generator Demo.cfg "q1" "alpha beta" (JNum 42)
       Demo.empty_world
       (match snd (@retrieve_visual_contexts Demo.pdf Demo.vision
                     Demo.evaluator Demo.disk Demo.pandas Demo.cfg "q1"
                     Demo.empty_world) with
        | Some contexts => contexts
        | None => []
        end)
       eq_refl eq_refl) as Hcases.
  cbv zeta in Hcases. destruct Hcases as (_ & _ & Hwrite & _).
  destruct Hwrite as (Hres & _ & _ & _ & Hans);
    [vm_compute; discriminate | reflexivity | reflexivity |].
  eexists. split; [exact Hres | exact Hans].
Defined.

(** A ground truth the encoder rejects: the artifact is left damaged and
    the step raises. *)
Example visual_step_damaged :
  let result :=
    @visual_step Demo.pdf Demo.vision Demo.evaluator Demo.disk Demo.pandas
      Demo.generator Demo.cfg "q1" "alpha beta" (JOther false true)
      Demo.empty_world in
  snd result = None
  /\ PyDict.get (visual_file Demo.cfg "q1") (files (fst result))
     = Some Damaged.
Proof. vm_compute. split; reflexivity. Qed.

Lemma textual_step_outcomes_witness :
  exists dict,
    snd (@textual_step Demo.pdf Demo.evaluator Demo.similarity Demo.splitter
           Demo.ranker Demo.disk Demo.pandas Demo.generator Demo.cfg "q1"
           "alpha beta" (JNum 42) Demo.empty_world) = Some (Some dict)
    /\ has_answer dict = true.
Proof.
  pose proof
    (@textual_step_outcomes Demo.pdf Demo.evaluator Demo.similarity
       Demo.splitter Demo.ranker Demo.disk Demo.pandas Demo.generator
       Demo.cfg "q1" "alpha beta" (JNum 42) Demo.empty_world
       (match snd (@retrieve_textual_contexts Demo.pdf Demo.evaluator
                     Demo.similarity Demo.splitter Demo.ranker Demo.disk
                     Demo.pandas Demo.cfg "q1" Demo.empty_world) with
        | Some contexts => contexts
        | None => []
        end)
       eq_refl eq_refl) as Hcases.
  cbv zeta in Hcases. destruct Hcases as (_ & _ & Hwrite & _).
  destruct (Hwrite ["alpha beta"]) as (_ & Hgo & _);
    [vm_compute; discriminate | reflexivity |].
  destruct Hgo as (Hres & _ & _ & _ & Hans); [reflexivity | reflexivity |].
  eexists. split; [exact Hres | exact Hans].
Defined.

Lemma process_query_success_and_artifact_witness :
  let w' :=
    fst (@process_query Demo.pdf Demo.vision Demo.evaluator Demo.similarity
           Demo.splitter Demo.ranker Demo.disk Demo.pandas Demo.generator
           Demo.cfg "q1" Demo.empty_world) in
  @process_query Demo.pdf Demo.vision Demo.evaluator Demo.similarity
    Demo.splitter Demo.ranker Demo.disk Demo.pandas Demo.generator Demo.cfg
    "q1" w'
  = (w', Some true).
Proof.
  apply (@process_query_success_and_artifact Demo.pdf Demo.vision
           Demo.evaluator Demo.similarity Demo.splitter Demo.ranker Demo.disk
           Demo.pandas Demo.generator Demo.cfg "q1" Demo.empty_world
           Demo.query1 eq_refl).
  vm_compute. discriminate.
Defined.

Lemma combined_artifact_content_witness :
  let w' :=
    fst (@process_query Demo.pdf Demo.vision Demo.evaluator Demo.similarity
           Demo.splitter Demo.ranker Demo.disk Demo.pandas Demo.generator
           Demo.cfg "q1" Demo.empty_world) in
  exists v t,
    PyDict.get (visual_file Demo.cfg "q1") (files w') = Some (JsonFile v)
    /\ PyDict.get (textual_file Demo.cfg "q1") (files w') = Some (JsonFile t)
    /\ json_truthy v = true
    /\ json_truthy t = true.
Proof.
  destruct (@combined_artifact_content Demo.pdf Demo.vision Demo.evaluator
              Demo.similarity Demo.splitter Demo.ranker Demo.disk
              Demo.pandas Demo.generator Demo.cfg "q1" Demo.empty_world
              Demo.query1 eq_refl eq_refl eq_refl)
    as (v & t & sections & Hv & Ht & Hjv & Hjt & _).
  exists v, t. split; [exact Hv | split; [exact Ht | split; assumption]].
Defined.

Lemma process_query_resumes_witness :
  let result :=
    @process_query Demo.pdf Demo.vision Demo.evaluator Demo.similarity
      Demo.splitter Demo.ranker Demo.disk Demo.pandas Demo.generator
      Demo.cfg "q1" DemoMore.world_with_responses in
  snd result = Some true
  /\ trace (fst result) =
     [GenerateCombined "alpha beta"; WriteFile (combined_file Demo.cfg "q1")].
Proof.
  destruct (@process_query_resumes Demo.pdf Demo.vision Demo.evaluator
              Demo.similarity Demo.splitter Demo.ranker Demo.disk
              Demo.pandas Demo.generator Demo.cfg "q1"
              DemoMore.world_with_responses
              Demo.query1 (JObj [("Answer", JStr "42")])
              (JObj [("Answer", JStr "41")])
              eq_refl eq_refl eq_refl eq_refl)
    as (_ & Hgo & _).
  destruct (Hgo eq_refl eq_refl) as (Htrace & _ & _ & Hyes & _).
  destruct (Hyes eq_refl) as (Hres & _).
  split; [exact Hres | exact Htrace].
Defined.

End ProcessFacts.
(* ================================================================== *)
(** * The batch loop *)
(* ================================================================== *)

Module BatchFacts.
Import Orchestrator Footprint Batch.

Lemma unique_ids_In (df : Dataset.t) (q : string) :
  In q (unique_ids df) <-> In q (map Dataset.q_id df).
Proof.
  unfold unique_ids. rewrite DocRefsFacts.update_In. simpl. tauto.
Qed.

Lemma find_row_In (df : Dataset.t) (q : string) :
  In q (map Dataset.q_id df) ->
  exists query_row, VisualIndex.find_row q df = Some query_row.
Proof.
  unfold VisualIndex.find_row.
  induction df as [|r df IH]; intros Hin; [destruct Hin|].
  cbn [find]. destruct (String.eqb_spec (Dataset.q_id r) q) as [E|Hne].
  - now exists r.
  - destruct Hin as [E|Hin]; [contradiction | now apply IH].
Qed.

Section Loop.
Context {P : PdfBackend} {V : @VisionBackend P} `{PyEval} `{Similarity}
  `{TextSplitter} `{TextRanker} `{Disk} `{Pandas} {G : @Generator P}.

(** One turn of the loop: whatever [process_query] does, the loop goes
    on. *)
Lemma attempt_run (cfg : config) (query_id : string) (w : world) :
  catch (bind (process_query cfg query_id) (fun _ => ret tt)) (ret tt) w =
  (fst (process_query cfg query_id w), Some tt).
Proof.
  unfold catch, bind, ret.
  destruct (process_query cfg query_id w) as [w1 [b|]]; reflexivity.
Qed.

Lemma run_loop_cons (cfg : config) (query_id : string) (rest : list string)
  (w : world) :
  run_loop cfg (query_id :: rest) w =
  run_loop cfg rest (fst (process_query cfg query_id w)).
Proof.
  cbn [run_loop]. unfold bind at 1. now rewrite attempt_run.
Qed.

Lemma run_loop_returns (cfg : config) (ids : list string) :
  forall w, snd (run_loop cfg ids w) = Some tt.
Proof.
  induction ids as [|q ids IH]; intros w; [reflexivity|].
  rewrite run_loop_cons. apply IH.
Qed.

Lemma run_loop_keeps_files (cfg : config) (ids : list string) :
  forall w p,
    PyDict.mem p (files w) = true ->
    PyDict.mem p (files (fst (run_loop cfg ids w))) = true.
Proof.
  induction ids as [|q ids IH]; intros w p Hp; [exact Hp|].
  rewrite run_loop_cons. apply IH.
  destruct (FootprintFacts.touches_process_query cfg q w) as (_ & Hm & _).
  now apply Hm.
Qed.

(** A query of the dataset whose combined artifact is on disk costs the
    loop nothing. *)
Lemma process_query_done (cfg : config) (query_id : string) (w : world) :
  In query_id (map Dataset.q_id (df cfg)) ->
  PyDict.mem (combined_file cfg query_id) (files w) = true ->
  process_query cfg query_id w = (w, Some true).
Proof.
  intros Hin Hdone. destruct (find_row_In _ _ Hin) as [query_row Hrow].
  rewrite (ProcessFacts.process_query_run cfg query_id w _ Hrow).
  cbv zeta. now rewrite Hdone.
Qed.

Lemma run_loop_skips (cfg : config) (w0 : world) (ids : list string) :
  (forall q, In q ids -> In q (map Dataset.q_id (df cfg))) ->
  forall w,
    (forall p, PyDict.mem p (files w0) = true ->
               PyDict.mem p (files w) = true) ->
    run_loop cfg ids w =
    run_loop cfg
      (filter (fun q =>
                 negb (PyDict.mem (combined_file cfg q) (files w0))) ids)
      w.
Proof.
  induction ids as [|q ids IH]; intros Hids w Hkeep; [reflexivity|].
  assert (Hrest : forall q', In q' ids ->
                             In q' (map Dataset.q_id (df cfg)))
    by (intros q' Hq'; apply Hids; now right).
  cbn [filter].
  destruct (PyDict.mem (combined_file cfg q) (files w0)) eqn:Edone;
    cbn [negb].
  - rewrite run_loop_cons.
    rewrite (process_query_done cfg q w (Hids q (or_introl eq_refl))
               (Hkeep _ Edone)).
    cbn [fst]. now apply IH.
  - rewrite !run_loop_cons. apply IH; [exact Hrest|].
    intros p Hp.
    destruct (FootprintFacts.touches_process_query cfg q w) as (_ & Hm & _).
    apply Hm. now apply Hkeep.
Qed.

(** X20.  The batch loop.  [run] never raises.  It removes no file.  It
    does for the dataset exactly what it would do for the queries that had
    no combined artifact when it started, in the same order: a query that
    is complete is passed over without any action.  In particular, over a
    dataset in which every query is complete, [run] changes nothing. *)
Theorem run_skips_completed (cfg : config) (w : world) :
  let pending :=
    filter (fun q => negb (PyDict.mem (combined_file cfg q) (files w)))
           (unique_ids (df cfg)) in
  snd (run cfg w) = Some tt
  /\ (forall p, PyDict.mem p (files w) = true ->
                PyDict.mem p (files (fst (run cfg w))) = true)
  /\ run cfg w = run_loop cfg pending w
  /\ ((forall r, In r (df cfg) ->
         PyDict.mem (combined_file cfg (Dataset.q_id r)) (files w) = true) ->
      run cfg w = (w, Some tt)).
Proof.
  intros pending.
  assert (Hskip : run cfg w = run_loop cfg pending w).
  { unfold run. apply run_loop_skips; [|auto].
    intros q Hq. now apply unique_ids_In. }
  split; [apply run_loop_returns|].
  split; [apply run_loop_keeps_files|].
  split; [exact Hskip|].
  intros Hall. rewrite Hskip.
  assert (Hnone : pending = []).
  { subst pending. apply PyListFacts.filter_none.
    intros q Hq. apply unique_ids_In in Hq. apply in_map_iff in Hq.
    destruct Hq as (r & <- & Hr). now rewrite (Hall r Hr). }
  now rewrite Hnone.
Qed.

End Loop.

Lemma run_skips_completed_witness :
  @run Demo.pdf Demo.vision Demo.evaluator Demo.similarity Demo.splitter
    Demo.ranker Demo.disk Demo.pandas Demo.generator Demo.cfg
    DemoMore.world_all_completed
  = (DemoMore.world_all_completed, Some tt).
Proof.
  apply (@run_skips_completed Demo.pdf Demo.vision Demo.evaluator
           Demo.similarity Demo.splitter Demo.ranker Demo.disk Demo.pandas
           Demo.generator Demo.cfg DemoMore.world_all_completed).
  intros r [<-|[<-|[]]]; reflexivity.
Defined.

End BatchFacts.
(* ================================================================== *)
(** * Sections of an arbitrary reply *)
(* ================================================================== *)

Module SectionsMore.
Import PyStr Sections.

Lemma startswith_drop (p : string) :
  forall s, startswith p s = true -> s = p ++ drop (String.length p) s.
Proof.
  induction p as [|a p IH]; intros s Hsw; [reflexivity|].
  destruct s as [|b s]; [discriminate|].
  cbn [startswith] in Hsw. apply andb_true_iff in Hsw.
  destruct Hsw as [Hab Hsw]. apply Ascii.eqb_eq in Hab. subst b.
  cbn [String.length drop append]. f_equal. now apply IH.
Qed.

(** What [cut] returns are the two sides of an occurrence. *)
Lemma cut_sound (sep : string) :
  forall s a b, cut sep s = Some (a, b) -> s = a ++ sep ++ b.
Proof.
  induction s as [|c s IH]; intros a b Hcut; [discriminate|].
  cbn [cut] in Hcut.
  destruct (startswith sep (String c s)) eqn:Esw.
  - injection Hcut as <- <-. cbn [append]. now apply startswith_drop.
  - destruct (cut sep s) as [[h t]|]; [|discriminate].
    injection Hcut as <- <-. cbn [append]. f_equal. now apply IH.
Qed.

Lemma section_value_stripped (heading : string) (next : option string)
  (text : string) :
  strip (section_value heading next text) = section_value heading next text.
Proof.
  unfold section_value. destruct (search_group heading next text).
  - apply PyStrFacts.strip_idempotent.
  - reflexivity.
Qed.

(** A section with a following heading is empty when that heading does not
    occur in the text. *)
Lemma section_value_needs_next (heading next text : string) :
  occurs (marker next) text = false ->
  section_value heading (Some next) text = "".
Proof.
  intros Hocc. unfold section_value, search_group.
  destruct (cut (marker heading) text) as [[a rest]|] eqn:Ecut;
    [|reflexivity].
  apply cut_sound in Ecut. subst text.
  apply PyStrFacts.occurs_app_r, PyStrFacts.occurs_app_r in Hocc.
  now rewrite (PyStrFacts.cut_none _ _ Hocc).
Qed.

Lemma section_value_between_inv (heading next text : string) :
  section_value heading (Some next) text <> "" ->
  exists x g y,
    text = x ++ marker heading ++ g ++ marker next ++ y
    /\ section_value heading (Some next) text = strip g.
Proof.
  unfold section_value, search_group.
  destruct (cut (marker heading) text) as [[x rest]|] eqn:Ecut;
    [|intros Hne; now contradiction Hne].
  destruct (cut (marker next) rest) as [[g y]|] eqn:Enext;
    [|intros Hne; now contradiction Hne].
  intros _. exists x, g, y. split; [|reflexivity].
  apply cut_sound in Ecut, Enext. now subst.
Qed.

Lemma section_value_last_inv (heading text : string) :
  section_value heading None text <> "" ->
  exists x g,
    text = x ++ marker heading ++ g
    /\ section_value heading None text = strip g.
Proof.
  unfold section_value, search_group.
  destruct (cut (marker heading) text) as [[x rest]|] eqn:Ecut;
    [|intros Hne; now contradiction Hne].
  intros _. exists x, rest. split; [|reflexivity].
  now apply cut_sound in Ecut.
Qed.

(** X21.  [extract_sections] on an arbitrary reply.  The result always has
    the keys [Evidence], [Chain of Thought] and [Answer], in this order,
    and every value is free of leading and trailing whitespace.  A section
    that is followed by another heading is empty as soon as that heading
    is missing from the reply: without [## Chain of Thought:] there is no
    evidence, and without [## Answer:] there is no chain of thought and no
    answer.  A value that is not empty is the stripped text found between
    the heading of its section and the heading that follows, or the end of
    the reply for the answer. *)
Theorem extract_sections_shape (text : string) :
  let sections := extract_sections text in
  PyDict.keys sections = ["Evidence"; "Chain of Thought"; "Answer"]
  /\ (forall key value,
        PyDict.get key sections = Some value -> strip value = value)
  /\ (occurs (marker "Chain of Thought") text = false ->
      PyDict.get "Evidence" sections = Some "")
  /\ (occurs (marker "Answer") text = false ->
      PyDict.get "Chain of Thought" sections = Some ""
      /\ PyDict.get "Answer" sections = Some "")
  /\ (forall value,
        PyDict.get "Evidence" sections = Some value -> value <> "" ->
        exists x g y,
          text = x ++ marker "Evidence" ++ g
                   ++ marker "Chain of Thought" ++ y
          /\ value = strip g)
  /\ (forall value,
        PyDict.get "Chain of Thought" sections = Some value ->
        value <> "" ->
        exists x g y,
          text = x ++ marker "Chain of Thought" ++ g ++ marker "Answer" ++ y
          /\ value = strip g)
  /\ (forall value,
        PyDict.get "Answer" sections = Some value -> value <> "" ->
        exists x g, text = x ++ marker "Answer" ++ g /\ value = strip g).
Proof.
  cbv zeta. rewrite SectionsFacts.extract_sections_eq.
  split; [reflexivity|]. split.
  { intros key value. cbn [PyDict.get].
    destruct (String.eqb key "Evidence");
      [intros [= <-]; apply section_value_stripped|].
    destruct (String.eqb key "Chain of Thought");
      [intros [= <-]; apply section_value_stripped|].
    destruct (String.eqb key "Answer");
      [intros [= <-]; apply section_value_stripped | discriminate]. }
  split.
  { intros Hocc. cbn. now rewrite section_value_needs_next. }
  split.
  { intros Hocc. cbn. split.
    - now rewrite section_value_needs_next.
    - unfold section_value, search_group.
      now rewrite (PyStrFacts.cut_none _ _ Hocc). }
  split; [|split].
  - intros value Hget Hne.
    change (Some (section_value "Evidence" (Some "Chain of Thought") text)
            = Some value) in Hget.
    injection Hget as <-. now apply section_value_between_inv.
  - intros value Hget Hne.
    change (Some (section_value "Chain of Thought" (Some "Answer") text)
            = Some value) in Hget.
    injection Hget as <-. now apply section_value_between_inv.
  - intros value Hget Hne.
    change (Some (section_value "Answer" None text) = Some value) in Hget.
    injection Hget as <-. now apply section_value_last_inv.
Qed.

Lemma extract_sections_shape_witness :
  PyDict.get "Evidence" (extract_sections "## Evidence: page 3") = Some ""
  /\ strip "42" = "42"
  /\ exists x g,
       "So: ## Answer: 42 " = x ++ marker "Answer" ++ g /\ "42" = strip g.
Proof.
  split; [|split].
  - apply (extract_sections_shape "## Evidence: page 3"). reflexivity.
  - apply (extract_sections_shape "So: ## Answer: 42 ") with (key := "Answer").
    reflexivity.
  - apply (extract_sections_shape "So: ## Answer: 42 ");
      [reflexivity | discriminate].
Defined.

Lemma split_char_plain (c : ascii) :
  forall s, occurs (String c "") s = false -> split_char c s = [s].
Proof.
  induction s as [|a s IH]; intros Hocc; [reflexivity|].
  cbn [occurs startswith] in Hocc. apply orb_false_iff in Hocc.
  destruct Hocc as [Hac Hocc]. rewrite andb_true_r in Hac.
  cbn [split_char]. rewrite Ascii.eqb_sym, Hac. now rewrite (IH Hocc).
Qed.

Lemma split_char_line (c : ascii) (rest : string) :
  forall x, occurs (String c "") x = false ->
            split_char c (x ++ String c rest) = x :: split_char c rest.
Proof.
  induction x as [|a x IH]; intros Hocc.
  - cbn [append split_char]. now rewrite Ascii.eqb_refl.
  - cbn [occurs startswith] in Hocc. apply orb_false_iff in Hocc.
    destruct Hocc as [Hac Hocc]. rewrite andb_true_r in Hac.
    cbn [append split_char]. rewrite Ascii.eqb_sym, Hac.
    now rewrite (IH Hocc).
Qed.

(** Splitting at newlines undoes joining by newlines, for lines that hold
    no newline. *)
Lemma split_join (c : ascii) (ls : list string) :
  ls <> [] ->
  (forall l, In l ls -> occurs (String c "") l = false) ->
  split_char c (join (String c "") ls) = ls.
Proof.
  unfold join. induction ls as [|x ls IH]; intros Hne Hls; [easy|].
  destruct ls as [|y ls].
  - cbn [String.concat]. apply split_char_plain. apply Hls. now left.
  - change (String.concat (String c "") (x :: y :: ls))
      with (x ++ String c (String.concat (String c "") (y :: ls))).
    rewrite split_char_line by (apply Hls; now left).
    f_equal. apply IH; [discriminate|].
    intros l Hl. apply Hls. now right.
Qed.

Lemma lines_under_heading (key : string) (current : option string)
  (h name : string) (block rest : list string) :
  is_heading_line h = true -> heading_name h = name ->
  (forall l, In l block -> is_heading_line l = false) ->
  lines_under key current (h :: block ++ rest)%list =
  ((if String.eqb name key then block else [])
     ++ lines_under key (Some name) rest)%list.
Proof.
  intros Hh <- Hblock. cbn [lines_under]. rewrite Hh.
  now apply SectionsFacts.lines_under_block.
Qed.

(** X22.  A reply in the requested format parses back.  For a reply made
    of the line [## Analysis:], some lines, the line [## Conclusion:], some
    lines, the line [## Final Answer:] and some lines, where no line of the
    three blocks starts a heading or holds a newline,
    [parse_combined_output] returns for each key the lines of its block,
    each followed by a newline, stripped of surrounding whitespace as a
    whole. *)
Theorem parse_combined_output_round_trip (A C F : list string) :
  (forall l, In l (A ++ C ++ F)%list ->
             is_heading_line l = false /\ occurs DocCache.nl l = false) ->
  parse_combined_output
    (join DocCache.nl
       ("## Analysis:" :: A ++ "## Conclusion:" :: C
          ++ "## Final Answer:" :: F)%list)
  = [("Analysis", strip (body A));
     ("Conclusion", strip (body C));
     ("Final Answer", strip (body F))].
Proof.
  intros Hlines.
  assert (HA : forall l, In l A -> is_heading_line l = false)
    by (intros l Hl; apply Hlines, in_or_app; now left).
  assert (HC : forall l, In l C -> is_heading_line l = false)
    by (intros l Hl; apply Hlines, in_or_app; right;
        apply in_or_app; now left).
  assert (HF : forall l, In l F -> is_heading_line l = false)
    by (intros l Hl; apply Hlines, in_or_app; right;
        apply in_or_app; now right).
  assert (Hunder : forall key,
    lines_under key None
      ("## Analysis:" :: A ++ "## Conclusion:" :: C
         ++ "## Final Answer:" :: F)%list
    = ((if String.eqb "Analysis" key then A else [])
         ++ (if String.eqb "Conclusion" key then C else [])
         ++ (if String.eqb "Final Answer" key then F else []))%list).
  { intros key.
    rewrite (lines_under_heading key None "## Analysis:" "Analysis" A)
      by (reflexivity || exact HA).
    rewrite (lines_under_heading key _ "## Conclusion:" "Conclusion" C)
      by (reflexivity || exact HC).
    rewrite <- (app_nil_r F) at 1.
    rewrite (lines_under_heading key _ "## Final Answer:" "Final Answer" F)
      by (reflexivity || exact HF).
    cbn [lines_under]. now rewrite !app_nil_r. }
  unfold parse_combined_output.
  change (ascii_of_nat 10) with "010"%char.
  change DocCache.nl with (String "010"%char "").
  rewrite split_join.
  - rewrite SectionsFacts.parse_lines_eq, !Hunder.
    cbn [String.eqb Ascii.eqb Bool.eqb andb app map fst snd].
    now rewrite !app_nil_r.
  - discriminate.
  - intros l [<-|Hl]; [reflexivity|].
    apply in_app_or in Hl. destruct Hl as [Hl|[<-|Hl]].
    + apply Hlines, in_or_app. now left.
    + reflexivity.
    + apply in_app_or in Hl. destruct Hl as [Hl|[<-|Hl]].
      * apply Hlines, in_or_app. right. apply in_or_app. now left.
      * reflexivity.
      * apply Hlines, in_or_app. right. apply in_or_app. now right.
Qed.

Lemma parse_combined_output_round_trip_witness :
  parse_combined_output
    (join DocCache.nl
       ("## Analysis:" :: ["both cite page 3"; "and agree"]
          ++ "## Conclusion:" :: ["either"]
          ++ "## Final Answer:" :: ["42"; ""])%list)
  = [("Analysis", strip (body ["both cite page 3"; "and agree"]));
     ("Conclusion", strip (body ["either"]));
     ("Final Answer", strip (body ["42"; ""]))].
Proof.
  apply (parse_combined_output_round_trip
           ["both cite page 3"; "and agree"] ["either"] ["42"; ""]).
  intros l Hl. cbn in Hl.
  repeat (destruct Hl as [<-|Hl]; [split; reflexivity|]). destruct Hl.
Defined.

Lemma lstrip_char_split (c : ascii) :
  forall s, exists m, s = repeat_char c m ++ lstrip_char c s.
Proof.
  induction s as [|a s [m IH]]; [now exists 0|].
  cbn [lstrip_char]. destruct (Ascii.eqb_spec a c) as [->|Hne].
  - exists (S m). cbn [repeat_char append]. now rewrite <- IH.
  - now exists 0.
Qed.

Lemma rstrip_char_split (c : ascii) :
  forall s, exists n, s = rstrip_char c s ++ repeat_char c n.
Proof.
  induction s as [|a s [n IH]]; [now exists 0|].
  cbn [rstrip_char]. destruct (rstrip_char c s) as [|b r] eqn:E.
  - cbn [append] in IH. destruct (Ascii.eqb_spec a c) as [->|Hne].
    + exists (S n). cbn [repeat_char append]. now rewrite <- IH.
    + exists n. cbn [append]. now rewrite <- IH.
  - exists n. cbn [append] in *. now rewrite <- IH.
Qed.

Lemma lstrip_char_repeat (c : ascii) (s : string) :
  forall m, lstrip_char c (repeat_char c m ++ s) = lstrip_char c s.
Proof.
  induction m as [|m IH]; [reflexivity|].
  cbn [repeat_char append lstrip_char]. now rewrite Ascii.eqb_refl.
Qed.

Lemma rstrip_char_repeat (c : ascii) :
  forall n, rstrip_char c (repeat_char c n) = "".
Proof.
  induction n as [|n IH]; [reflexivity|].
  cbn [repeat_char rstrip_char]. now rewrite IH, Ascii.eqb_refl.
Qed.

Lemma rstrip_char_app_repeat (c : ascii) (n : nat) :
  forall s, rstrip_char c (s ++ repeat_char c n) = rstrip_char c s.
Proof.
  induction s as [|a s IH]; [apply rstrip_char_repeat|].
  cbn [append rstrip_char]. now rewrite IH.
Qed.

Lemma repeat_char_head (c a : ascii) (m : nat) (k x y : string) :
  a <> c -> repeat_char c m ++ String a x = String a y -> m = 0.
Proof.
  intros Hne E. destruct m as [|m]; [reflexivity|].
  cbn [repeat_char append] in E. injection E as E _. now symmetry in E.
Qed.

(** The name of a heading line, for a key that neither starts nor ends
    with a colon. *)
Lemma heading_name_key (a : ascii) (k line : string) :
  a <> ":"%char -> rstrip_char ":" (String a k) = String a k ->
  (is_heading_line line = true /\ heading_name line = String a k)
  <-> exists m n,
        line = "## " ++ repeat_char ":" m ++ String a k
                 ++ repeat_char ":" n.
Proof.
  intros Ha Hk. unfold is_heading_line, heading_name, strip_char. split.
  - intros [Hstart Hname]. apply startswith_drop in Hstart.
    cbn [String.length] in Hstart.
    destruct (lstrip_char_split ":" (drop 3 line)) as [m Hm].
    destruct (rstrip_char_split ":" (lstrip_char ":" (drop 3 line)))
      as [n Hn].
    rewrite Hname in Hn. exists m, n.
    rewrite Hstart at 1. now rewrite Hm at 1; rewrite Hn at 1.
  - intros (m & n & ->). split; [apply PyStrFacts.startswith_app|].
    change 3 with (String.length "## "). rewrite PyStrFacts.drop_app.
    rewrite lstrip_char_repeat.
    cbn [append lstrip_char].
    destruct (Ascii.eqb_spec a ":") as [E|_]; [contradiction|].
    change (String a (k ++ repeat_char ":" n))
      with (String a k ++ repeat_char ":" n).
    now rewrite rstrip_char_app_repeat.
Qed.

(** X23.  Which lines open a section of the combined reply.  For each of
    the three keys, a line is a heading line named by the key exactly when
    it is [## ], any number of colons, the key, and any number of colons:
    the colon after the key may be missing or repeated.  Text after the
    colon on the heading line changes the name: [## Final Answer: 42] does
    not open the section Final Answer, unless the text is made of colons
    only. *)
Theorem heading_line_recognised (key line : string) :
  In key ["Analysis"; "Conclusion"; "Final Answer"] ->
  ((is_heading_line line = true /\ heading_name line = key)
   <-> exists m n,
         line = "## " ++ repeat_char ":" m ++ key ++ repeat_char ":" n)
  /\ (forall rest,
        heading_name ("## " ++ key ++ ":" ++ rest) = key
        <-> exists n, rest = repeat_char ":" n).
Proof.
  intros Hkey.
  assert (Hshape : exists a k, key = String a k /\ a <> ":"%char
                               /\ rstrip_char ":" (String a k) = String a k).
  { destruct Hkey as [<-|[<-|[<-|[]]]]; eexists _, _;
      (split; [reflexivity | split; [discriminate | reflexivity]]). }
  destruct Hshape as (a & k & -> & Ha & Hk).
  split; [now apply heading_name_key|].
  intros rest. split.
  - intros Hname.
    assert (Hrec : is_heading_line ("## " ++ String a k ++ ":" ++ rest) = true
                   /\ heading_name ("## " ++ String a k ++ ":" ++ rest)
                      = String a k)
      by (split; [apply PyStrFacts.startswith_app | exact Hname]).
    apply (heading_name_key a k _ Ha Hk) in Hrec.
    destruct Hrec as (m & n & E).
    apply (DocRefsFacts.append_inj_l "## ") in E.
    assert (Hm : m = 0).
    { cbn [append] in E. symmetry in E.
      now apply (repeat_char_head ":" a m k _ _ Ha) in E. }
    subst m. cbn [repeat_char] in E.
    change ("" ++ String a k ++ repeat_char ":" n)
      with (String a k ++ repeat_char ":" n) in E.
    apply DocRefsFacts.append_inj_l in E.
    destruct n as [|n]; [discriminate|].
    cbn [repeat_char append] in E. injection E as E. now exists n.
  - intros [n ->].
    apply (heading_name_key a k _ Ha Hk).
    exists 0, (S n). reflexivity.
Qed.

Lemma heading_line_recognised_witness :
  (is_heading_line "## Final Answer" = true
   /\ heading_name "## Final Answer" = "Final Answer")
  /\ heading_name "## Final Answer: 42" <> "Final Answer".
Proof.
  split.
  - apply (heading_line_recognised "Final Answer" "## Final Answer").
    + right. right. now left.
    + exists 0, 0. reflexivity.
  - intros E.
    apply (heading_line_recognised "Final Answer" "## Final Answer")
      in E; [|right; right; now left].
    destruct E as [[|[|n]] E]; discriminate.
Defined.

End SectionsMore.

